(** * fluxy: the terminal session state machine, the job driver and the
      render planner, embedded from the Go sources of package [cmd].

    - the current terminal UI (type [newModel] with [newInitialModel],
      [Update], [View], [loadingView], [viewImageWithControls],
      [generateImage]) and the request/response types of [cmd/types.go]
      are embedded at top level and in [Module Types];
    - the command line ([rootCmd.Run] of [cmd/root.go]) and [saveImage],
      with the sanitiser of the file name ([strings.Map] over the
      runes of the prompt), are embedded at top level;
    - the two earlier revisions of the UI that are still in the
      repository (type [model]) are embedded in [Module Legacy] (with a
      configuration and regeneration) and [Module Proto] ([cmd/tui.go]).

    Go values are modelled as the code has them: [int] as [Z], a [[]byte]
    as an optional byte list (the nil slice is [None], the empty non-nil
    slice [[]byte{}] is [Some []]), an [error] interface as an optional
    failure, [float64] as the exact rational it denotes together with the
    IEEE-754 rounding of every operation. *)

From Stdlib Require Import ZArith QArith Qround Qabs Qminmax List String Ascii Bool Lia Lqa.
From Stdlib.Strings Require Import Byte.
From Stdlib Require Import DecimalString.
Import ListNotations.

Set Warnings "-register-all".
Local Open Scope string_scope.
Local Open Scope Z_scope.

(** ** Go data *)

(** A Go byte slice; [None] is the nil slice. *)
Definition bytes := option (list byte).

(** [len(b)] *)
Definition len (b : bytes) : Z :=
  match b with
  | None => 0
  | Some l => Z.of_nat (List.length l)
  end.

(** [b != nil] *)
Definition notNil (b : bytes) : bool :=
  match b with
  | None => false
  | Some _ => true
  end.

(** [type config struct] *)
Record config := mkConfig {
  Prompt : string;
  ApiToken : string;
  FluxModel : string;
  AspectRatio : string;
  OutputFormat : string;
  OutputFolder : string
}.

(** A decoded JSON value, Go's [any] after [json.Unmarshal], and the value
    tree [json.Marshal] serialises. *)
Inductive JSON :=
| JNull
| JBool (b : bool)
| JNum (q : Q)
| JStr (s : string)
| JList (l : list JSON)
| JObj (fields : list (string * JSON)).

(** The error values the program creates, one constructor per
    [fmt.Errorf] format string; the wrapped cause is kept as data. *)
Inductive Failure :=
| ErrNoToken                          (* "replicate API token not provided. ..." *)
| ErrEnvNotSet                        (* "REPLICATE_API_KEY environment variable not set" *)
| ErrInvalidModel (model : string)    (* "invalid flux model: %s" *)
| ErrCreatingRequest (cause : string) (* "error creating request: %w" *)
| ErrSendingRequest (cause : string)  (* "error sending request: %w" *)
| ErrReadingResponse (cause : string) (* "error reading response: %w" *)
| ErrUnmarshal (cause : string)       (* "error unmarshaling JSON: %w" *)
| ErrGenerationFailed (reason : JSON) (* "image generation failed: %s", result.Error *)
| ErrUnexpectedOutput (output : JSON) (* "unexpected output type: %T" *)
| ErrFetchingImage (cause : string)   (* "error fetching image: %w" *)
| ErrReadingImage (cause : string)    (* "error reading image data: %w" *)
| ErrSave (cause : string)            (* the errors of saveImage *)
| ErrDecode (cause : string).         (* termimg.NewTermImg / termimg.From *)

Inductive MouseButton := MouseLeft | MouseOtherButton.

(** The messages the bubbletea runtime delivers to [Update].  A key
    message is represented by [msg.String()], the only thing [Update]
    inspects; [OtherMsg] stands for the messages of the widgets
    (spinner ticks, cursor blinks, pastes). *)
Inductive Msg :=
| WindowSizeMsg (Width Height : Z)
| KeyMsg (str : string)
| MouseClickMsg (X Y : Z) (Button : MouseButton)
| BytesMsg (data : bytes)
| ErrorMsg (e : Failure)
| StringMsg (s : string)
| OtherMsg (tag : string).

(** The commands [Update] hands back to the runtime.  [GenerateImage p c]
    is the closure returned by [generateImage(p, c)]. *)
Inductive Cmd :=
| CmdNil
| Quit
| ClearScreen
| GenerateImage (prompt : string) (c : config)
| SpinnerTick
| Blink
| WidgetCmd (tag : string)
| Batch (cmds : list Cmd).

(** Side effects performed by [Update] and [View] themselves, in order. *)
Inductive Effect :=
| TermClearAll                         (* termimg.ClearAll() *)
| DebugWrite (path : string) (n : Z)   (* os.WriteFile of the debug note *)
| SaveImage (data : bytes) (prompt : string).

(** The jobs a command dispatches, in order. *)
Fixpoint dispatched (c : Cmd) : list (string * config) :=
  match c with
  | GenerateImage p cfg => [(p, cfg)]
  | Batch cs => flat_map dispatched cs
  | _ => []
  end.

(** ** The widgets of the bubbles library

    [textinput.Model] and [spinner.Model] belong to an external library;
    the program only calls the operations below.  Every statement about
    [Update] and [View] holds for any implementation of them. *)
Class Widgets := {
  TextInput : Type;
  textinput_New : TextInput;
  textinput_Value : TextInput -> string;
  textinput_Blur : TextInput -> TextInput;
  textinput_Update : TextInput -> Msg -> TextInput * Cmd;
  textinput_View : TextInput -> string;
  SpinnerModel : Type;
  spinner_New : SpinnerModel;
  spinner_Update : SpinnerModel -> Msg -> SpinnerModel * Cmd;
  spinner_View : SpinnerModel -> string
}.

(** [saveImage] writes the image under a name built from the prompt and
    the clock; only whether it fails reaches the session. *)
Record Disk := mkDisk {
  saveImage : bytes -> string -> config -> option Failure
}.

(** ** Session state: [type newModel struct] *)
Record newModel {W : Widgets} := mkNewModel {
  width : Z;
  height : Z;
  prompt : string;
  imageData : bytes;
  generating : bool;
  inputMode : bool;
  selectedBtn : Z;               (* 0: regenerate, 1: download *)
  textInput : TextInput;
  spinner : SpinnerModel;
  cfg : config;                  (* the field [config] *)
  err : option Failure;
  imageRendered : bool;
  needsImageClear : bool;
  isRegenerating : bool
}.
Arguments mkNewModel {W}.

Section Session.
Context `{W : Widgets}.
Variable disk : Disk.

(** Field assignments [m.f = v] on the (value-receiver) copy of the model. *)
Definition set_size (m : newModel) (w h : Z) : newModel :=
  mkNewModel w h (prompt m) (imageData m) (generating m) (inputMode m)
    (selectedBtn m) (textInput m) (spinner m) (cfg m) (err m)
    (imageRendered m) (needsImageClear m) (isRegenerating m).
Definition set_prompt (m : newModel) (p : string) : newModel :=
  mkNewModel (width m) (height m) p (imageData m) (generating m) (inputMode m)
    (selectedBtn m) (textInput m) (spinner m) (cfg m) (err m)
    (imageRendered m) (needsImageClear m) (isRegenerating m).
Definition set_imageData (m : newModel) (b : bytes) : newModel :=
  mkNewModel (width m) (height m) (prompt m) b (generating m) (inputMode m)
    (selectedBtn m) (textInput m) (spinner m) (cfg m) (err m)
    (imageRendered m) (needsImageClear m) (isRegenerating m).
Definition set_generating (m : newModel) (g : bool) : newModel :=
  mkNewModel (width m) (height m) (prompt m) (imageData m) g (inputMode m)
    (selectedBtn m) (textInput m) (spinner m) (cfg m) (err m)
    (imageRendered m) (needsImageClear m) (isRegenerating m).
Definition set_inputMode (m : newModel) (i : bool) : newModel :=
  mkNewModel (width m) (height m) (prompt m) (imageData m) (generating m) i
    (selectedBtn m) (textInput m) (spinner m) (cfg m) (err m)
    (imageRendered m) (needsImageClear m) (isRegenerating m).
Definition set_selectedBtn (m : newModel) (b : Z) : newModel :=
  mkNewModel (width m) (height m) (prompt m) (imageData m) (generating m)
    (inputMode m) b (textInput m) (spinner m) (cfg m) (err m)
    (imageRendered m) (needsImageClear m) (isRegenerating m).
Definition set_textInput (m : newModel) (t : TextInput) : newModel :=
  mkNewModel (width m) (height m) (prompt m) (imageData m) (generating m)
    (inputMode m) (selectedBtn m) t (spinner m) (cfg m) (err m)
    (imageRendered m) (needsImageClear m) (isRegenerating m).
Definition set_spinner (m : newModel) (s : SpinnerModel) : newModel :=
  mkNewModel (width m) (height m) (prompt m) (imageData m) (generating m)
    (inputMode m) (selectedBtn m) (textInput m) s (cfg m) (err m)
    (imageRendered m) (needsImageClear m) (isRegenerating m).
Definition set_err (m : newModel) (e : option Failure) : newModel :=
  mkNewModel (width m) (height m) (prompt m) (imageData m) (generating m)
    (inputMode m) (selectedBtn m) (textInput m) (spinner m) (cfg m) e
    (imageRendered m) (needsImageClear m) (isRegenerating m).
Definition set_imageRendered (m : newModel) (b : bool) : newModel :=
  mkNewModel (width m) (height m) (prompt m) (imageData m) (generating m)
    (inputMode m) (selectedBtn m) (textInput m) (spinner m) (cfg m) (err m)
    b (needsImageClear m) (isRegenerating m).
Definition set_needsImageClear (m : newModel) (b : bool) : newModel :=
  mkNewModel (width m) (height m) (prompt m) (imageData m) (generating m)
    (inputMode m) (selectedBtn m) (textInput m) (spinner m) (cfg m) (err m)
    (imageRendered m) b (isRegenerating m).
Definition set_isRegenerating (m : newModel) (b : bool) : newModel :=
  mkNewModel (width m) (height m) (prompt m) (imageData m) (generating m)
    (inputMode m) (selectedBtn m) (textInput m) (spinner m) (cfg m) (err m)
    (imageRendered m) (needsImageClear m) b.

(** [func newInitialModel(c *config) newModel] *)
Definition newInitialModel (c : config) : newModel :=
  mkNewModel 0 0 (Prompt c) None
    (negb (String.eqb (Prompt c) ""))      (* generating: c.Prompt != "" *)
    (String.eqb (Prompt c) "")             (* inputMode:  c.Prompt == "" *)
    0 textinput_New spinner_New c None false false false.

(** [func (m newModel) Init() tea.Cmd] *)
Definition Init (m : newModel) : Cmd :=
  if generating m
  then Batch [GenerateImage (prompt m) (cfg m); SpinnerTick]
  else Batch [Blink; SpinnerTick].

(** The regenerate branch, written twice in [Update] (key and mouse). *)
Definition regenerate (m : newModel) : newModel * Cmd * list Effect :=
  let m := set_imageData m (Some []) in      (* m.imageData = []byte{} *)
  let m := set_needsImageClear m true in
  let m := set_isRegenerating m true in
  let m := set_generating m true in
  (m, Batch [ClearScreen; GenerateImage (prompt m) (cfg m); SpinnerTick],
   [TermClearAll]).

(** The download branch, written twice in [Update] (key and mouse). *)
Definition download (m : newModel) : newModel * Cmd * list Effect :=
  let eff := [SaveImage (imageData m) (prompt m)] in
  match saveImage disk (imageData m) (prompt m) (cfg m) with
  | Some e => (set_err m (Some e), Quit, eff)
  | None => (m, Quit, eff)
  end.

(** The statements after the type switch of [Update]. *)
Definition afterSwitch (m : newModel) (msg : Msg) : newModel * Cmd * list Effect :=
  let '(ti, cmd) :=
    if inputMode m then textinput_Update (textInput m) msg
    else (textInput m, CmdNil) in
  let m := set_textInput m ti in
  let '(sp, spinnerCmd) := spinner_Update (spinner m) msg in
  let m := set_spinner m sp in
  if generating m then (m, Batch [cmd; spinnerCmd], [])
  else (m, cmd, []).

(** [m.selectedBtn = (m.selectedBtn + 1) % 2] under the guard shared by
    the navigation keys. *)
Definition navigate (m : newModel) (f : Z -> Z) : newModel :=
  if negb (inputMode m) && notNil (imageData m)
  then set_selectedBtn m (f (selectedBtn m))
  else m.

Definition isKey (k : string) (names : list string) : bool :=
  existsb (String.eqb k) names.

Definition isLeft (b : MouseButton) : bool :=
  match b with MouseLeft => true | MouseOtherButton => false end.

(** [func (m newModel) Update(msg tea.Msg) (tea.Model, tea.Cmd)], with
    the side effects it performs on the way.  Integer [/] and [%] are
    Go's truncating [Z.quot] and [Z.rem]. *)
Definition Update (m : newModel) (msg : Msg) : newModel * Cmd * list Effect :=
  match msg with
  | WindowSizeMsg w h =>
      let m := set_size m w h in
      let m := set_imageRendered m false in
      let m := set_needsImageClear m true in
      afterSwitch m msg
  | KeyMsg k =>
      if isKey k ["ctrl+c"; "q"] then (m, Quit, [])
      else if isKey k ["enter"] then
        if inputMode m then
          let m := set_prompt m (textinput_Value (textInput m)) in
          if String.eqb (prompt m) "" then (m, CmdNil, [])
          else
            let m := set_inputMode m false in
            let m := set_textInput m (textinput_Blur (textInput m)) in
            let m := set_generating m true in
            (m, Batch [GenerateImage (prompt m) (cfg m); SpinnerTick], [])
        else if notNil (imageData m) then
          if selectedBtn m =? 0 then regenerate m else download m
        else afterSwitch m msg
      else if isKey k ["left"; "h"] then
        afterSwitch (navigate m (fun _ => 0)) msg
      else if isKey k ["right"; "l"] then
        afterSwitch (navigate m (fun _ => 1)) msg
      else if isKey k ["tab"] then
        afterSwitch (navigate m (fun b => Z.rem (b + 1) 2)) msg
      else if isKey k ["j"; "down"] then
        afterSwitch (navigate m (fun b => Z.rem (b + 1) 2)) msg
      else if isKey k ["k"; "up"] then
        afterSwitch (navigate m (fun b => Z.rem (b + 1) 2)) msg
      else afterSwitch m msg
  | MouseClickMsg x y button =>
      if negb (inputMode m) && notNil (imageData m) && isLeft button then
        let controlsPanelTop := height m - 8 in
        if y >=? controlsPanelTop then
          let centerX := Z.quot (width m) 2 in
          let containerWidth := 40 in
          let containerLeft := centerX - Z.quot containerWidth 2 in
          let containerRight := centerX + Z.quot containerWidth 2 in
          if (x >=? containerLeft) && (x <=? containerRight) then
            if x <? centerX then regenerate (set_selectedBtn m 0)
            else download (set_selectedBtn m 1)
          else afterSwitch m msg
        else afterSwitch m msg
      else afterSwitch m msg
  | BytesMsg data =>
      let m := set_imageData m data in
      let m := set_generating m false in
      let m := set_needsImageClear m true in
      let m := set_selectedBtn m 0 in
      let m := set_textInput m (textinput_Blur (textInput m)) in
      (m, CmdNil, [DebugWrite "/tmp/fluxy_update_debug.txt" (len data)])
  | ErrorMsg e =>
      let m := set_err m (Some e) in
      let m := set_generating m false in
      (m, CmdNil, [])
  | StringMsg _ | OtherMsg _ => afterSwitch m msg
  end.

(** The session after a sequence of messages, as the runtime feeds them. *)
Definition step (m : newModel) (msg : Msg) : newModel := fst (fst (Update m msg)).
Definition run (m : newModel) (msgs : list Msg) : newModel := fold_left step msgs m.

End Session.

(** ** float64

    A finite float64 is represented by the rational it denotes.  Every
    operation is the exact operation followed by [round]: round to
    nearest, ties to even, on a 53-bit significand.  The exponent range is
    not bounded, which is immaterial for the magnitudes of cell and pixel
    counts; division by zero is guarded by the callers. *)
Module F64.

(** Nearest integer to the positive fraction [N/D], ties to even. *)
Definition rne (N D : Z) : Z :=
  let q := N / D in
  let r := N mod D in
  if 2 * r <? D then q
  else if D <? 2 * r then q + 1
  else if Z.even q then q else q + 1.

(** Numerator and denominator of [(n/d) / 2^e]. *)
Definition scaleN (n e : Z) : Z := n * 2 ^ Z.max 0 (- e).
Definition scaleD (d e : Z) : Z := d * 2 ^ Z.max 0 e.

(** The exponent [e] of the unit in the last place of [n/d]:
    [2^52 <= (n/d) / 2^e < 2^53]. *)
Definition ulpExp (n d : Z) : Z :=
  let e0 := Z.log2 n - Z.log2 d - 53 in
  if scaleN n e0 <? 2 ^ 53 * scaleD d e0 then e0 else e0 + 1.

(** [n/d] rounded to 53 significant bits, for [n, d > 0]. *)
Definition roundPos (n d : Z) : Q :=
  let e := ulpExp n d in
  let m := rne (scaleN n e) (scaleD d e) in
  Qmake (m * 2 ^ Z.max 0 e) (Z.to_pos (2 ^ Z.max 0 (- e))).

Definition round (x : Q) : Q :=
  match Qnum x with
  | Z0 => 0%Q
  | Zpos n => roundPos (Zpos n) (Zpos (Qden x))
  | Zneg n => Qopp (roundPos (Zpos n) (Zpos (Qden x)))
  end.

(** [float64(i)] *)
Definition ofInt (i : Z) : Q := round (inject_Z i).
(** [a / b], [a * b] *)
Definition div (a b : Q) : Q := round (Qdiv a b).
Definition mul (a b : Q) : Q := round (Qmult a b).
(** [math.Min(a, b)], [math.Ceil(a)] *)
Definition Min (a b : Q) : Q := if Qle_bool a b then a else b.
Definition Ceil (a : Q) : Q := inject_Z (Qceiling a).
(** [int(a)]: truncation toward zero. *)
Definition toInt (a : Q) : Z := Z.quot (Qnum a) (Zpos (Qden a)).

(** The unit roundoff, 2^-53. *)
Definition u : Q := 1 # 9007199254740992.

End F64.

(** ** Sizing the image in cells

    The block shared by [viewImageWithControls], [viewImageOptimized] and
    [renderImageOverlay]. *)

(** [int(math.Ceil(float64(px) / float64(font)))] *)
Definition cellsOf (px font : Z) : Z :=
  F64.toInt (F64.Ceil (F64.div (F64.ofInt px) (F64.ofInt font))).

(** [targetW, targetH] from [origW, origH, maxW, maxH]. *)
Definition fitCells (origW origH maxW maxH : Z) : Z * Z :=
  if (origW >? maxW) || (origH >? maxH) then
    let wRatio := F64.div (F64.ofInt maxW) (F64.ofInt origW) in
    let hRatio := F64.div (F64.ofInt maxH) (F64.ofInt origH) in
    let ratio := F64.Min wRatio hRatio in
    (F64.toInt (F64.mul (F64.ofInt origW) ratio),
     F64.toInt (F64.mul (F64.ofInt origH) ratio))
  else (origW, origH).

(** The ratio the specification names, [min (maxW/origW) (maxH/origH)],
    as an exact rational. *)
Definition exactRatio (origW origH maxW maxH : Z) : Q :=
  Qmin (inject_Z maxW / inject_Z origW) (inject_Z maxH / inject_Z origH).

(** ** The terminal as [View] sees it

    What the calls into go-termimg and [os.Getenv] answer. *)
Record Terminal := mkTerminal {
  termimg_From : list byte -> option (Z * Z);
      (* the decoded image's [Bounds.Dx(), Bounds.Dy()], or an error *)
  FontWidth : Z;
  FontHeight : Z;  (* termimg.QueryTerminalFeatures() *)
  termimg_Render : list byte -> Z -> Z -> option string;
      (* img.Width(w).Height(h).Render() *)
  TERM : string;
  TERM_PROGRAM : string;
  DetectProtocol : string
}.

(** The pieces a frame is written from, in output order. *)
Inductive TermOp :=
| CursorTo (row col : Z)       (* ESC [ row ; col H *)
| TitleColors                  (* ESC [ 48;2;124;58;237;97 m *)
| Spaces (n : Z)               (* strings.Repeat(" ", n) *)
| Text (s : string)
| ResetColorsNewline           (* ESC [ 0 m, newline *)
| SaveCursor                   (* ESC [ s *)
| ImageCmd (cmd : string)      (* the encoder's protocol string *)
| RestoreCursor                (* ESC [ u *)
| Controls (regenerateSelected : bool).

Inductive ImageFailure := FailedToCreate | FailedToRender.

(** What [View] returns.  The panels laid out by lipgloss are kept as the
    data handed to it. *)
Inductive Frame :=
| Initializing
| ErrorView (w h : Z) (e : Failure)
| InputView (w h : Z) (input : string)
| LoadingView (w h : Z) (spin : string) (message : string)
| Escapes (ops : list TermOp)
| ImageErrorView (w h : Z) (what : ImageFailure) (term termProgram protocol : string)
| Empty
| Undefined      (* float64 left the finite range before an int conversion *)
| Panic.         (* strings.Repeat: negative Repeat count *)

(** The three UTF-8 bytes of the sparkles sign and a space: the title
    prefix. *)
Definition sparkles : string :=
  String (ascii_of_nat 226) (String (ascii_of_nat 156) (String (ascii_of_nat 168) " ")).

Section Render.
Context `{W : Widgets}.
Variable term : Terminal.

(** [func (m *newModel) renderControlsWithEscapes(controlsY int) string] *)
Definition renderControlsWithEscapes (m : newModel) (controlsY : Z) : list TermOp :=
  [CursorTo controlsY 1; Controls (selectedBtn m =? 0)].

(** [func (m *newModel) renderErrorMessage(message string) string] *)
Definition renderErrorMessage (m : newModel) (what : ImageFailure) : Frame :=
  ImageErrorView (width m) (height m) what
    (TERM term) (TERM_PROGRAM term) (DetectProtocol term).

(** [func (m newModel) loadingView() string] *)
Definition loadingView (m : newModel) : Frame :=
  let message := "Generating your image..." in
  let message :=
    if negb (notNil (imageData m)) && negb (String.eqb (prompt m) "")
    then "Regenerating image..." else message in
  LoadingView (width m) (height m) (spinner_View (spinner m)) message.

(** [func (m newModel) controlsOnlyView() string] *)
Definition controlsOnlyView (m : newModel) : Frame :=
  let controlsY := height m - 6 in
  Escapes (renderControlsWithEscapes m controlsY).

(** [func (m *newModel) viewImageWithControls() string].  The receiver is
    a pointer: the function returns the frame, the effects it performed
    on the terminal, and the model it leaves behind. *)
Definition viewImageWithControls (m : newModel)
  : Frame * list Effect * newModel :=
  match imageData m with
  | None => (Empty, [], m)
  | Some data =>
    match termimg_From term data with
    | None => (renderErrorMessage m FailedToCreate, [], m)
    | Some (origWpx, origHpx) =>
      let controlsHeight := 8 in
      let titleHeight := 1 in
      let availableHeight := height m - controlsHeight - titleHeight - 2 in
      let imagePadding := 4 in
      let maxW := width m - imagePadding in
      let maxH := availableHeight in
      let fw := FontWidth term in
      let fh := FontHeight term in
      if (fw =? 0) || (fh =? 0) then (Undefined, [], m) else
      let origW := cellsOf origWpx fw in
      let origH := cellsOf origHpx fh in
      if ((origW >? maxW) || (origH >? maxH)) && ((origW =? 0) || (origH =? 0))
      then (Undefined, [], m) else
      let '(targetW, targetH) := fitCells origW origH maxW maxH in
      match termimg_Render term data targetW targetH with
      | None => (renderErrorMessage m FailedToRender, [], m)
      | Some imageCmd =>
        let '(eff, m) :=
          if needsImageClear m
          then ([TermClearAll], set_needsImageClear m false)
          else ([], m) in
        let imageY := titleHeight + 3 in
        let imageX := Z.quot (width m - targetW) 2 + 1 in
        let titleText := sparkles ++ prompt m in
        let lenTitle := Z.of_nat (String.length titleText) in
        let padding := Z.quot (width m - lenTitle) 2 in
        let padding := if padding <? 0 then 0 else padding in
        if width m - padding - lenTitle <? 0 then (Panic, eff, m) else
        let controlsY := height m - controlsHeight + 2 in
        (Escapes ([CursorTo 1 1; TitleColors; Spaces padding; Text titleText;
                   Spaces (width m - padding - lenTitle); ResetColorsNewline;
                   SaveCursor; CursorTo imageY imageX; ImageCmd imageCmd;
                   RestoreCursor]
                  ++ renderControlsWithEscapes m controlsY),
         eff, m)
      end
    end
  end.

(** [func (m newModel) View() string], with the effects performed on the
    terminal while the frame is computed.  The receiver is a value:
    whatever [viewImageWithControls] wrote to its copy is dropped. *)
Definition View (m : newModel) : Frame * list Effect :=
  if width m =? 0 then (Initializing, [])
  else match err m with
  | Some e => (ErrorView (width m) (height m) e, [])
  | None =>
    if inputMode m
    then (InputView (width m) (height m) (textinput_View (textInput m)), [])
    else if generating m then (loadingView m, [])
    else if notNil (imageData m) then fst (viewImageWithControls m)
    else (controlsOnlyView m, [])
  end.

End Render.

(** ** [cmd/types.go]: the request and the response of the service *)
Module Types.

Record Input := mkInput {
  Seed : Z;
  Steps : Z;
  Prompt : string;
  Guidance : Z;
  Interval : Z;
  NumOutputs : Z;
  AspectRatio : string;
  OutputFormat : string;
  OutputQuality : Z;
  PromptStrength : Q;
  NumInferenceSteps : Z;
  DisableSafetyChecker : bool;
  SafetyTolerance : Z
}.

(** The fields of [Response] the program reads. *)
Record Response := mkResponse {
  Status : string;
  Error : JSON;
  Output : JSON;
  Urls_Get : string
}.

(** [json:"...,omitempty"]: the zero value of the field is left out. *)
Definition omitInt (key : string) (v : Z) : list (string * JSON) :=
  if v =? 0 then [] else [(key, JNum (inject_Z v))].
Definition omitString (key : string) (v : string) : list (string * JSON) :=
  if String.eqb v "" then [] else [(key, JStr v)].
Definition omitBool (key : string) (v : bool) : list (string * JSON) :=
  if v then [(key, JBool true)] else [].
Definition omitFloat (key : string) (v : Q) : list (string * JSON) :=
  if Qeq_bool v 0 then [] else [(key, JNum v)].

(** [json.Marshal] of an [Input]: the fields in declaration order. *)
Definition marshal (i : Input) : JSON :=
  JObj (omitInt "seed" (Seed i)
     ++ omitInt "steps" (Steps i)
     ++ omitString "prompt" (Prompt i)
     ++ omitInt "guidance" (Guidance i)
     ++ omitInt "interval" (Interval i)
     ++ omitInt "num_outputs" (NumOutputs i)
     ++ omitString "aspect_ratio" (AspectRatio i)
     ++ omitString "output_format" (OutputFormat i)
     ++ omitInt "output_quality" (OutputQuality i)
     ++ omitFloat "prompt_strength" (PromptStrength i)
     ++ omitInt "num_inference_steps" (NumInferenceSteps i)
     ++ omitBool "disable_safety_checker" (DisableSafetyChecker i)
     ++ omitInt "safety_tolerance" (SafetyTolerance i)).

(** [Input{Prompt: p, AspectRatio: a, OutputFormat: f, OutputQuality: q}] *)
Definition literal (p a f : string) (q : Z) : Input :=
  mkInput 0 0 p 0 0 0 a f q 0%Q 0 false 0.
Definition withDisableSafetyChecker (i : Input) (b : bool) : Input :=
  mkInput (Seed i) (Steps i) (Prompt i) (Guidance i) (Interval i) (NumOutputs i)
    (AspectRatio i) (OutputFormat i) (OutputQuality i) (PromptStrength i)
    (NumInferenceSteps i) b (SafetyTolerance i).
Definition withSafetyTolerance (i : Input) (t : Z) : Input :=
  mkInput (Seed i) (Steps i) (Prompt i) (Guidance i) (Interval i) (NumOutputs i)
    (AspectRatio i) (OutputFormat i) (OutputQuality i) (PromptStrength i)
    (NumInferenceSteps i) (DisableSafetyChecker i) t.

End Types.

(** The value of a key in a marshalled object. *)
Fixpoint lookup (key : string) (fields : list (string * JSON)) : option JSON :=
  match fields with
  | [] => None
  | (k, v) :: rest => if String.eqb k key then Some v else lookup key rest
  end.

(** ** The network as [generateImage] sees it *)

Definition fluxSchnellURL :=
  "https://api.replicate.com/v1/models/black-forest-labs/flux-schnell/predictions".
Definition fluxProURL :=
  "https://api.replicate.com/v1/models/black-forest-labs/flux-1.1-pro-ultra/predictions".
Definition fluxDevURL :=
  "https://api.replicate.com/v1/models/black-forest-labs/flux-dev/predictions".

(** What a request to the prediction API comes back with: [Do] fails,
    reading the body fails, the body is not the expected JSON, or the body
    decodes into [result]. *)
Inductive ApiReply :=
| DoFails (cause : string)
| ReadFails (cause : string)
| BadJSON (cause : string)
| Decoded (r : Types.Response).

(** What [http.Get] of the output asset comes back with. *)
Inductive AssetReply :=
| GetFails (cause : string)
| AssetReadFails (cause : string)
| Asset (body : list byte).

Record Network := mkNetwork {
  api : list ApiReply;            (* the replies to the successive API requests *)
  asset : string -> AssetReply;   (* the reply to a GET of an asset URL *)
  badURL : string -> option string  (* the error of [http.NewRequest], if any *)
}.

(** The calls the job driver makes, in order. *)
Inductive NetEvent :=
| Post (url authorization : string) (body : JSON)
| Sleep (seconds : Z)
| Get (url authorization : string)
| Fetch (url : string).

(** How far a run of the closure got: it returned a message, it is still
    waiting for a reply the network has not given, or it panicked. *)
Inductive Run :=
| Returned (msg : Msg)
| Waiting
| Panicked.

Definition terminal (status : string) : bool :=
  String.eqb status "succeeded" || String.eqb status "failed".

Definition bearer (apiKey : string) : string := "Bearer " ++ apiKey.

(** The polling loop of [generateImage]:
    [for result.Status != "succeeded" && result.Status != "failed"].
    Returns the terminal [result] or the early exit, the calls made and
    the replies not consumed. *)
Fixpoint poll (net : Network) (apiKey : string) (result : Types.Response)
    (replies : list ApiReply) : (Run + Types.Response) * list NetEvent * list ApiReply :=
  if terminal (Types.Status result) then (inr result, [], replies) else
  match badURL net (Types.Urls_Get result) with
  | Some cause =>
      (inl (Returned (ErrorMsg (ErrCreatingRequest cause))), [Sleep 1], replies)
  | None =>
      let calls := [Sleep 1; Get (Types.Urls_Get result) (bearer apiKey)] in
      match replies with
      | [] => (inl Waiting, calls, [])
      | DoFails cause :: rest =>
          (inl (Returned (ErrorMsg (ErrSendingRequest cause))), calls, rest)
      | ReadFails cause :: rest =>
          (inl (Returned (ErrorMsg (ErrReadingResponse cause))), calls, rest)
      | BadJSON cause :: rest =>
          (inl (Returned (ErrorMsg (ErrUnmarshal cause))), calls, rest)
      | Decoded r :: rest =>
          let '(res, calls', rest') := poll net apiKey r rest in
          (res, (calls ++ calls')%list, rest')
      end
  end.

(** The fetch of the generated image, after a terminal [result]. *)
Definition fetchOutput (net : Network) (result : Types.Response) : Run * list NetEvent :=
  if String.eqb (Types.Status result) "failed"
  then (Returned (ErrorMsg (ErrGenerationFailed (Types.Error result))), [])
  else
    let fetch (outputURL : string) : Run * list NetEvent :=
      match asset net outputURL with
      | GetFails cause => (Returned (ErrorMsg (ErrFetchingImage cause)), [Fetch outputURL])
      | AssetReadFails cause => (Returned (ErrorMsg (ErrReadingImage cause)), [Fetch outputURL])
      | Asset body => (Returned (BytesMsg (Some body)), [Fetch outputURL])
      end in
    match Types.Output result with
    | JStr url => fetch url
    | JList (JStr url :: _) => fetch url
    | JList _ => (Panicked, [])        (* urls[0].(string) *)
    | other => (Returned (ErrorMsg (ErrUnexpectedOutput other)), [])
    end.

(** [func generateImage(prompt string, c *config) tea.Cmd]: a run of the
    returned closure against a network, with [REPLICATE_API_KEY] read from
    the environment.  Returns how the run ended, the calls made and the
    API replies not consumed. *)
Definition generateImage (REPLICATE_API_KEY : string) (net : Network)
    (prompt : string) (c : config) : Run * list NetEvent * list ApiReply :=
  let apiKey :=
    if negb (String.eqb (ApiToken c) "") then ApiToken c else REPLICATE_API_KEY in
  if String.eqb apiKey "" then (Returned (ErrorMsg ErrNoToken), [], api net) else
  let input := Types.literal prompt (AspectRatio c) (OutputFormat c) 100 in
  let model :=
    if String.eqb (FluxModel c) "schnell"
    then Some (fluxSchnellURL, Types.withDisableSafetyChecker input true)
    else if String.eqb (FluxModel c) "pro"
    then Some (fluxProURL, Types.withSafetyTolerance input 5)
    else if String.eqb (FluxModel c) "dev"
    then Some (fluxDevURL, input)
    else None in
  match model with
  | None => (Returned (ErrorMsg (ErrInvalidModel (FluxModel c))), [], api net)
  | Some (fluxURL, input) =>
      let jsonPayload := JObj [("input", Types.marshal input)] in
      let submit := [Post fluxURL (bearer apiKey) jsonPayload] in
      match api net with
      | [] => (Waiting, submit, [])
      | DoFails cause :: rest =>
          (Returned (ErrorMsg (ErrSendingRequest cause)), submit, rest)
      | ReadFails cause :: rest =>
          (Returned (ErrorMsg (ErrReadingResponse cause)), submit, rest)
      | BadJSON cause :: rest =>
          (Returned (ErrorMsg (ErrUnmarshal cause)), submit, rest)
      | Decoded result :: rest =>
          match poll net apiKey result rest with
          | (inl exit, calls, rest') => (exit, (submit ++ calls)%list, rest')
          | (inr result, calls, rest') =>
              let '(exit, calls') := fetchOutput net result in
              (exit, (submit ++ calls ++ calls')%list, rest')
          end
      end
  end.

(** The choices the command line accepts ([cmd/root.go]). *)
Definition validOutputFormats := ["png"; "webp"; "jpg"].
Definition validAspectRatios :=
  ["1:1"; "16:9"; "21:9"; "2:3"; "3:2"; "4:5"; "5:4"; "9:16"; "9:21"].
Definition validFluxModels := ["schnell"; "pro"; "dev"].

(** [s[:len(s)-1]] *)
Definition dropLastByte (s : string) : string :=
  String.substring 0 (String.length s - 1) s.

(** [int(float64(w) * 0.6)] *)
Definition sixTenths (w : Z) : Z :=
  F64.toInt (F64.mul (F64.ofInt w) (F64.round (6 # 10))).

(** [viewport.Model], as far as the program touches it. *)
Record Viewport := mkViewport {
  vpWidth : Z;
  vpHeight : Z;
  vpContent : string
}.

(** The commands of the current tree, as the widgets return them. *)
Definition TeaCmd := Cmd.

(** ** The previous revision of the UI (type [model], with
    regeneration and a configuration) *)
Module Legacy.

Record config := mkConfig {
  DisplayProtocol : string;
  AspectRatio : string;
  OutputFormat : string;
  OutputFolder : string
}.

Inductive Cmd :=
| Nil
| Quit
| GenerateImage (prompt : string) (c : config)
| SpinnerTick
| Blink
| Batch (cmds : list Cmd)
| OfWidget (c : TeaCmd).

Record model {W : Widgets} := mkModel {
  prompt : string;
  image : bytes;
  err : option Failure;
  inputMode : bool;
  cursorPos : Z;
  buttonMode : Z;          (* 0: none, 1: download, 2: regenerate *)
  textInput : TextInput;
  viewport : Viewport;
  width : Z;
  height : Z;
  spinner : SpinnerModel;
  generating : bool;
  cfg : config;
  saved : string;
  regenerating : bool
}.
Arguments mkModel {W}.

Section Update.
Context `{W : Widgets}.
(** [saveImage(image, prompt)]: the file name and the error. *)
Variable saveImage : bytes -> string -> string * option Failure.

(** [func initialModel(c *config) model] *)
Definition initialModel (c : config) : model :=
  mkModel "" None None true 0 0 textinput_New (mkViewport 0 0 "") 0 0
    spinner_New false c "" false.

(** The two statements after the type switch. *)
Definition afterSwitch (m : model) (msg : Msg) : model * Cmd :=
  let '(ti, _) := textinput_Update (textInput m) msg in
  let '(sp, cmd) := spinner_Update (spinner m) msg in
  (mkModel (prompt m) (image m) (err m) (inputMode m) (cursorPos m)
     (buttonMode m) ti (viewport m) (width m) (height m) sp (generating m)
     (cfg m) (saved m) (regenerating m),
   OfWidget cmd).

(** [func (m model) Update(msg tea.Msg) (tea.Model, tea.Cmd)] *)
Definition Update (m : model) (msg : Msg) : model * Cmd :=
  match msg with
  | WindowSizeMsg w h =>
      afterSwitch
        (mkModel (prompt m) (image m) (err m) (inputMode m) (cursorPos m)
           (buttonMode m) (textInput m)
           (mkViewport (sixTenths w) h (vpContent (viewport m)))
           w h (spinner m) (generating m) (cfg m) (saved m) (regenerating m))
        msg
  | KeyMsg k =>
      if isKey k ["ctrl+c"; "q"] then (m, Quit)
      else if isKey k ["enter"] then
        if inputMode m then
          let p := textinput_Value (textInput m) in
          (mkModel p (image m) (err m) false (cursorPos m) (buttonMode m)
             (textInput m) (viewport m) (width m) (height m) (spinner m) true
             (cfg m) (saved m) (regenerating m),
           Batch [GenerateImage p (cfg m); SpinnerTick])
        else if buttonMode m =? 1 then
          let '(name, e) := saveImage (image m) (prompt m) in
          (mkModel (prompt m) (image m) e (inputMode m) (cursorPos m)
             (buttonMode m) (textInput m) (viewport m) (width m) (height m)
             (spinner m) (generating m) (cfg m) name (regenerating m),
           Quit)
        else if buttonMode m =? 2 then
          (mkModel (prompt m) None (err m) (inputMode m) (cursorPos m)
             (buttonMode m) (textInput m)
             (mkViewport (vpWidth (viewport m)) (vpHeight (viewport m)) "")
             (width m) (height m) (spinner m) true (cfg m) (saved m) true,
           Batch [GenerateImage (prompt m) (cfg m); SpinnerTick])
        else afterSwitch m msg
      else if isKey k ["tab"] then
        afterSwitch
          (if negb (inputMode m)
           then mkModel (prompt m) (image m) (err m) (inputMode m) (cursorPos m)
                  (Z.rem (buttonMode m + 1) 3) (textInput m) (viewport m)
                  (width m) (height m) (spinner m) (generating m) (cfg m)
                  (saved m) (regenerating m)
           else m)
          msg
      else if isKey k ["backspace"] then
        afterSwitch
          (if inputMode m && (0 <? Z.of_nat (String.length (prompt m)))
           then mkModel (dropLastByte (prompt m)) (image m) (err m) (inputMode m)
                  (cursorPos m - 1) (buttonMode m) (textInput m) (viewport m)
                  (width m) (height m) (spinner m) (generating m) (cfg m)
                  (saved m) (regenerating m)
           else m)
          msg
      else
        afterSwitch
          (if inputMode m
           then mkModel (prompt m ++ k) (image m) (err m) (inputMode m)
                  (cursorPos m + 1) (buttonMode m) (textInput m) (viewport m)
                  (width m) (height m) (spinner m) (generating m) (cfg m)
                  (saved m) (regenerating m)
           else m)
          msg
  | BytesMsg data =>
      (mkModel (prompt m) data (err m) (inputMode m) (cursorPos m)
         (buttonMode m) (textInput m) (viewport m) (width m) (height m)
         (spinner m) false (cfg m) (saved m) false,
       Nil)
  | ErrorMsg e =>
      (mkModel (prompt m) (image m) (Some e) (inputMode m) (cursorPos m)
         (buttonMode m) (textInput m) (viewport m) (width m) (height m)
         (spinner m) (generating m) (cfg m) (saved m) (regenerating m),
       Quit)
  | MouseClickMsg _ _ _ | StringMsg _ | OtherMsg _ => afterSwitch m msg
  end.

End Update.

(** The fields of this revision's [Response] the program reads;
    [Output] is a [[]string]. *)
Record Response := mkResponse {
  Status : string;
  Error : JSON;
  Output : list string;
  Urls_Get : string
}.

Inductive ApiReply :=
| DoFails (cause : string)
| ReadFails (cause : string)
| BadJSON (cause : string)
| Decoded (r : Response).

Record Network := mkNetwork {
  api : list ApiReply;
  asset : string -> AssetReply;
  badURL : string -> option string
}.

Definition schnellURL :=
  "https://api.replicate.com/v1/models/black-forest-labs/flux-schnell/predictions".

(** The request body of this revision: [num_outputs] 1 and the safety
    checker always disabled. *)
Definition payload (prompt : string) (c : config) : JSON :=
  JObj [("input",
         JObj (Types.omitString "prompt" prompt
            ++ Types.omitInt "num_outputs" 1
            ++ Types.omitString "aspect_ratio" (AspectRatio c)
            ++ Types.omitString "output_format" (OutputFormat c)
            ++ Types.omitInt "output_quality" 100
            ++ Types.omitBool "disable_safety_checker" true))].

Fixpoint poll (net : Network) (apiKey : string) (result : Response)
    (replies : list ApiReply) : (Run + Response) * list NetEvent * list ApiReply :=
  if terminal (Status result) then (inr result, [], replies) else
  match badURL net (Urls_Get result) with
  | Some cause =>
      (inl (Returned (ErrorMsg (ErrCreatingRequest cause))), [Sleep 1], replies)
  | None =>
      let calls := [Sleep 1; Get (Urls_Get result) (bearer apiKey)] in
      match replies with
      | [] => (inl Waiting, calls, [])
      | DoFails cause :: rest =>
          (inl (Returned (ErrorMsg (ErrSendingRequest cause))), calls, rest)
      | ReadFails cause :: rest =>
          (inl (Returned (ErrorMsg (ErrReadingResponse cause))), calls, rest)
      | BadJSON cause :: rest =>
          (inl (Returned (ErrorMsg (ErrUnmarshal cause))), calls, rest)
      | Decoded r :: rest =>
          let '(res, calls', rest') := poll net apiKey r rest in
          (res, (calls ++ calls')%list, rest')
      end
  end.

(** [func generateImage(prompt string, c *config) tea.Cmd] of this
    revision: the key comes from the environment only. *)
Definition generateImage (REPLICATE_API_KEY : string) (net : Network)
    (prompt : string) (c : config) : Run * list NetEvent * list ApiReply :=
  let apiKey := REPLICATE_API_KEY in
  if String.eqb apiKey "" then (Returned (ErrorMsg ErrEnvNotSet), [], api net) else
  let submit := [Post schnellURL (bearer apiKey) (payload prompt c)] in
  match api net with
  | [] => (Waiting, submit, [])
  | DoFails cause :: rest =>
      (Returned (ErrorMsg (ErrSendingRequest cause)), submit, rest)
  | ReadFails cause :: rest =>
      (Returned (ErrorMsg (ErrReadingResponse cause)), submit, rest)
  | BadJSON cause :: rest =>
      (Returned (ErrorMsg (ErrUnmarshal cause)), submit, rest)
  | Decoded result :: rest =>
      match poll net apiKey result rest with
      | (inl exit, calls, rest') => (exit, (submit ++ calls)%list, rest')
      | (inr result, calls, rest') =>
          if String.eqb (Status result) "failed"
          then (Returned (ErrorMsg (ErrGenerationFailed (Error result))),
                (submit ++ calls)%list, rest')
          else
            match Output result with
            | [] => (Panicked, (submit ++ calls)%list, rest')   (* result.Output[0] *)
            | url :: _ =>
                let calls' := [Fetch url] in
                match asset net url with
                | GetFails cause =>
                    (Returned (ErrorMsg (ErrFetchingImage cause)),
                     (submit ++ calls ++ calls')%list, rest')
                | AssetReadFails cause =>
                    (Returned (ErrorMsg (ErrReadingImage cause)),
                     (submit ++ calls ++ calls')%list, rest')
                | Asset body =>
                    (Returned (BytesMsg (Some body)),
                     (submit ++ calls ++ calls')%list, rest')
                end
            end
      end
  end.

End Legacy.

(** ** The first revision of [cmd/tui.go] (type [model], no
    configuration) *)
Module Proto.

Inductive Cmd :=
| Nil
| Quit
| GenerateImage (prompt : string)
| DownloadImage (image : bytes) (prompt : string)
| SpinnerTick
| Batch (cmds : list Cmd)
| OfWidget (c : TeaCmd).

Record model {W : Widgets} := mkModel {
  prompt : string;
  image : bytes;
  err : option Failure;
  inputMode : bool;
  cursorPos : Z;
  buttonMode : Z;
  textInput : TextInput;
  viewport : Viewport;
  width : Z;
  height : Z;
  spinner : SpinnerModel;
  generating : bool
}.
Arguments mkModel {W}.

Section Update.
Context `{W : Widgets}.

Definition afterSwitch (m : model) (msg : Msg) : model * Cmd :=
  let '(ti, _) := textinput_Update (textInput m) msg in
  let '(sp, cmd) := spinner_Update (spinner m) msg in
  (mkModel (prompt m) (image m) (err m) (inputMode m) (cursorPos m)
     (buttonMode m) ti (viewport m) (width m) (height m) sp (generating m),
   OfWidget cmd).

(** [func (m model) Update(msg tea.Msg) (tea.Model, tea.Cmd)] *)
Definition Update (m : model) (msg : Msg) : model * Cmd :=
  match msg with
  | WindowSizeMsg w h =>
      afterSwitch
        (mkModel (prompt m) (image m) (err m) (inputMode m) (cursorPos m)
           (buttonMode m) (textInput m)
           (mkViewport (sixTenths w) h (vpContent (viewport m)))
           w h (spinner m) (generating m))
        msg
  | KeyMsg k =>
      if isKey k ["ctrl+c"; "q"] then (m, Quit)
      else if isKey k ["enter"] then
        if inputMode m then
          let p := textinput_Value (textInput m) in
          (mkModel p (image m) (err m) false (cursorPos m) (buttonMode m)
             (textInput m) (viewport m) (width m) (height m) (spinner m) true,
           Batch [GenerateImage p; SpinnerTick])
        else if buttonMode m =? 1 then (m, DownloadImage (image m) (prompt m))
        else if buttonMode m =? 2 then (m, GenerateImage (prompt m))
        else afterSwitch m msg
      else if isKey k ["tab"] then
        afterSwitch
          (if negb (inputMode m)
           then mkModel (prompt m) (image m) (err m) (inputMode m) (cursorPos m)
                  (Z.rem (buttonMode m + 1) 3) (textInput m) (viewport m)
                  (width m) (height m) (spinner m) (generating m)
           else m)
          msg
      else if isKey k ["backspace"] then
        afterSwitch
          (if inputMode m && (0 <? Z.of_nat (String.length (prompt m)))
           then mkModel (dropLastByte (prompt m)) (image m) (err m) (inputMode m)
                  (cursorPos m - 1) (buttonMode m) (textInput m) (viewport m)
                  (width m) (height m) (spinner m) (generating m)
           else m)
          msg
      else
        afterSwitch
          (if inputMode m
           then mkModel (prompt m ++ k) (image m) (err m) (inputMode m)
                  (cursorPos m + 1) (buttonMode m) (textInput m) (viewport m)
                  (width m) (height m) (spinner m) (generating m)
           else m)
          msg
  | BytesMsg data =>
      (mkModel (prompt m) data (err m) (inputMode m) (cursorPos m)
         (buttonMode m) (textInput m) (viewport m) (width m) (height m)
         (spinner m) false,
       Nil)
  | ErrorMsg e =>
      (mkModel (prompt m) (image m) (Some e) (inputMode m) (cursorPos m)
         (buttonMode m) (textInput m) (viewport m) (width m) (height m)
         (spinner m) (generating m),
       Quit)
  | MouseClickMsg _ _ _ | StringMsg _ | OtherMsg _ => afterSwitch m msg
  end.

End Update.
End Proto.

(** ** The vocabulary of the specification, read off the code *)

(** The mode of the session: the flags in the order [View] tests them. *)
Inductive Mode :=
| Failed
| AwaitingPrompt
| Generating
| Regenerating
| Displaying
| Idle.

Definition mode `{W : Widgets} (m : newModel) : Mode :=
  match err m with
  | Some _ => Failed
  | None =>
      if inputMode m then AwaitingPrompt
      else if generating m then
        if isRegenerating m then Regenerating else Generating
      else if notNil (imageData m) then Displaying
      else Idle
  end.

(** A frame shows the image when the encoder's bytes are part of it. *)
Definition isImageCmd (op : TermOp) : bool :=
  match op with ImageCmd _ => true | _ => false end.
Definition showsImage (f : Frame) : bool :=
  match f with
  | Escapes ops => existsb isImageCmd ops
  | _ => false
  end.

(** [mustClearFirst]: the terminal's images were cleared while the frame
    was computed, before the runtime writes it. *)
Definition mustClearFirst (eff : list Effect) : bool :=
  match eff with
  | TermClearAll :: _ => true
  | _ => false
  end.

(** Stale completions are discarded, for a given choice of the token
    captured at dispatch: a completion of a job dispatched in session
    [atDispatch] that arrives in session [m] with another token leaves
    image and mode as they are. *)
Definition discardsStale `{W : Widgets} {T : Type} (token : newModel -> T) : Prop :=
  forall (disk : Disk) (atDispatch m : newModel) (data : bytes),
    token atDispatch <> token m ->
    imageData (step disk m (BytesMsg data)) = imageData m /\
    mode (step disk m (BytesMsg data)) = mode m.

(** The terminals answer alike for one image. *)
Definition sameAnswers (t1 t2 : Terminal) (data : list byte) : Prop :=
  termimg_From t1 data = termimg_From t2 data /\
  FontWidth t1 = FontWidth t2 /\
  FontHeight t1 = FontHeight t2 /\
  (forall w h, termimg_Render t1 data w h = termimg_Render t2 data w h) /\
  TERM t1 = TERM t2 /\
  TERM_PROGRAM t1 = TERM_PROGRAM t2 /\
  DetectProtocol t1 = DetectProtocol t2.

(** ** A small implementation of the collaborators, to run the model *)

(** A text input that appends single characters while focused. *)
#[local] Instance plainWidgets : Widgets := {|
  TextInput := string * bool;
  textinput_New := ("", true);
  textinput_Value := fst;
  textinput_Blur := fun t => (fst t, false);
  textinput_Update := fun t msg =>
    match msg with
    | KeyMsg k =>
        if snd t && (Z.of_nat (String.length k) =? 1)
        then ((fst t ++ k)%string, snd t, CmdNil)
        else (t, CmdNil)
    | _ => (t, CmdNil)
    end;
  textinput_View := fst;
  SpinnerModel := nat;
  spinner_New := O;
  spinner_Update := fun s msg =>
    match msg with
    | OtherMsg "spinner.TickMsg" => (S s, SpinnerTick)
    | _ => (s, CmdNil)
    end;
  spinner_View := fun _ => "."
|}.

Definition plainDisk : Disk := mkDisk (fun _ _ _ => None).

(** A terminal with the given font cell, where every image decodes to
    1024 x 1024 pixels and encodes to a fixed string. *)
Definition plainTerminal (fw fh : Z) : Terminal :=
  mkTerminal (fun _ => Some (1024, 1024)) fw fh (fun _ _ _ => Some "IMG")
    "xterm-kitty" "" "kitty".

Definition foxConfig : config :=
  mkConfig "a red fox" "r8_token" "schnell" "1:1" "png" "".

(** The session of [fluxy -p "a red fox"] on an 80 x 24 terminal while the
    first job runs, and after it delivered a one-byte image. *)
Definition foxGenerating : newModel :=
  run plainDisk (newInitialModel foxConfig) [WindowSizeMsg 80 24].
Definition foxDisplaying : newModel :=
  run plainDisk foxGenerating [BytesMsg (Some [x01])].
(** Regenerate activated once, and twice before the first job answered. *)
Definition foxRegenerating : newModel :=
  run plainDisk foxDisplaying [KeyMsg "enter"].
Definition foxRegeneratingTwice : newModel :=
  run plainDisk foxRegenerating [KeyMsg "enter"].

(** The body of the first request of a run, when it made one. *)
Definition submitted (calls : list NetEvent) : option JSON :=
  match calls with
  | Post _ _ body :: _ => Some body
  | _ => None
  end.

(** The calls of a run and how it ended. *)
Definition callsOf (r : Run * list NetEvent * list ApiReply) : list NetEvent :=
  snd (fst r).
Definition outcome (r : Run * list NetEvent * list ApiReply) : Run :=
  fst (fst r).

(** The message of a loading panel. *)
Definition loadingMessage (f : Frame) : option string :=
  match f with
  | LoadingView _ _ _ message => Some message
  | _ => None
  end.

(** The calls of the polling loop over the non-terminal results it saw:
    one second of sleep, then a GET of the result's own status URL. *)
Definition pollCalls (authorization : string) (pending : list Types.Response)
  : list NetEvent :=
  flat_map (fun r => [Sleep 1; Get (Types.Urls_Get r) authorization]) pending.

(** The output names a URL: a string, or a list that starts with one. *)
Definition outputsURL (output : JSON) (url : string) : Prop :=
  output = JStr url \/ exists others, output = JList (JStr url :: others).

Definition remaining (r : Run * list NetEvent * list ApiReply) : list ApiReply :=
  snd r.

(** Two pending results, then success with a list of URLs. *)
Definition twoPolls : Network :=
  mkNetwork
    [Decoded (Types.mkResponse "starting" JNull JNull "g1");
     Decoded (Types.mkResponse "processing" JNull JNull "g2");
     Decoded (Types.mkResponse "succeeded" JNull (JList [JStr "u"]) "g3");
     DoFails "unused"]
    (fun _ => Asset [x01; x02]) (fun _ => None).

(** The byte occurs in the string. *)
Fixpoint hasChar (c : ascii) (s : string) : bool :=
  match s with
  | EmptyString => false
  | String a rest => Ascii.eqb a c || hasChar c rest
  end.

(** The earlier revisions right after start: prompt entry, empty prompt. *)
Definition oldStart : Legacy.model :=
  Legacy.initialModel (Legacy.mkConfig "kitty" "1:1" "png" "").
Definition firstStart : Proto.model :=
  Proto.mkModel "" None None true 0 0 textinput_New (mkViewport 0 0 "") 0 0
    spinner_New false.


(** ** Further vocabulary *)

(** A command asks the runtime to quit. *)
Fixpoint quits (c : Cmd) : bool :=
  match c with
  | Quit => true
  | Batch cs => existsb quits cs
  | _ => false
  end.

(** The widgets hand back commands of their own only: none of them is a
    [generateImage] closure or [tea.Quit]. *)
Definition quietWidgets `{W : Widgets} : Prop :=
  (forall t msg, dispatched (snd (textinput_Update t msg)) = []) /\
  (forall s msg, dispatched (snd (spinner_Update s msg)) = []) /\
  (forall t msg, quits (snd (textinput_Update t msg)) = false) /\
  (forall s msg, quits (snd (spinner_Update s msg)) = false).

(** The fields of the session that are the program's own (the widgets
    apart). *)
Definition sameData `{W : Widgets} (a b : newModel) : Prop :=
  width a = width b /\ height a = height b /\ prompt a = prompt b /\
  imageData a = imageData b /\ generating a = generating b /\
  inputMode a = inputMode b /\ selectedBtn a = selectedBtn b /\
  cfg a = cfg b /\ err a = err b /\ imageRendered a = imageRendered b /\
  needsImageClear a = needsImageClear b /\ isRegenerating a = isRegenerating b.

(** The session never left prompt entry with an empty prompt, and
    carries the configuration it was started with. *)
Definition submittedNonEmpty `{W : Widgets} (c : config) (m : newModel) : Prop :=
  cfg m = c /\ (inputMode m = false -> prompt m <> "").

(** The requests of a run that wait for a reply of the prediction API. *)
Definition isRequest (e : NetEvent) : bool :=
  match e with
  | Post _ _ _ | Get _ _ => true
  | _ => false
  end.
Definition requests (calls : list NetEvent) : nat :=
  List.length (filter isRequest calls).

(** The credential [generateImage] settles on: the token of the
    configuration when there is one, the environment otherwise. *)
Definition credential (REPLICATE_API_KEY : string) (c : config) : string :=
  if String.eqb (ApiToken c) "" then REPLICATE_API_KEY else ApiToken c.

(** ** [cmd/root.go]: the command line *)

(** The flag variables bound in [init]. *)
Record Flags := mkFlags {
  flag_prompt : string;        (* --prompt, -p *)
  flag_aspect : string;        (* --aspect, -a *)
  flag_format : string;        (* --format, -f *)
  flag_apiToken : string;      (* --api-token, -t *)
  flag_model : string;         (* --model, -m *)
  flag_output : string         (* --output, -o *)
}.

(** [slices.Contains] *)
Definition contains (choices : list string) (s : string) : bool :=
  existsb (String.eqb s) choices.

(** What [logger.Error] reports before [os.Exit(1)]. *)
Inductive Rejection :=
| InvalidAspectRatio (aspect : string)
| InvalidOutputFormat (format : string)
| InvalidFluxModel (model : string).

(** How [rootCmd.Run] goes on: the process exits, or the program is
    started on [newInitialModel(&config{...})]. *)
Inductive Startup :=
| Exit (code : Z) (logged : Rejection)
| Program (c : config).

(** [Run: func(cmd *cobra.Command, args []string)], up to [p.Run()]. *)
Definition rootRun (f : Flags) : Startup :=
  if negb (contains validAspectRatios (flag_aspect f))
  then Exit 1 (InvalidAspectRatio (flag_aspect f))
  else if negb (contains validOutputFormats (flag_format f))
  then Exit 1 (InvalidOutputFormat (flag_format f))
  else if negb (contains validFluxModels (flag_model f))
  then Exit 1 (InvalidFluxModel (flag_model f))
  else Program (mkConfig (flag_prompt f) (flag_apiToken f) (flag_model f)
                  (flag_aspect f) (flag_format f) (flag_output f)).

(** ** The two revisions of the driver side by side *)

(** A result of the previous revision, whose output is a [[]string], as
    the current revision decodes the same body: a list of strings. *)
Definition asCurrent (r : Legacy.Response) : Types.Response :=
  Types.mkResponse (Legacy.Status r) (Legacy.Error r)
    (JList (map JStr (Legacy.Output r))) (Legacy.Urls_Get r).

Definition replyAsCurrent (r : Legacy.ApiReply) : ApiReply :=
  match r with
  | Legacy.DoFails cause => DoFails cause
  | Legacy.ReadFails cause => ReadFails cause
  | Legacy.BadJSON cause => BadJSON cause
  | Legacy.Decoded r => Decoded (asCurrent r)
  end.

Definition networkAsCurrent (net : Legacy.Network) : Network :=
  mkNetwork (map replyAsCurrent (Legacy.api net)) (Legacy.asset net) (Legacy.badURL net).

(** The calls of a run after the submit. *)
Definition afterSubmit (calls : list NetEvent) : list NetEvent :=
  match calls with
  | Post _ _ _ :: rest => rest
  | _ => calls
  end.

(** The fields of the [input] object of the submitted request. *)
Definition inputOf (calls : list NetEvent) : list (string * JSON) :=
  match submitted calls with
  | Some (JObj [(_, JObj fields)]) => fields
  | _ => []
  end.

(** ** [saveImage]: the file name and the writes

    The prompt is sanitised rune by rune with [strings.Map]; a Go string
    is a byte sequence, here the list of its byte values. *)

Definition codes (s : string) : list Z :=
  map (fun a => Z.of_N (N_of_ascii a)) (list_ascii_of_string s).
Definition ofCodes (l : list Z) : string :=
  string_of_list_ascii (map (fun b => ascii_of_N (Z.to_N b)) l).

(** [utf8.RuneError], U+FFFD *)
Definition RuneError : Z := 65533.

Definition inRange (lo hi b : Z) : bool := (lo <=? b) && (b <=? hi).

(** [for _, c := range s]: the runes of a string.  A byte that does not
    start a well-formed UTF-8 sequence yields [RuneError] and is skipped
    alone ([utf8.DecodeRuneInString] with its table of first bytes and
    accept ranges). *)
Fixpoint runes (s : list Z) : list Z :=
  match s with
  | [] => []
  | s0 :: t0 =>
      if s0 <? 128 then s0 :: runes t0
      else if (s0 <? 194) || (244 <? s0) then RuneError :: runes t0
      else if s0 <? 224 then
        match t0 with
        | s1 :: t1 =>
            if inRange 128 191 s1
            then Z.lor (Z.shiftl (Z.land s0 31) 6) (Z.land s1 63) :: runes t1
            else RuneError :: runes t0
        | [] => RuneError :: runes t0
        end
      else if s0 <? 240 then
        match t0 with
        | s1 :: (s2 :: t2) =>
            if inRange (if s0 =? 224 then 160 else 128)
                 (if s0 =? 237 then 159 else 191) s1
               && inRange 128 191 s2
            then Z.lor (Z.lor (Z.shiftl (Z.land s0 15) 12)
                          (Z.shiftl (Z.land s1 63) 6))
                   (Z.land s2 63) :: runes t2
            else RuneError :: runes t0
        | _ => RuneError :: runes t0
        end
      else
        match t0 with
        | s1 :: (s2 :: (s3 :: t3)) =>
            if inRange (if s0 =? 240 then 144 else 128)
                 (if s0 =? 244 then 143 else 191) s1
               && inRange 128 191 s2 && inRange 128 191 s3
            then Z.lor (Z.lor (Z.lor (Z.shiftl (Z.land s0 7) 18)
                                 (Z.shiftl (Z.land s1 63) 12))
                          (Z.shiftl (Z.land s2 63) 6))
                   (Z.land s3 63) :: runes t3
            else RuneError :: runes t0
        | _ => RuneError :: runes t0
        end
  end.

(** [byte(x)] *)
Definition toByte (x : Z) : Z := x mod 256.

(** [utf8.AppendRune] of a non-negative rune. *)
Definition encodeRune (r : Z) : list Z :=
  if r <=? 127 then [toByte r]
  else if r <=? 2047 then
    [Z.lor 192 (toByte (Z.shiftr r 6)); Z.lor 128 (Z.land (toByte r) 63)]
  else
    let r := if (1114111 <? r) || inRange 55296 57343 r then RuneError else r in
    if r <=? 65535 then
      [Z.lor 224 (toByte (Z.shiftr r 12));
       Z.lor 128 (Z.land (toByte (Z.shiftr r 6)) 63);
       Z.lor 128 (Z.land (toByte r) 63)]
    else
      [Z.lor 240 (toByte (Z.shiftr r 18));
       Z.lor 128 (Z.land (toByte (Z.shiftr r 12)) 63);
       Z.lor 128 (Z.land (toByte (Z.shiftr r 6)) 63);
       Z.lor 128 (Z.land (toByte r) 63)].

(** [strings.Map(mapping, s)]: every rune of [s] is replaced by its
    image, a negative image is dropped. *)
Definition strings_Map (mapping : Z -> Z) (s : list Z) : list Z :=
  flat_map (fun c => let r := mapping c in if r <? 0 then [] else encodeRune r)
    (runes s).

(** The tables of package [unicode] above ASCII. *)
Record Unicode := mkUnicode {
  letterAbove : Z -> bool;
  numberAbove : Z -> bool
}.

(** [unicode.IsLetter], [unicode.IsNumber] *)
Definition IsLetter (u : Unicode) (r : Z) : bool :=
  if r <? 128 then inRange 65 90 r || inRange 97 122 r else letterAbove u r.
Definition IsNumber (u : Unicode) (r : Z) : bool :=
  if r <? 128 then inRange 48 57 r else numberAbove u r.

(** The function literal handed to [strings.Map]. *)
Definition sanitizeRune (u : Unicode) (r : Z) : Z :=
  if IsLetter u r || IsNumber u r || (r =? 45) || (r =? 95) then r else 95.

(** [sanitizedPrompt], after the truncation to 50 bytes. *)
Definition sanitizedPrompt (u : Unicode) (prompt : string) : list Z :=
  let sanitized := strings_Map (sanitizeRune u) (codes prompt) in
  if 50 <? Z.of_nat (List.length sanitized) then firstn 50 sanitized else sanitized.

(** [fmt.Sprintf("%d", n)] *)
Definition decimal (n : Z) : string := NilZero.string_of_int (Z.to_int n).

(** [fmt.Sprintf("%s_%d.%s", sanitizedPrompt, time.Now().Unix(),
    config.OutputFormat)] *)
Definition fileName (u : Unicode) (now : Z) (prompt : string) (c : config) : string :=
  ofCodes (sanitizedPrompt u prompt) ++ "_" ++ decimal now ++ "." ++ OutputFormat c.

(** Where the file goes: the name alone, or
    [filepath.Join(config.OutputFolder, filename)]. *)
Inductive Path :=
| InWorkingDir (name : string)
| Join (folder name : string).

(** What [os.MkdirAll] and [os.WriteFile] answer: an error, if any. *)
Record FileSystem := mkFileSystem {
  MkdirAll : string -> option string;
  WriteFile : Path -> bytes -> option string
}.

(** The calls [saveImage] makes, in order. *)
Inductive FsCall :=
| CallMkdirAll (folder : string) (perm : Z)
| CallWriteFile (path : Path) (data : bytes) (perm : Z)
| Printf (path : Path).

(** [func saveImage(imageData []byte, prompt string, config *config)
    (string, error)]: the path or the error, and the calls made. *)
Definition saveImageTo (u : Unicode) (fs : FileSystem) (now : Z)
    (imageData : bytes) (prompt : string) (c : config)
  : (Path + Failure) * list FsCall :=
  let filename := fileName u now prompt c in
  let write (path : Path) (before : list FsCall) :=
    match WriteFile fs path imageData with
    | Some cause =>
        (inr (ErrSave ("error saving image: " ++ cause)),
         (before ++ [CallWriteFile path imageData 420])%list)
    | None =>
        (inl path, (before ++ [CallWriteFile path imageData 420; Printf path])%list)
    end in
  if negb (String.eqb (OutputFolder c) "") then
    match MkdirAll fs (OutputFolder c) with
    | Some cause =>
        (inr (ErrSave ("error creating output folder: " ++ cause)),
         [CallMkdirAll (OutputFolder c) 493])
    | None => write (Join (OutputFolder c) filename) [CallMkdirAll (OutputFolder c) 493]
    end
  else write (InWorkingDir filename) [].

(** The disk of a session: [saveImage] on a file system, at a time. *)
Definition diskOn (u : Unicode) (fs : FileSystem) (now : Z) : Disk :=
  mkDisk (fun imageData prompt c =>
            match fst (saveImageTo u fs now imageData prompt c) with
            | inl _ => None
            | inr e => Some e
            end).

(** The bytes a sanitised prompt is made of. *)
Definition safeByte (b : Z) : bool :=
  inRange 65 90 b || inRange 97 122 b || inRange 48 57 b ||
  (b =? 45) || (b =? 95) || inRange 128 255 b.

(** A file system where every call succeeds, and the tables of a
    terminal that knows ASCII only. *)
Definition plainFileSystem : FileSystem :=
  mkFileSystem (fun _ => None) (fun _ _ => None).
Definition asciiOnly : Unicode := mkUnicode (fun _ => false) (fun _ => false).

(** * Properties *)

(** ** Job completions *)

Section Completion.
Context `{W : Widgets}.

Lemma cons_neq {A : Type} (x : A) (l : list A) : x :: l <> l.
Proof.
  intro H. apply (f_equal (@List.length A)) in H. simpl in H. lia.
Qed.

(** Whatever is captured at dispatch, [Update] cannot discard on it: as
    soon as two sessions carry different tokens, some completion arriving
    in the second one replaces its image. *)
Lemma no_token_discards {T : Type} (token : newModel -> T) :
  (exists a b : newModel, token a <> token b) -> ~ discardsStale token.
Proof.
  intros [a [b Hab]] Hclaim.
  destruct (imageData b) as [l|] eqn:Himg.
  - destruct (Hclaim plainDisk a b (Some (x00 :: l)) Hab) as [Hi _].
    unfold step in Hi. simpl in Hi. rewrite Himg in Hi.
    injection Hi as Hi. exact (cons_neq _ _ Hi).
  - destruct (Hclaim plainDisk a b (Some []) Hab) as [Hi _].
    unfold step in Hi. simpl in Hi. rewrite Himg in Hi. discriminate.
Qed.

(** C1 (amended): a job completion carries no dispatch-time token and
    none is compared; every completion, stale or not, is applied: the
    image becomes the delivered bytes, the session stops generating,
    the next image frame must clear first and the selection returns to
    the first button, while prompt, viewport, error, input mode and
    configuration are left as they were and no command is issued.  The
    previous revision of the handler stores the bytes the same way. *)
Theorem completion_always_applied
    (disk : Disk) (m : newModel) (data : bytes)
    (save : bytes -> string -> string * option Failure) (old : Legacy.model) :
  imageData (step disk m (BytesMsg data)) = data /\
  generating (step disk m (BytesMsg data)) = false /\
  needsImageClear (step disk m (BytesMsg data)) = true /\
  selectedBtn (step disk m (BytesMsg data)) = 0 /\
  prompt (step disk m (BytesMsg data)) = prompt m /\
  width (step disk m (BytesMsg data)) = width m /\
  height (step disk m (BytesMsg data)) = height m /\
  err (step disk m (BytesMsg data)) = err m /\
  inputMode (step disk m (BytesMsg data)) = inputMode m /\
  cfg (step disk m (BytesMsg data)) = cfg m /\
  snd (fst (Update disk m (BytesMsg data))) = CmdNil /\
  Legacy.image (fst (Legacy.Update save old (BytesMsg data))) = data /\
  Legacy.generating (fst (Legacy.Update save old (BytesMsg data))) = false /\
  Legacy.regenerating (fst (Legacy.Update save old (BytesMsg data))) = false.
Proof.
  unfold step. simpl. repeat split; reflexivity.
Qed.

End Completion.

(** C1 (as stated) fails: regenerate is activated twice, the second job
    answers first with [x02] and is displayed; the first job, dispatched
    while regenerating, then answers with [x03] into a session that is
    displaying, and its bytes replace the image. *)
Lemma stale_completion_overwrites_image :
  mode foxRegenerating
    <> mode (run plainDisk foxRegeneratingTwice [BytesMsg (Some [x02])]) /\
  imageData (run plainDisk foxRegeneratingTwice [BytesMsg (Some [x02])])
    = Some [x02] /\
  imageData (run plainDisk foxRegeneratingTwice
               [BytesMsg (Some [x02]); BytesMsg (Some [x03])])
    = Some [x03] /\
  ~ discardsStale mode.
Proof.
  repeat split; try (vm_compute; congruence).
  apply no_token_discards.
  exists foxRegenerating, foxDisplaying. vm_compute. discriminate.
Qed.

(** ** The job driver *)

(** C3: without a credential (no token in the configuration and an empty
    [REPLICATE_API_KEY]) the closure returns a failure at once: no call
    is made (no submit, no poll, no fetch) and the replies the network
    holds are untouched.  The previous revision, which reads the
    environment only, does the same. *)
Theorem missing_credential_fails_first
    (net : Network) (prompt : string) (c : config)
    (oldNet : Legacy.Network) (oldC : Legacy.config) :
  ApiToken c = "" ->
  generateImage "" net prompt c = (Returned (ErrorMsg ErrNoToken), [], api net) /\
  Legacy.generateImage "" oldNet prompt oldC
    = (Returned (ErrorMsg ErrEnvNotSet), [], Legacy.api oldNet).
Proof.
  intros Htok. unfold generateImage, Legacy.generateImage.
  rewrite Htok. simpl. split; reflexivity.
Qed.

Lemma missing_credential_fails_first_witness :
  ApiToken (mkConfig "a red fox" "" "schnell" "1:1" "png" "") = "" /\
  generateImage ""
    (mkNetwork [Decoded (Types.mkResponse "succeeded" JNull (JStr "u") "g")]
       (fun _ => Asset [x01]) (fun _ => None))
    "a red fox" (mkConfig "a red fox" "" "schnell" "1:1" "png" "")
  = (Returned (ErrorMsg ErrNoToken), [],
     [Decoded (Types.mkResponse "succeeded" JNull (JStr "u") "g")]).
Proof.
  split; [reflexivity|].
  exact (proj1 (missing_credential_fails_first
                  (mkNetwork [Decoded (Types.mkResponse "succeeded" JNull (JStr "u") "g")]
                     (fun _ => Asset [x01]) (fun _ => None))
                  "a red fox" (mkConfig "a red fox" "" "schnell" "1:1" "png" "")
                  (Legacy.mkNetwork [] (fun _ => Asset [x01]) (fun _ => None))
                  (Legacy.mkConfig "kitty" "1:1" "png" "")
                  eq_refl)).
Defined.

Lemma in_nonempty (s : string) (l : list string) :
  In s l -> ~ In "" l -> String.eqb s "" = false.
Proof.
  intros Hin Hno. apply String.eqb_neq. intro E. subst. contradiction.
Qed.

(** C2: for a non-empty prompt, an accepted aspect ratio, output format
    and model, and a credential, the body of the submitted request is
    [{"input": {...}}] holding exactly the given prompt, aspect ratio and
    output format, the output quality 100, and per variant:
    [disable_safety_checker: true] for schnell, [safety_tolerance: 5] for
    pro, neither for dev. *)
Theorem request_body
    (key : string) (net : Network) (prompt : string) (c : config) :
  prompt <> "" ->
  In (AspectRatio c) validAspectRatios ->
  In (OutputFormat c) validOutputFormats ->
  In (FluxModel c) validFluxModels ->
  ApiToken c <> "" \/ key <> "" ->
  submitted (callsOf (generateImage key net prompt c))
  = Some (JObj [("input",
       JObj ([("prompt", JStr prompt);
              ("aspect_ratio", JStr (AspectRatio c));
              ("output_format", JStr (OutputFormat c));
              ("output_quality", JNum 100)]
             ++ (if String.eqb (FluxModel c) "schnell"
                 then [("disable_safety_checker", JBool true)]
                 else if String.eqb (FluxModel c) "pro"
                 then [("safety_tolerance", JNum 5)]
                 else [])))]).
Proof.
  intros Hp Ha Hf Hm Hk.
  assert (Ea : String.eqb (AspectRatio c) "" = false).
  { apply (in_nonempty _ _ Ha). vm_compute. intuition discriminate. }
  assert (Ef : String.eqb (OutputFormat c) "" = false).
  { apply (in_nonempty _ _ Hf). vm_compute. intuition discriminate. }
  assert (Ep : String.eqb prompt "" = false) by (apply String.eqb_neq; exact Hp).
  unfold generateImage.
  assert (Ek : String.eqb
                 (if negb (String.eqb (ApiToken c) "") then ApiToken c else key)
                 "" = false).
  { destruct (String.eqb_spec (ApiToken c) "") as [E|E]; simpl.
    - destruct Hk as [Hk|Hk]; [contradiction|]. apply String.eqb_neq; exact Hk.
    - apply String.eqb_neq; exact E. }
  rewrite Ek.
  unfold validFluxModels in Hm. simpl in Hm.
  destruct Hm as [Hm|[Hm|[Hm|[]]]]; rewrite <- Hm; simpl;
    unfold Types.marshal, Types.omitString; simpl; rewrite Ep, Ea, Ef;
    destruct (api net) as [|[ | | | r] rest]; simpl;
    try reflexivity;
    destruct (poll net _ r rest) as [[[ex|res] cs] rs]; simpl;
    try reflexivity;
    destruct (fetchOutput net res); reflexivity.
Qed.

(** The scenario of the specification: prompt "a red fox", the fast
    model, png, 1:1. *)
Lemma request_body_witness :
  submitted (callsOf (generateImage "" (mkNetwork [] (fun _ => GetFails "") (fun _ => None))
                        "a red fox" foxConfig))
  = Some (JObj [("input",
       JObj [("prompt", JStr "a red fox");
             ("aspect_ratio", JStr "1:1");
             ("output_format", JStr "png");
             ("output_quality", JNum 100);
             ("disable_safety_checker", JBool true)])]).
Proof.
  apply (request_body "" (mkNetwork [] (fun _ => GetFails "") (fun _ => None))
           "a red fox" foxConfig).
  - discriminate.
  - simpl. auto.
  - simpl. auto.
  - simpl. auto.
  - left. discriminate.
Defined.

(** ** Regeneration *)

Section Regeneration.
Context `{W : Widgets}.
Variable disk : Disk.

(** C6: activating the first button (regenerate) with Enter while an
    image is displayed empties the image buffer at once, clears the
    terminal's images in the same step (before any later draw) and sets
    the flag that makes the next image frame clear again, marks the
    session as generating and regenerating, and dispatches exactly one
    job, with the session's prompt and configuration; the prompt is not
    changed.  In the previous revision the same activation drops the
    image, sets both flags and dispatches one job with the same prompt. *)
Theorem regenerate_clears_and_redispatches
    (m : newModel) (img : list byte)
    (save : bytes -> string -> string * option Failure) (old : Legacy.model) :
  inputMode m = false ->
  imageData m = Some img ->
  selectedBtn m = 0 ->
  Legacy.inputMode old = false ->
  Legacy.buttonMode old = 2 ->
  imageData (step disk m (KeyMsg "enter")) = Some [] /\
  snd (Update disk m (KeyMsg "enter")) = [TermClearAll] /\
  needsImageClear (step disk m (KeyMsg "enter")) = true /\
  generating (step disk m (KeyMsg "enter")) = true /\
  isRegenerating (step disk m (KeyMsg "enter")) = true /\
  (err m = None -> mode (step disk m (KeyMsg "enter")) = Regenerating) /\
  dispatched (snd (fst (Update disk m (KeyMsg "enter")))) = [(prompt m, cfg m)] /\
  prompt (step disk m (KeyMsg "enter")) = prompt m /\
  Legacy.image (fst (Legacy.Update save old (KeyMsg "enter"))) = None /\
  Legacy.generating (fst (Legacy.Update save old (KeyMsg "enter"))) = true /\
  Legacy.regenerating (fst (Legacy.Update save old (KeyMsg "enter"))) = true /\
  Legacy.prompt (fst (Legacy.Update save old (KeyMsg "enter"))) = Legacy.prompt old /\
  snd (Legacy.Update save old (KeyMsg "enter"))
  = Legacy.Batch [Legacy.GenerateImage (Legacy.prompt old) (Legacy.cfg old);
                  Legacy.SpinnerTick].
Proof.
  intros Hi Himg Hsel Hoi Hob.
  unfold step, Update, Legacy.Update. simpl.
  rewrite Hi, Himg, Hsel, Hoi, Hob. simpl.
  repeat split; try reflexivity.
  intros He. unfold mode. simpl. rewrite He, Hi. reflexivity.
Qed.

(** A left click on the left half of the button container does what
    Enter on the first button does. *)
Lemma click_regenerates (m : newModel) (img : list byte) (x y : Z) :
  inputMode m = false ->
  imageData m = Some img ->
  height m - 8 <= y ->
  Z.quot (width m) 2 - 20 <= x < Z.quot (width m) 2 ->
  Update disk m (MouseClickMsg x y MouseLeft) = regenerate (set_selectedBtn m 0).
Proof.
  intros Hi Himg Hy Hx. unfold Update. rewrite Hi, Himg. simpl.
  change (Z.quot 40 2) with 20.
  replace (y >=? height m - 8) with true by (symmetry; apply Z.geb_le; lia).
  replace (x >=? Z.quot (width m) 2 - 20) with true by (symmetry; apply Z.geb_le; lia).
  replace (x <=? Z.quot (width m) 2 + 20) with true by (symmetry; apply Z.leb_le; lia).
  replace (x <? Z.quot (width m) 2) with true by (symmetry; apply Z.ltb_lt; lia).
  reflexivity.
Qed.

End Regeneration.

Lemma regenerate_clears_and_redispatches_witness :
  imageData (step plainDisk foxDisplaying (KeyMsg "enter")) = Some [] /\
  dispatched (snd (fst (Update plainDisk foxDisplaying (KeyMsg "enter"))))
  = [("a red fox", foxConfig)].
Proof.
  pose proof (regenerate_clears_and_redispatches plainDisk foxDisplaying [x01]
                (fun _ _ => ("", None))
                (Legacy.mkModel "a red fox" (Some [x01]) None false 0 2
                   textinput_New (mkViewport 48 24 "") 80 24 spinner_New false
                   (Legacy.mkConfig "kitty" "1:1" "png" "") "" false)
                eq_refl eq_refl eq_refl eq_refl eq_refl) as H.
  split; [exact (proj1 H)|].
  exact (proj1 (proj2 (proj2 (proj2 (proj2 (proj2 (proj2 H))))))).
Defined.

(** ** Frames *)

Section Frames.
Context `{W : Widgets}.
Variable disk : Disk.

Lemma afterSwitch_fields (m : newModel) (msg : Msg) :
  let m' := fst (fst (afterSwitch m msg)) in
  width m' = width m /\ height m' = height m /\ prompt m' = prompt m /\
  imageData m' = imageData m /\ generating m' = generating m /\
  inputMode m' = inputMode m /\ selectedBtn m' = selectedBtn m /\
  cfg m' = cfg m /\ err m' = err m /\
  imageRendered m' = imageRendered m /\
  needsImageClear m' = needsImageClear m /\
  isRegenerating m' = isRegenerating m.
Proof.
  destruct m as [w h p img g i sel ti sp c e ir nc rg].
  unfold afterSwitch. simpl.
  destruct (if i then textinput_Update ti msg else (ti, CmdNil)) as [ti' c'].
  simpl. destruct (spinner_Update sp msg) as [sp' sc].
  destruct g; simpl; repeat split; reflexivity.
Qed.

Lemma afterSwitch_clear (m : newModel) (msg : Msg) :
  needsImageClear (fst (fst (afterSwitch m msg))) = needsImageClear m.
Proof. apply (afterSwitch_fields m msg). Qed.

Lemma navigate_clear (m : newModel) (f : Z -> Z) :
  needsImageClear (navigate m f) = needsImageClear m.
Proof.
  unfold navigate. destruct (negb (inputMode m) && notNil (imageData m)); reflexivity.
Qed.

Lemma download_clear (m : newModel) :
  needsImageClear (fst (fst (download disk m))) = needsImageClear m.
Proof.
  unfold download. destruct (saveImage disk _ _ _); reflexivity.
Qed.

(** No message makes [Update] reset the flag. *)
Lemma step_keeps_clear (m : newModel) (msg : Msg) :
  needsImageClear m = true -> needsImageClear (step disk m msg) = true.
Proof.
  intros H. unfold step, Update.
  destruct msg as [w h|k|x y b|data|e|s|t];
    repeat match goal with
           | |- context [if ?c then _ else _] => destruct c
           end;
    rewrite ?afterSwitch_clear, ?navigate_clear, ?download_clear;
    try reflexivity; try exact H.
Qed.

Lemma run_keeps_clear (msgs : list Msg) (m : newModel) :
  needsImageClear m = true -> needsImageClear (run disk m msgs) = true.
Proof.
  revert m. induction msgs as [|msg msgs IH]; intros m H; simpl.
  - exact H.
  - apply IH. apply step_keeps_clear. exact H.
Qed.

(** A frame with the image in it is computed after the terminal's images
    were cleared, when the flag is set. *)
Lemma image_frame_clears (term : Terminal) (m : newModel) (f : Frame) (eff : list Effect) :
  needsImageClear m = true ->
  View term m = (f, eff) ->
  showsImage f = true ->
  mustClearFirst eff = true.
Proof.
  intros Hc Hv Hs. unfold View in Hv.
  destruct (width m =? 0); [inversion Hv; subst; discriminate|].
  destruct (err m); [inversion Hv; subst; discriminate|].
  destruct (inputMode m); [inversion Hv; subst; discriminate|].
  destruct (generating m).
  { unfold loadingView in Hv. inversion Hv; subst; discriminate. }
  destruct (notNil (imageData m)).
  2:{ unfold controlsOnlyView in Hv. inversion Hv; subst. discriminate. }
  unfold viewImageWithControls in Hv.
  destruct (imageData m) as [data|]; [|inversion Hv; subst; discriminate].
  destruct (termimg_From term data) as [[pw ph]|];
    [|inversion Hv; subst; discriminate].
  destruct ((FontWidth term =? 0) || (FontHeight term =? 0));
    [inversion Hv; subst; discriminate|].
  match type of Hv with
  | context [if ?c then (Undefined, _, _) else _] => destruct c
  end; [inversion Hv; subst; discriminate|].
  destruct (fitCells _ _ _ _) as [tw th].
  destruct (termimg_Render term data tw th);
    [|inversion Hv; subst; discriminate].
  rewrite Hc in Hv.
  match type of Hv with
  | context [if ?c then (Panic, _, _) else _] => destruct c
  end; inversion Hv; subst; [discriminate|reflexivity].
Qed.

(** C4 (amended): for every resize event, in every mode, a failed
    session included, the session stays in the same mode.  [Update]
    stores the new width and height and, besides them, writes the two
    render flags ([imageRendered] becomes false, [needsImageClear] true)
    and hands the event to the text input (in prompt entry only) and to
    the spinner; prompt, image, generating, input mode, selection,
    error, [isRegenerating] and configuration are unchanged and no
    effect is performed.  [Update] never resets [needsImageClear], so
    the next frame that shows the image, whatever messages arrive before
    it, is computed after a terminal image-clear, also when the image
    bytes did not change. *)
Theorem resize_forces_clear
    (term : Terminal) (m : newModel) (w h : Z) (msgs : list Msg) :
  mode (step disk m (WindowSizeMsg w h)) = mode m /\
  width (step disk m (WindowSizeMsg w h)) = w /\
  height (step disk m (WindowSizeMsg w h)) = h /\
  prompt (step disk m (WindowSizeMsg w h)) = prompt m /\
  imageData (step disk m (WindowSizeMsg w h)) = imageData m /\
  generating (step disk m (WindowSizeMsg w h)) = generating m /\
  inputMode (step disk m (WindowSizeMsg w h)) = inputMode m /\
  selectedBtn (step disk m (WindowSizeMsg w h)) = selectedBtn m /\
  err (step disk m (WindowSizeMsg w h)) = err m /\
  cfg (step disk m (WindowSizeMsg w h)) = cfg m /\
  isRegenerating (step disk m (WindowSizeMsg w h)) = isRegenerating m /\
  imageRendered (step disk m (WindowSizeMsg w h)) = false /\
  needsImageClear (step disk m (WindowSizeMsg w h)) = true /\
  textInput (step disk m (WindowSizeMsg w h))
  = (if inputMode m
     then fst (textinput_Update (textInput m) (WindowSizeMsg w h))
     else textInput m) /\
  spinner (step disk m (WindowSizeMsg w h))
  = fst (spinner_Update (spinner m) (WindowSizeMsg w h)) /\
  snd (Update disk m (WindowSizeMsg w h)) = [] /\
  (forall (f : Frame) (eff : list Effect),
     View term (run disk (step disk m (WindowSizeMsg w h)) msgs) = (f, eff) ->
     showsImage f = true ->
     mustClearFirst eff = true).
Proof.
  assert (Hclr : needsImageClear (step disk m (WindowSizeMsg w h)) = true).
  { unfold step, Update.
    rewrite (afterSwitch_clear
               (set_needsImageClear (set_imageRendered (set_size m w h) false) true)
               (WindowSizeMsg w h)).
    reflexivity. }
  assert (Hlast : forall (f : Frame) (eff : list Effect),
             View term (run disk (step disk m (WindowSizeMsg w h)) msgs) = (f, eff) ->
             showsImage f = true ->
             mustClearFirst eff = true).
  { intros f eff Hv Hs.
    eapply image_frame_clears; [| exact Hv | exact Hs].
    apply run_keeps_clear. exact Hclr. }
  revert Hclr Hlast. generalize (run disk (step disk m (WindowSizeMsg w h)) msgs).
  intros after Hclr Hlast.
  destruct m as [w0 h0 p img g i sel ti sp c e ir nc rg].
  unfold step, Update, afterSwitch, mode in *. simpl in *.
  destruct i; simpl in *.
  - destruct (textinput_Update ti (WindowSizeMsg w h)) as [ti' c'].
    destruct (spinner_Update sp (WindowSizeMsg w h)) as [sp' sc].
    destruct g; simpl in *; repeat split; try reflexivity; exact Hlast.
  - destruct (spinner_Update sp (WindowSizeMsg w h)) as [sp' sc].
    destruct g; simpl in *; repeat split; try reflexivity; exact Hlast.
Qed.

End Frames.

Lemma resize_forces_clear_witness :
  showsImage (fst (View (plainTerminal 10 20)
                     (run plainDisk (step plainDisk foxDisplaying (WindowSizeMsg 100 30)) [])))
  = true /\
  mustClearFirst (snd (View (plainTerminal 10 20)
                         (run plainDisk (step plainDisk foxDisplaying (WindowSizeMsg 100 30)) [])))
  = true /\
  mode (step plainDisk (step plainDisk foxGenerating (ErrorMsg ErrNoToken))
          (WindowSizeMsg 100 30)) = Failed.
Proof.
  split; [vm_compute; reflexivity|]. split.
  - refine (proj2 (proj2 (proj2 (proj2 (proj2 (proj2 (proj2 (proj2
      (proj2 (proj2 (proj2 (proj2 (proj2 (proj2 (proj2 (proj2
        (resize_forces_clear plainDisk (plainTerminal 10 20) foxDisplaying
           100 30 [])))))))))))))))) _ _ (surjective_pairing _) _).
    vm_compute. reflexivity.
  - exact (proj1 (resize_forces_clear plainDisk (plainTerminal 10 20)
                    (step plainDisk foxGenerating (ErrorMsg ErrNoToken)) 100 30 [])).
Defined.

(** C4 (as stated) fails in its "only": a resize to the very size the
    session already stores leaves width and height as they were and
    still changes the session, because the clear flag is written. *)
Lemma resize_writes_the_clear_flag :
  width (newInitialModel foxConfig) = 0 /\
  height (newInitialModel foxConfig) = 0 /\
  needsImageClear (newInitialModel foxConfig) = false /\
  width (step plainDisk (newInitialModel foxConfig) (WindowSizeMsg 0 0)) = 0 /\
  height (step plainDisk (newInitialModel foxConfig) (WindowSizeMsg 0 0)) = 0 /\
  needsImageClear (step plainDisk (newInitialModel foxConfig) (WindowSizeMsg 0 0)) = true /\
  step plainDisk (newInitialModel foxConfig) (WindowSizeMsg 0 0)
  <> newInitialModel foxConfig.
Proof.
  repeat split; try reflexivity.
  intros E. apply (f_equal needsImageClear) in E. vm_compute in E. discriminate.
Qed.

Section Loading.
Context `{W : Widgets}.
Variable disk : Disk.
Variable term : Terminal.

(** C7 (what the code does): the loading panel shows the regeneration
    message on the first generation, when no image was there before, and
    the first-generation message after a regenerate activation, when an
    image was there: [loadingView] tests [imageData == nil], and
    regenerate leaves the non-nil empty slice while a fresh session holds
    the nil slice. *)
Theorem loading_message_inverted
    (c : config) (w h : Z) (m : newModel) (img : list byte) :
  Prompt c <> "" ->
  w <> 0 ->
  width m <> 0 -> err m = None -> inputMode m = false ->
  imageData m = Some img -> selectedBtn m = 0 ->
  imageData (newInitialModel c) = None /\
  loadingMessage (fst (View term (step disk (newInitialModel c) (WindowSizeMsg w h))))
  = Some "Regenerating image..." /\
  loadingMessage (fst (View term (step disk m (KeyMsg "enter"))))
  = Some "Generating your image...".
Proof.
  intros Hp Hw Hmw He Hi Himg Hsel.
  split; [reflexivity|]. split.
  - assert (Hf := afterSwitch_fields
                    (set_needsImageClear
                       (set_imageRendered (set_size (newInitialModel c) w h) false) true)
                    (WindowSizeMsg w h)).
    simpl in Hf.
    destruct Hf as (Hw' & Hh' & Hp' & Hi' & Hg' & Hin' & _ & _ & Herr' & _).
    change (step disk (newInitialModel c) (WindowSizeMsg w h))
      with (fst (fst (afterSwitch
              (set_needsImageClear
                 (set_imageRendered (set_size (newInitialModel c) w h) false) true)
              (WindowSizeMsg w h)))).
    unfold View, loadingView.
    rewrite Hw', Herr', Hin', Hg', Hi', Hp'.
    apply String.eqb_neq in Hp. rewrite Hp.
    destruct (Z.eqb_spec w 0) as [E|E]; [contradiction|].
    reflexivity.
  - unfold step, Update. simpl. rewrite Hi, Himg, Hsel. simpl.
    unfold View. simpl. rewrite He, Hi.
    destruct (Z.eqb_spec (width m) 0) as [E|E]; [contradiction|].
    reflexivity.
Qed.

(** The same on the other way into the first generation, a prompt typed
    and submitted with Enter. *)
Lemma typed_prompt_shows_regenerating (m : newModel) :
  width m <> 0 -> err m = None -> inputMode m = true -> imageData m = None ->
  textinput_Value (textInput m) <> "" ->
  loadingMessage (fst (View term (step disk m (KeyMsg "enter"))))
  = Some "Regenerating image...".
Proof.
  intros Hw He Hi Himg Hv.
  unfold step, Update. simpl. rewrite Hi. simpl.
  apply String.eqb_neq in Hv. rewrite Hv. simpl.
  unfold View. simpl. rewrite He.
  destruct (Z.eqb_spec (width m) 0) as [E|E]; [contradiction|].
  unfold loadingView. simpl. rewrite Himg, Hv. reflexivity.
Qed.

End Loading.

Lemma loading_message_inverted_witness :
  loadingMessage (fst (View (plainTerminal 10 20) foxGenerating))
  = Some "Regenerating image..." /\
  loadingMessage (fst (View (plainTerminal 10 20) foxRegenerating))
  = Some "Generating your image...".
Proof.
  assert (Hp : Prompt foxConfig <> "") by discriminate.
  assert (Hw : 80 <> 0) by discriminate.
  exact (proj2 (loading_message_inverted plainDisk (plainTerminal 10 20)
                  foxConfig 80 24 foxDisplaying [x01]
                  Hp Hw Hw eq_refl eq_refl eq_refl eq_refl)).
Defined.

Section Purity.
Context `{W : Widgets}.

(** C8 (amended): [View] is a function of the session value and of what
    the terminal answers: when two terminals answer alike for the image
    the session displays (decoded bounds, font cell, encoder output,
    [TERM], [TERM_PROGRAM], protocol), the two calls return the same
    frame and perform the same effects; for a session that displays no
    image (zero width, an error, prompt entry, generating, no image) the
    frame does not depend on the terminal at all.  The session itself is
    not changed: [View] returns a frame and its effects only. *)
Theorem view_determined_by_session_and_terminal
    (t1 t2 : Terminal) (m : newModel) :
  (forall data : list byte,
     mode m = Displaying -> width m <> 0 -> imageData m = Some data ->
     sameAnswers t1 t2 data) ->
  View t1 m = View t2 m.
Proof.
  intros Hsame. unfold View.
  destruct (Z.eqb_spec (width m) 0) as [Ew|Ew]; [reflexivity|].
  destruct (err m) eqn:Ee; [reflexivity|].
  destruct (inputMode m) eqn:Ei; [reflexivity|].
  destruct (generating m) eqn:Eg; [reflexivity|].
  destruct (imageData m) as [data|] eqn:Ed; simpl; [|reflexivity].
  assert (Hmode : mode m = Displaying).
  { unfold mode. rewrite Ee, Ei, Eg, Ed. reflexivity. }
  destruct (Hsame data Hmode Ew eq_refl) as (Hfrom & Hfw & Hfh & Hr & Ht & Htp & Hp).
  unfold viewImageWithControls, renderErrorMessage.
  rewrite Ed, Hfrom, Hfw, Hfh, Ht, Htp, Hp.
  destruct (termimg_From t2 data) as [[pw ph]|]; [|reflexivity].
  destruct ((FontWidth t2 =? 0) || (FontHeight t2 =? 0)); [reflexivity|].
  match goal with
  | |- context [if ?c then (Undefined, _, _) else _] => destruct c
  end; [reflexivity|].
  destruct (fitCells _ _ _ _) as [tw th].
  rewrite Hr. reflexivity.
Qed.

End Purity.

Lemma view_determined_by_session_and_terminal_witness :
  View (plainTerminal 10 20) foxDisplaying
  = View (mkTerminal
            (fun data => match data with [_] => Some (1024, 1024) | _ => None end)
            10 20 (fun _ _ _ => Some "IMG") "xterm-kitty" "" "kitty")
         foxDisplaying.
Proof.
  apply view_determined_by_session_and_terminal.
  intros data _ _ Hd. injection Hd as <-.
  unfold sameAnswers. simpl. repeat split; reflexivity.
Defined.

(** C8 (as stated) fails: the same session on two terminals that differ
    in the font cell only gives two frames, the image placed at column 28
    on one and at column 34 on the other. *)
Lemma view_depends_on_terminal :
  fst (View (plainTerminal 10 20) foxDisplaying)
  <> fst (View (plainTerminal 64 64) foxDisplaying) /\
  ~ (forall (t1 t2 : Terminal) (m : newModel), View t1 m = View t2 m).
Proof.
  assert (H : fst (View (plainTerminal 10 20) foxDisplaying)
              <> fst (View (plainTerminal 64 64) foxDisplaying)).
  { vm_compute. discriminate. }
  split; [exact H|].
  intros Hpure. apply H. rewrite (Hpure _ (plainTerminal 64 64)). reflexivity.
Qed.

(** ** Polling *)

Section Polling.
Variable net : Network.
Variable apiKey : string.

Lemma poll_until_terminal (pending : list Types.Response) :
  forall (final first : Types.Response) (others : list Types.Response)
         (rest : list ApiReply),
    Forall (fun r => terminal (Types.Status r) = false) pending ->
    Forall (fun r => badURL net (Types.Urls_Get r) = None) pending ->
    terminal (Types.Status final) = true ->
    (pending ++ [final])%list = first :: others ->
    poll net apiKey first (map Decoded others ++ rest)
    = (inr final, pollCalls (bearer apiKey) pending, rest).
Proof.
  induction pending as [|p ps IH]; intros final first others rest Hn Hu Ht Heq.
  - simpl in Heq. injection Heq as <- <-. simpl.
    destruct (map Decoded [] ++ rest)%list eqn:E; simpl in E; subst;
      simpl; rewrite Ht; reflexivity.
  - simpl in Heq. injection Heq as <- <-.
    inversion Hn as [|? ? Hp Hn']; subst. inversion Hu as [|? ? Hup Hu']; subst.
    destruct (ps ++ [final])%list as [|x xs] eqn:E.
    { destruct ps; discriminate. }
    simpl. rewrite Hp, Hup.
    rewrite (IH final x xs rest Hn' Hu' Ht E). reflexivity.
Qed.

Lemma poll_waits (pending : list Types.Response) :
  forall (first : Types.Response) (others : list Types.Response),
    Forall (fun r => terminal (Types.Status r) = false) pending ->
    Forall (fun r => badURL net (Types.Urls_Get r) = None) pending ->
    pending = first :: others ->
    poll net apiKey first (map Decoded others)
    = (inl Waiting, pollCalls (bearer apiKey) pending, []).
Proof.
  induction pending as [|p ps IH]; intros first others Hn Hu Heq; [discriminate|].
  injection Heq as <- <-.
  inversion Hn as [|? ? Hp Hn']; subst. inversion Hu as [|? ? Hup Hu']; subst.
  destruct ps as [|x xs].
  - simpl. rewrite Hp, Hup. reflexivity.
  - simpl map. cbn [poll]. rewrite Hp, Hup.
    rewrite (IH x xs Hn' Hu' eq_refl). reflexivity.
Qed.

End Polling.

Lemma generateImage_after_submit
    (key : string) (net : Network) (prompt : string) (c : config)
    (first : Types.Response) (replies : list ApiReply) :
  ApiToken c <> "" \/ key <> "" ->
  In (FluxModel c) validFluxModels ->
  api net = Decoded first :: replies ->
  exists apiKey url body,
    generateImage key net prompt c
    = match poll net apiKey first replies with
      | (inl exit, calls, rest') =>
          (exit, Post url (bearer apiKey) body :: calls, rest')
      | (inr result, calls, rest') =>
          (fst (fetchOutput net result),
           Post url (bearer apiKey) body :: calls ++ snd (fetchOutput net result),
           rest')
      end.
Proof.
  intros Hk Hm Hapi.
  exists (if negb (String.eqb (ApiToken c) "") then ApiToken c else key).
  unfold generateImage.
  assert (Ek : String.eqb
                 (if negb (String.eqb (ApiToken c) "") then ApiToken c else key)
                 "" = false).
  { destruct (String.eqb_spec (ApiToken c) "") as [E|E]; simpl.
    - destruct Hk as [Hk|Hk]; [contradiction|]. apply String.eqb_neq; exact Hk.
    - apply String.eqb_neq; exact E. }
  rewrite Ek, Hapi.
  unfold validFluxModels in Hm. simpl in Hm.
  destruct Hm as [Hm|[Hm|[Hm|[]]]]; rewrite <- Hm; simpl;
    eexists; eexists;
    destruct (poll net _ first replies) as [[[ex|res] cs] rs]; simpl;
    try reflexivity;
    destruct (fetchOutput net res); reflexivity.
Qed.

(** C9: after the submit the driver sleeps one second before each poll
    and polls the status URL of the latest result; when the polls deliver
    the non-terminal results [pending] and then the terminal result
    [final], the run makes exactly [length pending] polls and returns at
    once, consuming no further reply: on "failed" the failure carrying
    the service's reason, without any fetch; on "succeeded" the bytes
    fetched from the output URL.  There is no bound on the number of
    polls: as long as only non-terminal results have arrived, however
    many, the run has returned nothing and is waiting on its next poll. *)
Theorem polls_until_terminal
    (key : string) (net : Network) (prompt : string) (c : config)
    (pending : list Types.Response) (final : Types.Response)
    (rest : list ApiReply) :
  ApiToken c <> "" \/ key <> "" ->
  In (FluxModel c) validFluxModels ->
  Forall (fun r => terminal (Types.Status r) = false) pending ->
  Forall (fun r => badURL net (Types.Urls_Get r) = None) pending ->
  terminal (Types.Status final) = true ->
  (api net = (map Decoded (pending ++ [final]) ++ rest)%list ->
   exists auth url body tail,
     callsOf (generateImage key net prompt c)
     = (Post url auth body :: pollCalls auth pending ++ tail)%list /\
     remaining (generateImage key net prompt c) = rest /\
     (Types.Status final = "failed" ->
      tail = [] /\
      outcome (generateImage key net prompt c)
      = Returned (ErrorMsg (ErrGenerationFailed (Types.Error final)))) /\
     (Types.Status final = "succeeded" ->
      forall (u : string) (b : list byte),
        outputsURL (Types.Output final) u ->
        asset net u = Asset b ->
        tail = [Fetch u] /\
        outcome (generateImage key net prompt c) = Returned (BytesMsg (Some b)))) /\
  (pending <> [] ->
   api net = map Decoded pending ->
   outcome (generateImage key net prompt c) = Waiting /\
   exists auth url body,
     callsOf (generateImage key net prompt c)
     = Post url auth body :: pollCalls auth pending).
Proof.
  intros Hk Hm Hn Hu Ht. split.
  - intros Hapi.
    destruct (pending ++ [final])%list as [|first others] eqn:E.
    { destruct pending; discriminate. }
    simpl in Hapi.
    destruct (generateImage_after_submit key net prompt c first _ Hk Hm Hapi)
      as (apiKey & url & body & Hg).
    rewrite (poll_until_terminal net apiKey pending final first others rest
               Hn Hu Ht E) in Hg.
    exists (bearer apiKey), url, body, (snd (fetchOutput net final)).
    rewrite Hg. unfold callsOf, remaining, outcome. simpl.
    split; [reflexivity|]. split; [reflexivity|]. split.
    + intros Hf. unfold fetchOutput. rewrite Hf. simpl. split; reflexivity.
    + intros Hs u b Hout Hb. unfold fetchOutput. rewrite Hs. simpl.
      destruct Hout as [Ho|[tl Ho]]; rewrite Ho, Hb; split; reflexivity.
  - intros Hne Hapi.
    destruct pending as [|first others]; [contradiction|].
    simpl in Hapi.
    destruct (generateImage_after_submit key net prompt c first _ Hk Hm Hapi)
      as (apiKey & url & body & Hg).
    rewrite (poll_waits net apiKey (first :: others) first others Hn Hu eq_refl) in Hg.
    rewrite Hg. unfold callsOf, outcome. simpl. split; [reflexivity|].
    exists (bearer apiKey), url, body. reflexivity.
Qed.

Lemma polls_until_terminal_witness :
  outcome (generateImage "" twoPolls "a red fox" foxConfig)
  = Returned (BytesMsg (Some [x01; x02])) /\
  remaining (generateImage "" twoPolls "a red fox" foxConfig) = [DoFails "unused"].
Proof.
  assert (Hk : ApiToken foxConfig <> "" \/ "" <> "") by (left; discriminate).
  assert (Hm : In (FluxModel foxConfig) validFluxModels) by (simpl; auto).
  assert (Hn : Forall (fun r => terminal (Types.Status r) = false)
                 [Types.mkResponse "starting" JNull JNull "g1";
                  Types.mkResponse "processing" JNull JNull "g2"])
    by (repeat constructor).
  assert (Hu : Forall (fun r => badURL twoPolls (Types.Urls_Get r) = None)
                 [Types.mkResponse "starting" JNull JNull "g1";
                  Types.mkResponse "processing" JNull JNull "g2"])
    by (repeat constructor).
  destruct (polls_until_terminal "" twoPolls "a red fox" foxConfig
              [Types.mkResponse "starting" JNull JNull "g1";
               Types.mkResponse "processing" JNull JNull "g2"]
              (Types.mkResponse "succeeded" JNull (JList [JStr "u"]) "g3")
              [DoFails "unused"] Hk Hm Hn Hu eq_refl) as [HA _].
  destruct (HA eq_refl) as (auth & url & body & tail & Hc & Hr & _ & Hs).
  split; [|exact Hr].
  apply (Hs eq_refl "u" [x01; x02]).
  - right. exists []. reflexivity.
  - reflexivity.
Defined.

(** ** Quitting *)

Section Quitting.
Context `{W : Widgets}.
Variable disk : Disk.
Variable save : bytes -> string -> string * option Failure.

Lemma afterSwitch_typing (m : newModel) (msg : Msg) :
  inputMode m = true ->
  textInput (fst (fst (afterSwitch m msg)))
  = fst (textinput_Update (textInput m) msg).
Proof.
  intros Hi. destruct m as [w h p img g i sel ti sp c e ir nc rg].
  simpl in Hi. subst i. unfold afterSwitch. simpl.
  destruct (textinput_Update ti msg) as [ti' c'].
  simpl. destruct (spinner_Update sp msg) as [sp' sc].
  destruct g; reflexivity.
Qed.

Lemma navigate_typing (m : newModel) (f : Z -> Z) :
  inputMode m = true -> navigate m f = m.
Proof. intros Hi. unfold navigate. rewrite Hi. reflexivity. Qed.

(** C10 (amended): in every mode, prompt entry included, and in all three
    revisions of [Update], a key message that reads exactly "q" or
    "ctrl+c" returns the quit command, the session unchanged and nothing
    else done; so the key "q" alone never reaches the prompt.  Key
    messages that read otherwise are not filtered for the letter: in
    input mode the current revision hands every one of them but enter to
    the text input, and the two earlier revisions append every one of
    them but enter, tab and backspace to the prompt as it reads. *)
Theorem quit_keys_leave_session
    (k : string) (m : newModel) (old : Legacy.model) (first : Proto.model) :
  k = "q" \/ k = "ctrl+c" ->
  Update disk m (KeyMsg k) = (m, Quit, []) /\
  Legacy.Update save old (KeyMsg k) = (old, Legacy.Quit) /\
  Proto.Update first (KeyMsg k) = (first, Proto.Quit) /\
  (forall (typing : newModel) (other : string),
     inputMode typing = true ->
     isKey other ["ctrl+c"; "q"; "enter"] = false ->
     textInput (step disk typing (KeyMsg other))
     = fst (textinput_Update (textInput typing) (KeyMsg other))) /\
  (forall (typing : Legacy.model) (other : string),
     Legacy.inputMode typing = true ->
     isKey other ["ctrl+c"; "q"; "enter"; "tab"; "backspace"] = false ->
     Legacy.prompt (fst (Legacy.Update save typing (KeyMsg other)))
     = (Legacy.prompt typing ++ other)%string) /\
  (forall (typing : Proto.model) (other : string),
     Proto.inputMode typing = true ->
     isKey other ["ctrl+c"; "q"; "enter"; "tab"; "backspace"] = false ->
     Proto.prompt (fst (Proto.Update typing (KeyMsg other)))
     = (Proto.prompt typing ++ other)%string).
Proof.
  intros Hk.
  split; [|split; [|split; [|split; [|split]]]].
  - destruct Hk as [-> | ->]; reflexivity.
  - destruct Hk as [-> | ->]; reflexivity.
  - destruct Hk as [-> | ->]; reflexivity.
  - intros typing other Hti Ho.
    unfold step, Update.
    unfold isKey in Ho. simpl in Ho.
    unfold isKey at 1 2. simpl.
    destruct (String.eqb other "ctrl+c"); [discriminate|].
    destruct (String.eqb other "q"); [discriminate|].
    destruct (String.eqb other "enter"); [discriminate|].
    simpl.
    rewrite !navigate_typing by exact Hti.
    repeat match goal with
           | |- context [if ?c then _ else _] => destruct c
           end;
      apply afterSwitch_typing; exact Hti.
  - intros typing other Hli Ho.
    unfold Legacy.Update.
    unfold isKey in *. simpl in *.
    destruct (String.eqb other "ctrl+c"); [discriminate|].
    destruct (String.eqb other "q"); [discriminate|].
    destruct (String.eqb other "enter"); [discriminate|].
    destruct (String.eqb other "tab"); [discriminate|].
    destruct (String.eqb other "backspace"); [discriminate|].
    simpl. rewrite Hli. unfold Legacy.afterSwitch. simpl.
    destruct (textinput_Update _ _). destruct (spinner_Update _ _). reflexivity.
  - intros typing other Hpi Ho.
    unfold Proto.Update.
    unfold isKey in *. simpl in *.
    destruct (String.eqb other "ctrl+c"); [discriminate|].
    destruct (String.eqb other "q"); [discriminate|].
    destruct (String.eqb other "enter"); [discriminate|].
    destruct (String.eqb other "tab"); [discriminate|].
    destruct (String.eqb other "backspace"); [discriminate|].
    simpl. rewrite Hpi. unfold Proto.afterSwitch. simpl.
    destruct (textinput_Update _ _). destruct (spinner_Update _ _). reflexivity.
Qed.

End Quitting.

(** The quit key on sessions outside prompt entry (an image on screen;
    the earlier revisions after a submit), and ordinary keys in prompt
    entry: a letter in the previous revision, Tab in the current one. *)
Lemma quit_keys_leave_session_witness :
  Update plainDisk foxDisplaying (KeyMsg "q") = (foxDisplaying, Quit, []) /\
  Legacy.Update (fun _ _ => ("", None))
    (fst (Legacy.Update (fun _ _ => ("", None)) oldStart (KeyMsg "enter")))
    (KeyMsg "q")
  = (fst (Legacy.Update (fun _ _ => ("", None)) oldStart (KeyMsg "enter")), Legacy.Quit) /\
  Proto.Update (fst (Proto.Update firstStart (KeyMsg "enter"))) (KeyMsg "q")
  = (fst (Proto.Update firstStart (KeyMsg "enter")), Proto.Quit) /\
  Legacy.prompt (fst (Legacy.Update (fun _ _ => ("", None)) oldStart (KeyMsg "x")))
  = "x" /\
  textInput (step plainDisk
               (newInitialModel (mkConfig "" "r8_token" "schnell" "1:1" "png" ""))
               (KeyMsg "tab"))
  = fst (textinput_Update
           (textInput (newInitialModel (mkConfig "" "r8_token" "schnell" "1:1" "png" "")))
           (KeyMsg "tab")).
Proof.
  assert (Hk : "q" = "q" \/ "q" = "ctrl+c") by (left; reflexivity).
  pose proof (quit_keys_leave_session plainDisk (fun _ _ => ("", None))
                "q" foxDisplaying
                (fst (Legacy.Update (fun _ _ => ("", None)) oldStart (KeyMsg "enter")))
                (fst (Proto.Update firstStart (KeyMsg "enter")))
                Hk) as H.
  destruct H as (H1 & H2 & H3 & H4 & H5 & _).
  split; [exact H1|]. split; [exact H2|]. split; [exact H3|]. split.
  - exact (H5 oldStart "x" eq_refl eq_refl).
  - exact (H4 (newInitialModel (mkConfig "" "r8_token" "schnell" "1:1" "png" ""))
              "tab" eq_refl eq_refl).
Defined.

(** C10 (as stated) fails: in prompt entry of the two earlier revisions
    the key Ctrl-Q, which reads "ctrl+q", is not a quit key and is
    appended to the empty prompt, which then contains the letter q. *)
Lemma ctrl_q_puts_q_in_prompt :
  hasChar "q" (Legacy.prompt oldStart) = false /\
  snd (Legacy.Update (fun _ _ => ("", None)) oldStart (KeyMsg "ctrl+q"))
  <> Legacy.Quit /\
  Legacy.prompt (fst (Legacy.Update (fun _ _ => ("", None)) oldStart (KeyMsg "ctrl+q")))
  = "ctrl+q" /\
  hasChar "q"
    (Legacy.prompt (fst (Legacy.Update (fun _ _ => ("", None)) oldStart (KeyMsg "ctrl+q"))))
  = true /\
  hasChar "q" (Proto.prompt (fst (Proto.Update firstStart (KeyMsg "ctrl+q")))) = true.
Proof.
  repeat split; try reflexivity. vm_compute. discriminate.
Qed.

(** ** Sizing the image

    float64 facts first: the rounding error of one operation, the grid of
    half-integers, exact conversion of integers; then the sizing block. *)

Module F64Facts.
Import F64.

Lemma rne_near (N D : Z) :
  0 < D -> 2 * (rne N D * D - N) <= D /\ 2 * (N - rne N D * D) <= D.
Proof.
  intros HD. unfold rne.
  pose proof (Z.div_mod N D ltac:(lia)) as E.
  pose proof (Z.mod_pos_bound N D HD) as B.
  destruct (Z.ltb_spec (2 * (N mod D)) D); [nia|].
  destruct (Z.ltb_spec D (2 * (N mod D))); [nia|].
  destruct (Z.even (N / D)); nia.
Qed.

Lemma rne_between (N D lo hi : Z) :
  0 < D -> lo * D <= N -> N <= hi * D -> lo <= rne N D <= hi.
Proof.
  intros HD Hlo Hhi. unfold rne.
  pose proof (Z.div_mod N D ltac:(lia)) as E.
  pose proof (Z.mod_pos_bound N D HD) as B.
  assert (lo <= N / D) by nia.
  destruct (Z.ltb_spec (2 * (N mod D)) D); [nia|].
  assert (N / D + 1 <= hi) by nia.
  destruct (Z.ltb_spec D (2 * (N mod D))); [nia|].
  destruct (Z.even (N / D)); nia.
Qed.

Lemma scale_pos (n e : Z) : 0 < n -> 0 < scaleN n e /\ 0 < scaleD n e.
Proof.
  intros Hn. unfold scaleN, scaleD.
  assert (0 < 2 ^ Z.max 0 (- e)) by (apply Z.pow_pos_nonneg; lia).
  assert (0 < 2 ^ Z.max 0 e) by (apply Z.pow_pos_nonneg; lia).
  nia.
Qed.

(** The exponent is the right one: the scaled fraction has exactly 53
    bits before the point. *)
Lemma ulpExp_spec (n d : Z) :
  0 < n -> 0 < d ->
  2 ^ 52 * scaleD d (ulpExp n d) <= scaleN n (ulpExp n d) < 2 ^ 53 * scaleD d (ulpExp n d).
Proof.
  intros Hn Hd.
  pose proof (Z.log2_spec n Hn) as [La Ua].
  pose proof (Z.log2_spec d Hd) as [Lb Ub].
  pose proof (Z.log2_nonneg n) as Na. pose proof (Z.log2_nonneg d) as Nb.
  rewrite Z.pow_succ_r in Ua, Ub by assumption.
  unfold ulpExp.
  set (a := Z.log2 n) in *. set (b := Z.log2 d) in *.
  assert (P52 : 2 ^ 52 = 4503599627370496) by reflexivity.
  assert (P53 : 2 ^ 53 = 9007199254740992) by reflexivity.
  rewrite P52, P53.
  destruct (Z.ltb_spec (scaleN n (a - b - 53)) (9007199254740992 * scaleD d (a - b - 53))) as [Hlt|Hge].
  - split; [|exact Hlt].
    unfold scaleN, scaleD in *.
    destruct (Z.le_gt_cases 0 (a - b - 53)) as [Hs|Hs].
    + rewrite (Z.max_l 0 (- (a - b - 53))) by lia.
      rewrite (Z.max_r 0 (a - b - 53)) by lia.
      assert (E : 2 ^ a = 2 ^ b * 2 ^ 53 * 2 ^ (a - b - 53)).
      { rewrite <- !Z.pow_add_r by lia. f_equal. lia. }
      rewrite P53 in E.
      assert (0 < 2 ^ (a - b - 53)) by (apply Z.pow_pos_nonneg; lia).
      change (2 ^ 0) with 1. nia.
    + rewrite (Z.max_r 0 (- (a - b - 53))) by lia.
      rewrite (Z.max_l 0 (a - b - 53)) by lia.
      assert (E : 2 ^ a * 2 ^ (- (a - b - 53)) = 2 ^ b * 2 ^ 53).
      { rewrite <- !Z.pow_add_r by lia. f_equal. lia. }
      rewrite P53 in E.
      assert (0 < 2 ^ (- (a - b - 53))) by (apply Z.pow_pos_nonneg; lia).
      change (2 ^ 0) with 1. nia.
  - unfold scaleN, scaleD in *.
    destruct (Z.le_gt_cases 0 (a - b - 53)) as [Hs|Hs].
    + rewrite (Z.max_l 0 (- (a - b - 53 + 1))) by lia.
      rewrite (Z.max_r 0 (a - b - 53 + 1)) by lia.
      rewrite (Z.max_l 0 (- (a - b - 53))) in Hge by lia.
      rewrite (Z.max_r 0 (a - b - 53)) in Hge by lia.
      assert (E : 2 ^ a = 2 ^ b * 2 ^ 53 * 2 ^ (a - b - 53)).
      { rewrite <- !Z.pow_add_r by lia. f_equal. lia. }
      rewrite P53 in E.
      rewrite Z.pow_add_r by lia.
      assert (0 < 2 ^ (a - b - 53)) by (apply Z.pow_pos_nonneg; lia).
      change (2 ^ 0) with 1 in *. change (2 ^ 1) with 2. nia.
    + rewrite (Z.max_r 0 (- (a - b - 53 + 1))) by lia.
      rewrite (Z.max_l 0 (a - b - 53 + 1)) by lia.
      rewrite (Z.max_r 0 (- (a - b - 53))) in Hge by lia.
      rewrite (Z.max_l 0 (a - b - 53)) in Hge by lia.
      assert (E : 2 ^ a * 2 ^ (- (a - b - 53)) = 2 ^ b * 2 ^ 53).
      { rewrite <- !Z.pow_add_r by lia. f_equal. lia. }
      rewrite P53 in E.
      assert (E2 : 2 ^ (- (a - b - 53)) = 2 * 2 ^ (- (a - b - 53 + 1))).
      { replace (- (a - b - 53)) with (Z.succ (- (a - b - 53 + 1))) by lia.
        rewrite Z.pow_succ_r by lia. reflexivity. }
      assert (0 < 2 ^ (- (a - b - 53 + 1))) by (apply Z.pow_pos_nonneg; lia).
      change (2 ^ 0) with 1 in *. nia.
Qed.

Lemma roundPos_num_den (n d : Z) :
  0 < n -> 0 < d ->
  let e := ulpExp n d in
  let m := rne (scaleN n e) (scaleD d e) in
  Qnum (roundPos n d) = m * 2 ^ Z.max 0 e /\
  Zpos (Qden (roundPos n d)) = 2 ^ Z.max 0 (- e).
Proof.
  intros Hn Hd e m. unfold roundPos. fold e. fold m. simpl.
  split; [reflexivity|].
  apply Z2Pos.id. apply Z.pow_pos_nonneg; lia.
Qed.

(** Rounding moves a positive value by at most 2^-53 of itself. *)
Lemma round_rel (x : Q) :
  (0 < x)%Q -> (x - x * u <= round x)%Q /\ (round x <= x + x * u)%Q.
Proof.
  destruct x as [xn xd]. intros Hx.
  unfold Qlt in Hx. simpl in Hx.
  destruct xn as [|n|n]; try lia.
  unfold round. simpl Qnum. simpl Qden.
  pose proof (roundPos_num_den (Zpos n) (Zpos xd) ltac:(lia) ltac:(lia)) as [En Ed].
  cbv zeta in En, Ed.
  pose proof (ulpExp_spec (Zpos n) (Zpos xd) ltac:(lia) ltac:(lia)) as [Lo Hi].
  set (e := ulpExp (Zpos n) (Zpos xd)) in *.
  pose proof (scale_pos (Zpos n) e ltac:(lia)) as [HN _].
  pose proof (scale_pos (Zpos xd) e ltac:(lia)) as [_ HD].
  pose proof (rne_near (scaleN (Zpos n) e) (scaleD (Zpos xd) e) HD) as [R1 R2].
  set (m := rne (scaleN (Zpos n) e) (scaleD (Zpos xd) e)) in *.
  unfold scaleN, scaleD in *.
  set (P := 2 ^ Z.max 0 e) in *. set (M := 2 ^ Z.max 0 (- e)) in *.
  assert (HP : 0 < P) by (apply Z.pow_pos_nonneg; lia).
  assert (HM : 0 < M) by (apply Z.pow_pos_nonneg; lia).
  change (2 ^ 52) with 4503599627370496 in Lo.
  set (y := roundPos (Zpos n) (Zpos xd)) in *.
  unfold Qle, Qminus, Qplus, Qmult, Qopp, u. cbn [Qnum Qden].
  rewrite !Pos2Z.inj_mul, En, Ed.
  split; nia.
Qed.

(** Below 2^52 the half-integers are floats: rounding does not cross
    them. *)
Lemma round_between_halves (x : Q) (A B : Z) :
  (0 < x)%Q -> (x < inject_Z (2 ^ 52))%Q ->
  (A # 2 <= x)%Q -> (x <= B # 2)%Q ->
  (A # 2 <= round x)%Q /\ (round x <= B # 2)%Q.
Proof.
  destruct x as [xn xd]. intros Hx Hbig HA HB.
  unfold Qlt in Hx, Hbig. unfold Qle in HA, HB.
  cbn [Qnum Qden inject_Z] in Hx, Hbig, HA, HB.
  change (2 ^ 52) with 4503599627370496 in Hbig.
  destruct xn as [|n|n]; try lia.
  unfold round. cbn [Qnum Qden].
  pose proof (roundPos_num_den (Zpos n) (Zpos xd) ltac:(lia) ltac:(lia)) as [En Ed].
  cbv zeta in En, Ed.
  pose proof (ulpExp_spec (Zpos n) (Zpos xd) ltac:(lia) ltac:(lia)) as [Lo Hi].
  set (e := ulpExp (Zpos n) (Zpos xd)) in *.
  pose proof (scale_pos (Zpos xd) e ltac:(lia)) as [_ HD].
  assert (He : e < 0).
  { destruct (Z.lt_ge_cases e 0) as [|Hge]; [assumption|exfalso].
    unfold scaleN, scaleD in Lo.
    rewrite (Z.max_l 0 (- e)) in Lo by lia. rewrite (Z.max_r 0 e) in Lo by lia.
    assert (0 < 2 ^ e) by (apply Z.pow_pos_nonneg; lia).
    change (2 ^ 0) with 1 in Lo. change (2 ^ 52) with 4503599627370496 in Lo.
    nia. }
  assert (EM : 2 ^ Z.max 0 (- e) = 2 * 2 ^ (- e - 1)).
  { rewrite Z.max_r by lia.
    replace (- e) with (Z.succ (- e - 1)) at 1 by lia.
    rewrite Z.pow_succ_r by lia. reflexivity. }
  assert (EP : 2 ^ Z.max 0 e = 1) by (rewrite Z.max_l by lia; reflexivity).
  assert (HM' : 0 < 2 ^ (- e - 1)) by (apply Z.pow_pos_nonneg; lia).
  unfold scaleN, scaleD in *. rewrite EM, EP in *.
  set (M' := 2 ^ (- e - 1)) in *. clearbody M'. clear Lo Hi EM EP.
  assert (G1 : A * M' * (Zpos xd * 1) <= Zpos n * (2 * M')) by nia.
  assert (G2 : Zpos n * (2 * M') <= B * M' * (Zpos xd * 1)) by nia.
  pose proof (rne_between (Zpos n * (2 * M')) (Zpos xd * 1) (A * M') (B * M')
                ltac:(lia) G1 G2) as [R1 R2].
  set (m := rne (Zpos n * (2 * M')) (Zpos xd * 1)) in *.
  set (y := roundPos (Zpos n) (Zpos xd)) in *.
  unfold Qle. cbn [Qnum Qden]. rewrite En, Ed.
  split; nia.
Qed.

(** Integers below 2^52 convert exactly. *)
Lemma ofInt_exact (i : Z) : 0 < i < 2 ^ 52 -> (ofInt i == inject_Z i)%Q.
Proof.
  intros [H0 H1]. unfold ofInt.
  destruct (round_between_halves (inject_Z i) (2 * i) (2 * i)) as [L U].
  - unfold Qlt. cbn [Qnum Qden inject_Z]. lia.
  - rewrite <- Zlt_Qlt. exact H1.
  - unfold Qle. cbn [Qnum Qden inject_Z]. lia.
  - unfold Qle. cbn [Qnum Qden inject_Z]. lia.
  - apply Qle_antisym.
    + eapply Qle_trans; [exact U|]. unfold Qle. cbn [Qnum Qden inject_Z]. lia.
    + eapply Qle_trans; [|exact L]. unfold Qle. cbn [Qnum Qden inject_Z]. lia.
Qed.

Ltac qz :=
  unfold Qminus; unfold Qlt, Qle, Qeq, Qplus, Qopp; cbn [Qnum Qden inject_Z]; lia.

Lemma toInt_floor (y : Q) : (0 <= y)%Q -> toInt y = Qfloor y.
Proof.
  destruct y as [n d]. unfold Qle. cbn [Qnum Qden]. intros H.
  unfold toInt, Qfloor. cbn [Qnum Qden].
  apply Z.quot_div_nonneg; lia.
Qed.

Lemma Qle_of_mult (a b q : Q) : (0 < q)%Q -> (a * q <= b * q)%Q -> (a <= b)%Q.
Proof. intros Hq H. apply (Qmult_le_r a b q Hq). exact H. Qed.

(** A value within 2^-53 of the fraction [p/q], rounded and truncated, is
    within one of [p/q], and not above any integer that bounds [p/q]. *)
Lemma scaled_within_a_cell (p q : Z) (y : Q) :
  0 < p < 2 ^ 52 -> 0 < q ->
  (inject_Z p - inject_Z p * u <= y * inject_Z q)%Q ->
  (y * inject_Z q <= inject_Z p + inject_Z p * u)%Q ->
  p - q <= toInt (round y) * q <= p + q /\
  forall C : Z, p <= C * q -> toInt (round y) <= C.
Proof.
  intros [Hp0 Hp1] Hq Hlo Hhi. unfold u in Hlo, Hhi.
  change (2 ^ 52) with 4503599627370496 in Hp1.
  assert (HpQ : (0 < inject_Z p)%Q) by qz.
  assert (HpQ1 : (inject_Z p <= 4503599627370495)%Q) by qz.
  assert (HqQ : (1 <= inject_Z q)%Q) by qz.
  assert (HqQ0 : (0 < inject_Z q)%Q) by qz.
  set (k := p / q). set (c := (p + q - 1) / q).
  assert (Hk : k * q <= p < k * q + q).
  { unfold k. pose proof (Z.div_mod p q ltac:(lia)).
    pose proof (Z.mod_pos_bound p q Hq). nia. }
  assert (Hc : p <= c * q < p + q).
  { unfold c. pose proof (Z.div_mod (p + q - 1) q ltac:(lia)).
    pose proof (Z.mod_pos_bound (p + q - 1) q Hq). nia. }
  clearbody k c.
  assert (Hy0 : (0 < y)%Q).
  { destruct (Qlt_le_dec 0 y) as [|Hn]; [assumption|exfalso].
    pose proof (Qmult_le_compat_r y 0 (inject_Z q) Hn (Qlt_le_weak _ _ HqQ0)) as Hm.
    lra. }
  assert (Hyk : (y <= inject_Z (k + 1))%Q).
  { apply (Qle_of_mult _ _ (inject_Z q) HqQ0).
    rewrite <- inject_Z_mult.
    assert ((inject_Z p + 1 <= inject_Z ((k + 1) * q))%Q) by qz.
    lra. }
  assert (Hyc : (inject_Z (c - 1) <= y)%Q).
  { apply (Qle_of_mult _ _ (inject_Z q) HqQ0).
    rewrite <- inject_Z_mult.
    assert ((inject_Z ((c - 1) * q) <= inject_Z p - 1)%Q) by qz.
    lra. }
  assert (Hybig : (y < inject_Z (2 ^ 52))%Q).
  { change (inject_Z (2 ^ 52)) with 4503599627370496%Q.
    assert ((inject_Z (k + 1) <= 4503599627370496)%Q) by (unfold Qle; cbn [Qnum Qden inject_Z]; nia).
    assert (Hyq : (y <= y * inject_Z q)%Q).
    { pose proof (Qmult_le_compat_r 1 (inject_Z q) y HqQ (Qlt_le_weak _ _ Hy0)) as Hm.
      lra. }
    lra. }
  split.
  - destruct (round_between_halves y (2 * (c - 1)) (2 * (k + 1)) Hy0 Hybig) as [L U].
    + eapply Qle_trans; [|exact Hyc]. qz.
    + eapply Qle_trans; [exact Hyk|]. qz.
    + assert (L' : (inject_Z (c - 1) <= round y)%Q).
      { eapply Qle_trans; [|exact L]. qz. }
      assert (U' : (round y <= inject_Z (k + 1))%Q).
      { eapply Qle_trans; [exact U|]. qz. }
      assert (H0 : (0 <= round y)%Q).
      { eapply Qle_trans; [|exact L']. unfold Qle; cbn [Qnum Qden inject_Z]; nia. }
      rewrite (toInt_floor _ H0).
      pose proof (Qfloor_resp_le _ _ L') as F1. rewrite Qfloor_Z in F1.
      pose proof (Qfloor_resp_le _ _ U') as F2. rewrite Qfloor_Z in F2.
      nia.
  - intros C HC.
    assert (HyC : (y <= (2 * C + 1) # 2)%Q).
    { apply (Qle_of_mult _ _ (inject_Z q) HqQ0).
      assert (H : (inject_Z p <= inject_Z (C * q))%Q) by qz.
      rewrite inject_Z_mult in H.
      setoid_replace ((2 * C + 1) # 2)%Q with (inject_Z C + (1 # 2))%Q by qz.
      nra. }
    destruct (round_between_halves y 0 (2 * C + 1) Hy0 Hybig) as [L U].
    + eapply Qle_trans; [|apply Qlt_le_weak; exact Hy0]. qz.
    + exact HyC.
    + assert (H0 : (0 <= round y)%Q) by (eapply Qle_trans; [|exact L]; qz).
      rewrite (toInt_floor _ H0).
      pose proof (Qfloor_le (round y)) as F.
      assert (F' : (inject_Z (Qfloor (round y)) < inject_Z (C + 1))%Q).
      { eapply Qle_lt_trans; [exact F|]. eapply Qle_lt_trans; [exact U|]. qz. }
      rewrite <- Zlt_Qlt in F'. lia.
Qed.

Lemma inject_pos (i : Z) : 0 < i -> (0 < inject_Z i)%Q.
Proof. intros H. qz. Qed.

(** The rounded quotient of two integers, multiplied back. *)
Lemma div_rel (A W : Z) :
  0 < A < 2 ^ 52 -> 0 < W < 2 ^ 52 ->
  (inject_Z A - inject_Z A * u <= div (ofInt A) (ofInt W) * inject_Z W)%Q /\
  (div (ofInt A) (ofInt W) * inject_Z W <= inject_Z A + inject_Z A * u)%Q.
Proof.
  intros HA HW.
  pose proof (ofInt_exact A HA) as EA. pose proof (ofInt_exact W HW) as EW.
  pose proof (inject_pos A ltac:(lia)) as PA.
  pose proof (inject_pos W ltac:(lia)) as PW.
  unfold div. set (x := (ofInt A / ofInt W)%Q).
  assert (Ex : (x * inject_Z W == inject_Z A)%Q).
  { unfold x. rewrite EA, EW. field. intro E. rewrite E in PW. inversion PW. }
  assert (Px : (0 < x)%Q).
  { destruct (Qlt_le_dec 0 x) as [|Hn]; [assumption|exfalso].
    pose proof (Qmult_le_compat_r x 0 (inject_Z W) Hn (Qlt_le_weak _ _ PW)) as Hm.
    rewrite Ex in Hm. lra. }
  destruct (round_rel x Px) as [L U]. unfold u in *.
  pose proof (Qmult_le_compat_r _ _ (inject_Z W) L (Qlt_le_weak _ _ PW)) as L'.
  pose proof (Qmult_le_compat_r _ _ (inject_Z W) U (Qlt_le_weak _ _ PW)) as U'.
  setoid_replace ((x - x * (1 # 9007199254740992)) * inject_Z W)%Q
    with (x * inject_Z W - x * inject_Z W * (1 # 9007199254740992))%Q in L' by ring.
  setoid_replace ((x + x * (1 # 9007199254740992)) * inject_Z W)%Q
    with (x * inject_Z W + x * inject_Z W * (1 # 9007199254740992))%Q in U' by ring.
  rewrite Ex in L', U'. split; assumption.
Qed.

Lemma Min_cases (a b : Q) :
  (Min a b = a /\ (a <= b)%Q) \/ (Min a b = b /\ (b <= a)%Q).
Proof.
  unfold Min. destruct (Qle_bool a b) eqn:E.
  - left. split; [reflexivity|]. apply Qle_bool_iff. exact E.
  - right. split; [reflexivity|].
    destruct (Qlt_le_dec b a) as [H|H]; [apply Qlt_le_weak; exact H|].
    apply Qle_bool_iff in H. congruence.
Qed.

(** The common ratio, applied to one side and multiplied by the other
    side, is within 2^-53 of [min (A*H) (B*W)]. *)
Lemma ratio_rel (W H A B : Z) :
  0 < W < 2 ^ 26 -> 0 < H < 2 ^ 26 -> 0 < A < 2 ^ 26 -> 0 < B < 2 ^ 26 ->
  let ratio := Min (div (ofInt A) (ofInt W)) (div (ofInt B) (ofInt H)) in
  let p := inject_Z (Z.min (A * H) (B * W)) in
  (p - p * u <= inject_Z W * ratio * inject_Z H)%Q /\
  (inject_Z W * ratio * inject_Z H <= p + p * u)%Q.
Proof.
  intros HW HH HA HB ratio p.
  assert (P26 : 2 ^ 26 = 67108864) by reflexivity. rewrite P26 in *.
  assert (P52 : 2 ^ 52 = 4503599627370496) by reflexivity.
  destruct (div_rel A W ltac:(rewrite P52; lia) ltac:(rewrite P52; lia)) as [Lw Uw].
  destruct (div_rel B H ltac:(rewrite P52; lia) ltac:(rewrite P52; lia)) as [Lh Uh].
  pose proof (inject_pos W ltac:(lia)) as PW.
  pose proof (inject_pos H ltac:(lia)) as PH.
  set (qw := div (ofInt A) (ofInt W)) in *.
  set (qh := div (ofInt B) (ofInt H)) in *.
  pose proof (Qmult_le_compat_r _ _ (inject_Z H) Lw (Qlt_le_weak _ _ PH)) as Lw'.
  pose proof (Qmult_le_compat_r _ _ (inject_Z H) Uw (Qlt_le_weak _ _ PH)) as Uw'.
  pose proof (Qmult_le_compat_r _ _ (inject_Z W) Lh (Qlt_le_weak _ _ PW)) as Lh'.
  pose proof (Qmult_le_compat_r _ _ (inject_Z W) Uh (Qlt_le_weak _ _ PW)) as Uh'.
  unfold u in *.
  assert (Eah : (inject_Z A * inject_Z H == inject_Z (A * H))%Q)
    by (rewrite inject_Z_mult; reflexivity).
  assert (Ebw : (inject_Z B * inject_Z W == inject_Z (B * W))%Q)
    by (rewrite inject_Z_mult; reflexivity).
  set (ah := inject_Z (A * H)) in *. set (bw := inject_Z (B * W)) in *.
  assert (Hp : (p <= ah)%Q /\ (p <= bw)%Q /\ (p == ah \/ p == bw)%Q).
  { unfold p, ah, bw. destruct (Z.min_spec (A * H) (B * W)) as [[Hlt ->]|[Hle ->]].
    - repeat split; qz.
    - repeat split; qz. }
  destruct Hp as (Hpa & Hpb & Hpe).
  assert (Xw : (inject_Z W * qw * inject_Z H == qw * inject_Z W * inject_Z H)%Q) by ring.
  assert (Xh : (inject_Z W * qh * inject_Z H == qh * inject_Z H * inject_Z W)%Q) by ring.
  assert (Mono : forall a b : Q, (a <= b)%Q ->
            (inject_Z W * a * inject_Z H <= inject_Z W * b * inject_Z H)%Q).
  { intros a b Hab.
    apply Qmult_le_compat_r; [|apply Qlt_le_weak; exact PH].
    rewrite (Qmult_comm (inject_Z W) a), (Qmult_comm (inject_Z W) b).
    apply Qmult_le_compat_r; [exact Hab|apply Qlt_le_weak; exact PW]. }
  set (X := fun r : Q => (inject_Z W * r * inject_Z H)%Q) in *.
  change (p - p * (1 # 9007199254740992) <= X ratio
          /\ X ratio <= p + p * (1 # 9007199254740992))%Q.
  change (X qw == qw * inject_Z W * inject_Z H)%Q in Xw.
  change (X qh == qh * inject_Z H * inject_Z W)%Q in Xh.
  assert (Bw : (ah - ah * (1 # 9007199254740992) <= X qw
                /\ X qw <= ah + ah * (1 # 9007199254740992))%Q).
  { rewrite Xw. split.
    - eapply Qle_trans; [|exact Lw']. rewrite <- Eah. apply Qle_lteq. right. ring.
    - eapply Qle_trans; [exact Uw'|]. rewrite <- Eah. apply Qle_lteq. right. ring. }
  assert (Bh : (bw - bw * (1 # 9007199254740992) <= X qh
                /\ X qh <= bw + bw * (1 # 9007199254740992))%Q).
  { rewrite Xh. split.
    - eapply Qle_trans; [|exact Lh']. rewrite <- Ebw. apply Qle_lteq. right. ring.
    - eapply Qle_trans; [exact Uh'|]. rewrite <- Ebw. apply Qle_lteq. right. ring. }
  destruct Bw as [Bw1 Bw2]. destruct Bh as [Bh1 Bh2].
  unfold ratio.
  destruct (Min_cases qw qh) as [[-> Hle]|[-> Hle]].
  - pose proof (Mono _ _ Hle) as Hm. change (X qw <= X qh)%Q in Hm.
    generalize dependent (X qw). generalize dependent (X qh). intros.
    destruct Hpe as [Hpe|Hpe]; split; lra.
  - pose proof (Mono _ _ Hle) as Hm. change (X qh <= X qw)%Q in Hm.
    generalize dependent (X qw). generalize dependent (X qh). intros.
    destruct Hpe as [Hpe|Hpe]; split; lra.
Qed.

(** [cellsOf] is the exact ceiling of the quotient. *)
Lemma cellsOf_ceiling (px font : Z) :
  0 < px < 2 ^ 52 -> 0 < font < 2 ^ 52 ->
  cellsOf px font = (px + font - 1) / font.
Proof.
  intros Hpx Hf.
  assert (P52 : 2 ^ 52 = 4503599627370496) by reflexivity.
  destruct (div_rel px font Hpx Hf) as [L U].
  rewrite P52 in *.
  pose proof (inject_pos font ltac:(lia)) as PF.
  unfold cellsOf, Ceil. fold (div (ofInt px) (ofInt font)).
  set (v := div (ofInt px) (ofInt font)) in *.
  set (c := (px + font - 1) / font).
  assert (Hc : px <= c * font < px + font).
  { unfold c. pose proof (Z.div_mod (px + font - 1) font ltac:(lia)).
    pose proof (Z.mod_pos_bound (px + font - 1) font ltac:(lia)). nia. }
  clearbody c.
  assert (PX : (1 <= inject_Z px)%Q) by qz.
  assert (PX' : (inject_Z px <= 4503599627370495)%Q) by qz.
  unfold u in *.
  (* c - 1 < v *)
  assert (Lv : (inject_Z (c - 1) < v)%Q).
  { destruct (Qlt_le_dec (inject_Z (c - 1)) v) as [|Hn]; [assumption|exfalso].
    pose proof (Qmult_le_compat_r _ _ (inject_Z font) Hn (Qlt_le_weak _ _ PF)) as Hm.
    rewrite <- inject_Z_mult in Hm.
    assert ((inject_Z ((c - 1) * font) <= inject_Z px - 1)%Q) by qz.
    lra. }
  (* v <= c, through the grid of integers *)
  assert (Uv : (v <= inject_Z c)%Q).
  { set (x := (ofInt px / ofInt font)%Q).
    pose proof (ofInt_exact px ltac:(rewrite P52; lia)) as EA.
    pose proof (ofInt_exact font ltac:(rewrite P52; lia)) as EW.
    assert (Ex : (x * inject_Z font == inject_Z px)%Q).
    { unfold x. rewrite EA, EW. field. intro E. rewrite E in PF. inversion PF. }
    assert (Px : (0 < x)%Q).
    { destruct (Qlt_le_dec 0 x) as [|Hn]; [assumption|exfalso].
      pose proof (Qmult_le_compat_r x 0 (inject_Z font) Hn (Qlt_le_weak _ _ PF)) as Hm.
      rewrite Ex in Hm. lra. }
    assert (Xc : (x <= inject_Z c)%Q).
    { apply (Qle_of_mult _ _ (inject_Z font) PF). rewrite Ex, <- inject_Z_mult. qz. }
    assert (Xbig : (x < inject_Z (2 ^ 52))%Q).
    { rewrite P52. eapply Qle_lt_trans; [exact Xc|].
      unfold Qlt. cbn [Qnum Qden inject_Z]. nia. }
    destruct (round_between_halves x 0 (2 * c) Px Xbig) as [_ R].
    - eapply Qle_trans; [|apply Qlt_le_weak; exact Px]. qz.
    - eapply Qle_trans; [exact Xc|]. qz.
    - eapply Qle_trans; [exact R|]. qz. }
  assert (E : Qceiling v = c).
  { pose proof (Qle_ceiling v) as C1. pose proof (Qceiling_lt v) as C2.
    assert ((inject_Z (c - 1) < inject_Z (Qceiling v))%Q)
      by (eapply Qlt_le_trans; eassumption).
    assert ((inject_Z (Qceiling v - 1) < inject_Z c)%Q)
      by (eapply Qlt_le_trans; eassumption).
    rewrite <- Zlt_Qlt in *. lia. }
  rewrite E. unfold toInt. cbn [Qnum Qden inject_Z]. apply Z.quot_1_r.
Qed.

(** The block that scales the image down, in cells. *)
Lemma fitCells_scaled (W H A B : Z) :
  0 < W < 2 ^ 26 -> 0 < H < 2 ^ 26 -> 0 < A < 2 ^ 26 -> 0 < B < 2 ^ 26 ->
  A < W \/ B < H ->
  let p := Z.min (A * H) (B * W) in
  fst (fitCells W H A B) <= A /\
  snd (fitCells W H A B) <= B /\
  p - H <= fst (fitCells W H A B) * H <= p + H /\
  p - W <= snd (fitCells W H A B) * W <= p + W.
Proof.
  intros HW HH HA HB Hex p.
  destruct (ratio_rel W H A B HW HH HA HB) as [L U]. cbv zeta in L, U. fold p in L, U.
  assert (P26 : 2 ^ 26 = 67108864) by reflexivity.
  assert (P52 : 2 ^ 52 = 4503599627370496) by reflexivity.
  rewrite P26 in *.
  assert (Hp : 0 < p < 2 ^ 52) by (rewrite P52; unfold p; nia).
  assert (HpA : p <= A * H) by (unfold p; lia).
  assert (HpB : p <= B * W) by (unfold p; lia).
  clearbody p.
  unfold fitCells.
  replace ((W >? A) || (H >? B)) with true.
  2:{ symmetry. apply orb_true_iff. rewrite !Z.gtb_ltb, !Z.ltb_lt. exact Hex. }
  set (ratio := Min (div (ofInt A) (ofInt W)) (div (ofInt B) (ofInt H))) in *.
  cbn [fst snd]. unfold mul.
  pose proof (ofInt_exact W ltac:(rewrite P52; lia)) as EW.
  pose proof (ofInt_exact H ltac:(rewrite P52; lia)) as EH.
  destruct (scaled_within_a_cell p H (ofInt W * ratio)%Q Hp ltac:(lia)) as [Aw Cw].
  { rewrite EW. exact L. }
  { rewrite EW. exact U. }
  destruct (scaled_within_a_cell p W (ofInt H * ratio)%Q Hp ltac:(lia)) as [Ah Ch].
  { rewrite EH. eapply Qle_trans; [exact L|]. apply Qle_lteq. right. ring. }
  { rewrite EH. eapply Qle_trans; [|exact U]. apply Qle_lteq. right. ring. }
  repeat split; try lia.
  - apply Cw. exact HpA.
  - apply Ch. exact HpB.
Qed.
End F64Facts.

(** The exact ratio, and what one cell of tolerance means for it. *)
Lemma div_le_iff (A W B H : Z) :
  0 < W -> 0 < H ->
  (inject_Z A / inject_Z W <= inject_Z B / inject_Z H)%Q <-> A * H <= B * W.
Proof.
  intros HW HH. unfold Qle, Qdiv, Qmult, Qinv. cbn [Qnum Qden inject_Z].
  destruct W as [|w|w]; try lia. destruct H as [|h|h]; try lia.
  cbn [Qnum Qden]. lia.
Qed.

Lemma exactRatio_times (W H A B : Z) :
  0 < W -> 0 < H ->
  (inject_Z W * exactRatio W H A B * inject_Z H == inject_Z (Z.min (A * H) (B * W)))%Q.
Proof.
  intros HW HH. unfold exactRatio.
  assert (PW : ~ (inject_Z W == 0)%Q).
  { intro E. unfold Qeq in E. cbn [Qnum Qden inject_Z] in E. lia. }
  assert (PH : ~ (inject_Z H == 0)%Q).
  { intro E. unfold Qeq in E. cbn [Qnum Qden inject_Z] in E. lia. }
  destruct (Q.min_spec (inject_Z A / inject_Z W) (inject_Z B / inject_Z H))
    as [[Hlt ->]|[Hle ->]].
  - rewrite Z.min_l by (apply (div_le_iff A W B H HW HH), Qlt_le_weak; exact Hlt).
    rewrite inject_Z_mult. field. exact PW.
  - rewrite Z.min_r by (apply (div_le_iff B H A W HH HW); exact Hle).
    rewrite inject_Z_mult. field. exact PH.
Qed.

Lemma within_one_cell (t W H p : Z) (r : Q) :
  0 < H ->
  (inject_Z W * r * inject_Z H == inject_Z p)%Q ->
  p - H <= t * H <= p + H ->
  (Qabs (inject_Z t - inject_Z W * r) <= 1)%Q.
Proof.
  intros HH E Hb.
  assert (PH : (0 < inject_Z H)%Q) by (unfold Qlt; cbn [Qnum Qden inject_Z]; lia).
  apply Qabs_Qle_condition.
  assert (B1 : (inject_Z p - inject_Z H <= inject_Z t * inject_Z H)%Q).
  { rewrite <- inject_Z_mult. unfold Qminus. rewrite <- inject_Z_opp, <- inject_Z_plus.
    rewrite <- Zle_Qle. lia. }
  assert (B2 : (inject_Z t * inject_Z H <= inject_Z p + inject_Z H)%Q).
  { rewrite <- inject_Z_mult, <- inject_Z_plus, <- Zle_Qle. lia. }
  split; apply (Qmult_le_r _ _ (inject_Z H) PH).
  - setoid_replace ((inject_Z t - inject_Z W * r) * inject_Z H)%Q
      with (inject_Z t * inject_Z H - inject_Z W * r * inject_Z H)%Q by ring.
    rewrite E. lra.
  - setoid_replace ((inject_Z t - inject_Z W * r) * inject_Z H)%Q
      with (inject_Z t * inject_Z H - inject_Z W * r * inject_Z H)%Q by ring.
    rewrite E. lra.
Qed.

(** The float64 nearest to 0.1 is 3602879701896397 * 2^-55. *)
Example one_tenth :
  Qred (F64.round (1 # 10)) = (3602879701896397 # 36028797018963968)%Q.
Proof. vm_compute. reflexivity. Qed.

(** The rounding of float64 shows: 49 * (1/49) is just below 1 and
    truncates to 0; 322 * min(32/322, 74/299) is just below 32. *)
Example one_over_49 :
  F64.toInt (F64.mul (F64.ofInt 49) (F64.div (F64.ofInt 1) (F64.ofInt 49))) = 0.
Proof. vm_compute. reflexivity. Qed.

Example fit_322_299 : fitCells 322 299 32 74 = (31, 29).
Proof. vm_compute. reflexivity. Qed.

(** C5: the native cell size is the pixel size divided by the font cell,
    rounded up.  When it fits the available area the target is the native
    size (no upscaling).  When it exceeds the area, both dimensions are
    scaled by the one ratio [r = min (maxW/origW) (maxH/origH)] and
    truncated: the target fits the area, and each target dimension is
    within one cell of the native dimension times [r], so the target
    keeps the native aspect ratio up to one cell.  (Without division:
    [origW * r = p / origH] and [origH * r = p / origW] for
    [p = min (maxW * origH) (maxH * origW)].) *)
Theorem fit_keeps_native_or_scales (pxW pxH fw fh maxW maxH : Z) :
  0 < pxW < 2 ^ 26 -> 0 < pxH < 2 ^ 26 ->
  0 < fw < 2 ^ 26 -> 0 < fh < 2 ^ 26 ->
  0 < maxW < 2 ^ 26 -> 0 < maxH < 2 ^ 26 ->
  let origW := cellsOf pxW fw in
  let origH := cellsOf pxH fh in
  let target := fitCells origW origH maxW maxH in
  origW = (pxW + fw - 1) / fw /\
  origH = (pxH + fh - 1) / fh /\
  (origW <= maxW -> origH <= maxH -> target = (origW, origH)) /\
  (maxW < origW \/ maxH < origH ->
   let p := Z.min (maxW * origH) (maxH * origW) in
   let r := exactRatio origW origH maxW maxH in
   fst target <= maxW /\
   snd target <= maxH /\
   p - origH <= fst target * origH <= p + origH /\
   p - origW <= snd target * origW <= p + origW /\
   (Qabs (inject_Z (fst target) - inject_Z origW * r) <= 1)%Q /\
   (Qabs (inject_Z (snd target) - inject_Z origH * r) <= 1)%Q).
Proof.
  intros HpW HpH Hfw Hfh HmW HmH origW origH target.
  assert (P26 : 2 ^ 26 = 67108864) by reflexivity.
  assert (P52 : 2 ^ 52 = 4503599627370496) by reflexivity.
  assert (EW : origW = (pxW + fw - 1) / fw).
  { apply F64Facts.cellsOf_ceiling; rewrite P52; lia. }
  assert (EH : origH = (pxH + fh - 1) / fh).
  { apply F64Facts.cellsOf_ceiling; rewrite P52; lia. }
  assert (BW : 0 < origW < 2 ^ 26).
  { rewrite EW, P26 in *.
    pose proof (Z.div_mod (pxW + fw - 1) fw ltac:(lia)).
    pose proof (Z.mod_pos_bound (pxW + fw - 1) fw ltac:(lia)). nia. }
  assert (BH : 0 < origH < 2 ^ 26).
  { rewrite EH, P26 in *.
    pose proof (Z.div_mod (pxH + fh - 1) fh ltac:(lia)).
    pose proof (Z.mod_pos_bound (pxH + fh - 1) fh ltac:(lia)). nia. }
  split; [exact EW|]. split; [exact EH|]. split.
  - intros H1 H2. unfold target, fitCells.
    replace ((origW >? maxW) || (origH >? maxH)) with false; [reflexivity|].
    symmetry. apply orb_false_iff. rewrite !Z.gtb_ltb, !Z.ltb_ge. split; assumption.
  - intros Hex p r.
    destruct (F64Facts.fitCells_scaled origW origH maxW maxH BW BH HmW HmH Hex)
      as (F1 & F2 & F3 & F4).
    pose proof (exactRatio_times origW origH maxW maxH ltac:(lia) ltac:(lia)) as Er.
    fold r in Er. fold p in Er, F3, F4. fold target in F1, F2, F3, F4.
    repeat split; try lia.
    + apply (within_one_cell _ _ origH p r ltac:(lia) Er). exact F3.
    + apply (within_one_cell _ _ origW p r ltac:(lia)); [|exact F4].
      rewrite <- Er. ring.
Qed.

(** A 1024 x 1024 image with a 10 x 20 font cell on an 80 x 24 terminal:
    103 x 52 cells natively, 25 x 13 in the 76 x 13 area. *)
Lemma fit_keeps_native_or_scales_witness :
  cellsOf 1024 10 = 103 /\ cellsOf 1024 20 = 52 /\
  fst (fitCells (cellsOf 1024 10) (cellsOf 1024 20) 76 13) <= 76 /\
  snd (fitCells (cellsOf 1024 10) (cellsOf 1024 20) 76 13) <= 13.
Proof.
  assert (H1 : 0 < 1024 < 2 ^ 26) by (split; reflexivity).
  assert (H2 : 0 < 10 < 2 ^ 26) by (split; reflexivity).
  assert (H3 : 0 < 20 < 2 ^ 26) by (split; reflexivity).
  assert (H4 : 0 < 76 < 2 ^ 26) by (split; reflexivity).
  assert (H5 : 0 < 13 < 2 ^ 26) by (split; reflexivity).
  pose proof (fit_keeps_native_or_scales 1024 1024 10 20 76 13 H1 H1 H2 H3 H4 H5) as H.
  cbv zeta in H. destruct H as (EW & EH & _ & Hs).
  split; [exact EW|]. split; [exact EH|].
  assert (Hex : 76 < cellsOf 1024 10 \/ 13 < cellsOf 1024 20).
  { left. rewrite EW. reflexivity. }
  destruct (Hs Hex) as (A & B & _).
  split; assumption.
Defined.

(** * Further properties of the session *)

Section Reachable.
Context `{W : Widgets}.
Variable disk : Disk.

(** Replaces the model after the fall-through statements by a fresh
    name, keeping what is known of its fields. *)
Ltac after_switch :=
  repeat match goal with
         | |- context [fst (fst (afterSwitch ?m ?msg))] =>
             let H := fresh "Hf" in
             pose proof (afterSwitch_fields m msg) as H; cbv zeta in H;
             destruct H as (? & ? & ? & ? & ? & ? & ? & ? & ? & ? & ? & ?);
             generalize dependent (fst (fst (afterSwitch m msg))); intros
         end.

Ltac branches :=
  repeat match goal with
         | |- context [if ?c then _ else _] => destruct c eqn:?
         | |- context [match saveImage ?d ?a ?b ?c with _ => _ end] =>
             destruct (saveImage d a b c) eqn:?
         end.

Lemma navigate_fields (m : newModel) (f : Z -> Z) :
  width (navigate m f) = width m /\ height (navigate m f) = height m /\
  prompt (navigate m f) = prompt m /\ imageData (navigate m f) = imageData m /\
  generating (navigate m f) = generating m /\
  inputMode (navigate m f) = inputMode m /\ cfg (navigate m f) = cfg m /\
  err (navigate m f) = err m /\
  needsImageClear (navigate m f) = needsImageClear m /\
  isRegenerating (navigate m f) = isRegenerating m /\
  (selectedBtn (navigate m f) = selectedBtn m \/
   selectedBtn (navigate m f) = f (selectedBtn m)).
Proof.
  unfold navigate.
  destruct (negb (inputMode m) && notNil (imageData m)); simpl; tauto.
Qed.

Lemma download_fields (m : newModel) :
  width (fst (fst (download disk m))) = width m /\
  height (fst (fst (download disk m))) = height m /\
  prompt (fst (fst (download disk m))) = prompt m /\
  imageData (fst (fst (download disk m))) = imageData m /\
  generating (fst (fst (download disk m))) = generating m /\
  inputMode (fst (fst (download disk m))) = inputMode m /\
  selectedBtn (fst (fst (download disk m))) = selectedBtn m /\
  cfg (fst (fst (download disk m))) = cfg m.
Proof.
  unfold download. destruct (saveImage disk _ _ _); simpl; tauto.
Qed.

Lemma step_selection (m : newModel) (msg : Msg) :
  selectedBtn m = 0 \/ selectedBtn m = 1 ->
  selectedBtn (step disk m msg) = 0 \/ selectedBtn (step disk m msg) = 1.
Proof.
  intros H. unfold step, Update.
  destruct msg as [w h|k|x y b|data|e|s|t]; branches;
    try (unfold regenerate; simpl; tauto);
    rewrite ?(proj1 (proj2 (proj2 (proj2 (proj2 (proj2 (proj2 (download_fields _))))))));
    simpl; try tauto;
    after_switch;
    repeat match goal with
           | H : selectedBtn ?v = _ |- context [selectedBtn ?v] => rewrite H
           end; simpl; try tauto;
    match goal with
    | |- context [navigate ?m ?f] =>
        destruct (navigate_fields m f) as (_ & _ & _ & _ & _ & _ & _ & _ & _ & _ & [-> | ->])
    end; try tauto;
    destruct H as [-> | ->]; simpl; tauto.
Qed.

(** X1: from start, whatever messages arrive, the selection is one of
    the two buttons. *)
Theorem selection_stays_binary (c : config) (msgs : list Msg) :
  selectedBtn (run disk (newInitialModel c) msgs) = 0 \/
  selectedBtn (run disk (newInitialModel c) msgs) = 1.
Proof.
  assert (G : forall (l : list Msg) (m : newModel),
             selectedBtn m = 0 \/ selectedBtn m = 1 ->
             selectedBtn (run disk m l) = 0 \/ selectedBtn (run disk m l) = 1).
  { induction l as [|msg l IH]; intros m H; simpl; [exact H|].
    apply IH. apply step_selection. exact H. }
  apply G. left. reflexivity.
Qed.


Lemma step_leaves_submitted (m : newModel) (msg : Msg) :
  inputMode m = false ->
  inputMode (step disk m msg) = false /\
  prompt (step disk m msg) = prompt m /\
  cfg (step disk m msg) = cfg m.
Proof.
  intros Hi. unfold step, Update.
  destruct msg as [w h|k|x y b|data|e|s|t]; rewrite ?Hi; branches;
    try (unfold regenerate; simpl; tauto);
    try (destruct (download_fields m) as (_ & _ & ? & _ & _ & ? & _ & ?);
         repeat split; congruence);
    try (destruct (download_fields (set_selectedBtn m 1)) as (_ & _ & ? & _ & _ & ? & _ & ?);
         repeat split; simpl in *; congruence);
    simpl; try tauto;
    after_switch;
    try match goal with
        | _ : context [navigate ?m ?f] |- _ =>
            destruct (navigate_fields m f) as (_ & _ & ? & _ & _ & ? & ? & _)
        end;
    simpl in *; repeat split; congruence.
Qed.

(** X2: once prompt entry is left it is never entered again, and from
    then on no message changes the prompt or the configuration. *)
Theorem prompt_frozen_after_submit (m : newModel) (msgs : list Msg) :
  inputMode m = false ->
  inputMode (run disk m msgs) = false /\
  prompt (run disk m msgs) = prompt m /\
  cfg (run disk m msgs) = cfg m.
Proof.
  revert m. induction msgs as [|msg l IH]; intros m Hi; simpl; [tauto|].
  destruct (step_leaves_submitted m msg Hi) as (H1 & H2 & H3).
  destruct (IH _ H1) as (I1 & I2 & I3).
  repeat split; congruence.
Qed.

Lemma step_keeps_error (m : newModel) (msg : Msg) :
  err m <> None -> err (step disk m msg) <> None.
Proof.
  intros He. unfold step, Update.
  destruct msg as [w h|k|x y b|data|e|s|t]; branches;
    try (unfold regenerate; simpl; exact He);
    try (unfold download; destruct (saveImage disk _ _ _); simpl;
         [discriminate|exact He]);
    simpl; try exact He; try discriminate;
    after_switch;
    try match goal with
        | _ : context [navigate ?m ?f] |- _ =>
            destruct (navigate_fields m f) as (_ & _ & _ & _ & _ & _ & _ & ? & _)
        end;
    simpl in *; congruence.
Qed.

Lemma run_keeps_error (msgs : list Msg) (m : newModel) :
  err m <> None -> err (run disk m msgs) <> None.
Proof.
  revert m. induction msgs as [|msg l IH]; intros m H; simpl; [exact H|].
  apply IH. apply step_keeps_error. exact H.
Qed.

(** X3: a failure is final.  Once an error is stored, whatever arrives
    afterwards (a late image included), every frame on a terminal of
    non-zero width is the error panel, computed without touching the
    terminal. *)
Theorem failure_is_final
    (term : Terminal) (m : newModel) (e : Failure) (msgs : list Msg) :
  err m = Some e ->
  width (run disk m msgs) <> 0 ->
  exists e',
    View term (run disk m msgs)
    = (ErrorView (width (run disk m msgs)) (height (run disk m msgs)) e', []).
Proof.
  intros He Hw.
  assert (Hn : err (run disk m msgs) <> None).
  { apply run_keeps_error. rewrite He. discriminate. }
  unfold View.
  destruct (Z.eqb_spec (width (run disk m msgs)) 0) as [E|E]; [contradiction|].
  destruct (err (run disk m msgs)) as [e'|]; [|contradiction].
  exists e'. reflexivity.
Qed.

Lemma afterSwitch_quiet (m : newModel) (msg : Msg) :
  quietWidgets ->
  dispatched (snd (fst (afterSwitch m msg))) = [] /\
  quits (snd (fst (afterSwitch m msg))) = false /\
  snd (afterSwitch m msg) = [].
Proof.
  intros (Q1 & Q2 & Q3 & Q4). unfold afterSwitch.
  destruct (inputMode m).
  - pose proof (Q1 (textInput m) msg) as D1. pose proof (Q3 (textInput m) msg) as D3.
    destruct (textinput_Update (textInput m) msg) as [ti c]. simpl in D1, D3.
    pose proof (Q2 (spinner (set_textInput m ti)) msg) as D2.
    pose proof (Q4 (spinner (set_textInput m ti)) msg) as D4.
    destruct (spinner_Update (spinner (set_textInput m ti)) msg) as [sp sc].
    simpl in D2, D4.
    destruct (generating (set_spinner (set_textInput m ti) sp)); simpl;
      rewrite ?D1, ?D2, ?D3, ?D4; auto.
  - pose proof (Q2 (spinner (set_textInput m (textInput m))) msg) as D2.
    pose proof (Q4 (spinner (set_textInput m (textInput m))) msg) as D4.
    destruct (spinner_Update (spinner (set_textInput m (textInput m))) msg) as [sp sc].
    simpl in D2, D4.
    destruct (generating (set_spinner (set_textInput m (textInput m)) sp)); simpl;
      rewrite ?D2, ?D4; auto.
Qed.

Lemma start_submittedNonEmpty (c : config) :
  submittedNonEmpty c (newInitialModel c).
Proof.
  split; [reflexivity|]. simpl. intros H. apply String.eqb_neq. exact H.
Qed.

Lemma step_submittedNonEmpty (c : config) (m : newModel) (msg : Msg) :
  submittedNonEmpty c m -> submittedNonEmpty c (step disk m msg).
Proof.
  intros [Hc Hp].
  destruct (inputMode m) eqn:Hi.
  - (* still typing: only Enter can leave, with a non-empty text *)
    unfold submittedNonEmpty, step, Update.
    destruct msg as [w h|k|x y b|data|e|s|t]; rewrite ?Hi; branches;
      simpl; try (split; [exact Hc|intros; congruence]);
      try (split; [exact Hc|]; intros _;
           match goal with
           | H : String.eqb _ "" = false |- _ => apply String.eqb_neq in H; exact H
           end);
      after_switch;
      try match goal with
          | _ : context [navigate ?m ?f] |- _ =>
              destruct (navigate_fields m f) as (_ & _ & ? & _ & _ & ? & ? & _)
          end;
      simpl in *; split; try congruence; intros; congruence.
  - destruct (step_leaves_submitted m msg Hi) as (H1 & H2 & H3).
    split; [congruence|]. intros _. rewrite H2. apply Hp. reflexivity.
Qed.

Lemma run_submittedNonEmpty (c : config) (msgs : list Msg) (m : newModel) :
  submittedNonEmpty c m -> submittedNonEmpty c (run disk m msgs).
Proof.
  revert m. induction msgs as [|msg l IH]; intros m H; simpl; [exact H|].
  apply IH. apply step_submittedNonEmpty. exact H.
Qed.

Lemma dispatch_of_step (c : config) (m : newModel) (msg : Msg) (p : string) (c' : config) :
  quietWidgets ->
  submittedNonEmpty c m ->
  In (p, c') (dispatched (snd (fst (Update disk m msg)))) ->
  p <> "" /\ c' = c /\ p = prompt (step disk m msg).
Proof.
  intros Q [Hc Hp] Hin. unfold step in *. unfold Update in *.
  destruct (inputMode m) eqn:Hi;
    [clear Hp | specialize (Hp eq_refl)];
    destruct msg as [w h|k|x y b|data|e|s|t]; simpl in Hin;
    repeat match type of Hin with
           | context [if ?c then _ else _] => destruct c eqn:?
           end;
    try (rewrite (proj1 (afterSwitch_quiet _ _ Q)) in Hin; contradiction);
    try (unfold download in Hin; destruct (saveImage disk _ _ _); simpl in Hin; contradiction);
    unfold regenerate in *; simpl in Hin; try contradiction;
    destruct Hin as [Hin|[]];
    injection Hin as <- <-; simpl;
    repeat match goal with
           | H : ?c = _ |- context [if ?c then _ else _] => rewrite H
           end;
    simpl; repeat split; try assumption;
    match goal with
    | H : String.eqb _ "" = false |- _ => apply String.eqb_neq in H; exact H
    end.
Qed.

(** X4: every job the program dispatches, at start or on any message in
    any session reached from the start, carries a non-empty prompt and
    the configuration the program was started with; a job dispatched by
    [Update] carries the prompt the session then holds. *)
Theorem dispatched_jobs_are_well_formed
    (c : config) (msgs : list Msg) (msg : Msg) (p : string) (c' : config) :
  quietWidgets ->
  In (p, c')
     (dispatched (Init (newInitialModel c))
      ++ dispatched (snd (fst (Update disk (run disk (newInitialModel c) msgs) msg)))) ->
  p <> "" /\ c' = c /\
  (In (p, c') (dispatched (snd (fst (Update disk (run disk (newInitialModel c) msgs) msg)))) ->
   p = prompt (step disk (run disk (newInitialModel c) msgs) msg)).
Proof.
  intros Q Hin.
  pose proof (run_submittedNonEmpty c msgs _ (start_submittedNonEmpty c)) as HJ.
  apply in_app_or in Hin. destruct Hin as [Hin|Hin].
  - unfold Init in Hin. simpl in Hin.
    destruct (String.eqb_spec (Prompt c) "") as [E|E]; simpl in Hin.
    + contradiction.
    + destruct Hin as [Hin|[]]. injection Hin as <- <-.
      split; [exact E|]. split; [reflexivity|].
      intros H. apply (dispatch_of_step c _ msg _ _ Q HJ H).
  - destruct (dispatch_of_step c _ msg p c' Q HJ Hin) as (A & B & C).
    split; [exact A|]. split; [exact B|]. intros _. exact C.
Qed.

Lemma afterSwitch_sameData (m : newModel) (msg : Msg) :
  sameData (fst (fst (afterSwitch m msg))) m.
Proof.
  pose proof (afterSwitch_fields m msg) as H. cbv zeta in H.
  unfold sameData. tauto.
Qed.

(** X5: in prompt entry Enter submits exactly when the text input holds
    text.  On an empty input the session stays in prompt entry, nothing
    is dispatched and nothing starts generating; on text the prompt
    becomes that text, prompt entry is left, the input loses focus, the
    session is generating and one job with that text is dispatched. *)
Theorem enter_submits_text_only (m : newModel) :
  inputMode m = true ->
  (textinput_Value (textInput m) = "" ->
   inputMode (step disk m (KeyMsg "enter")) = true /\
   generating (step disk m (KeyMsg "enter")) = generating m /\
   snd (fst (Update disk m (KeyMsg "enter"))) = CmdNil /\
   snd (Update disk m (KeyMsg "enter")) = []) /\
  (textinput_Value (textInput m) <> "" ->
   inputMode (step disk m (KeyMsg "enter")) = false /\
   generating (step disk m (KeyMsg "enter")) = true /\
   prompt (step disk m (KeyMsg "enter")) = textinput_Value (textInput m) /\
   textInput (step disk m (KeyMsg "enter")) = textinput_Blur (textInput m) /\
   dispatched (snd (fst (Update disk m (KeyMsg "enter"))))
   = [(textinput_Value (textInput m), cfg m)]).
Proof.
  intros Hi. unfold step, Update. simpl. rewrite Hi. simpl. split.
  - intros Hv. rewrite Hv. simpl. rewrite Hi. tauto.
  - intros Hv. apply String.eqb_neq in Hv. rewrite Hv. simpl. tauto.
Qed.

(** X6: with an image on screen, left and h select regenerate, right
    and l select download, and tab, j, down, k, up each move to the
    other button, so that two of them in a row restore the selection;
    none of these keys changes the image, the prompt or the mode
    flags. *)
Theorem navigation_moves_selection
    (m : newModel) (img : list byte) (k k' : string) :
  inputMode m = false ->
  imageData m = Some img ->
  selectedBtn m = 0 \/ selectedBtn m = 1 ->
  In k' ["tab"; "j"; "down"; "k"; "up"] ->
  (In k ["left"; "h"] -> selectedBtn (step disk m (KeyMsg k)) = 0) /\
  (In k ["right"; "l"] -> selectedBtn (step disk m (KeyMsg k)) = 1) /\
  (In k ["tab"; "j"; "down"; "k"; "up"] ->
   selectedBtn (step disk m (KeyMsg k)) = 1 - selectedBtn m /\
   selectedBtn (run disk m [KeyMsg k; KeyMsg k']) = selectedBtn m) /\
  (In k ["left"; "h"; "right"; "l"; "tab"; "j"; "down"; "k"; "up"] ->
   imageData (step disk m (KeyMsg k)) = imageData m /\
   prompt (step disk m (KeyMsg k)) = prompt m /\
   generating (step disk m (KeyMsg k)) = generating m /\
   inputMode (step disk m (KeyMsg k)) = false /\
   err (step disk m (KeyMsg k)) = err m).
Proof.
  intros Hi Himg Hsel Hk'.
  assert (Nav : forall (m0 : newModel) (f : Z -> Z),
             inputMode m0 = false -> imageData m0 = Some img ->
             navigate m0 f = set_selectedBtn m0 (f (selectedBtn m0))).
  { intros m0 f H1 H2. unfold navigate. rewrite H1, H2. reflexivity. }
  assert (Sel : forall (m0 : newModel) (msg : Msg),
             selectedBtn (fst (fst (afterSwitch m0 msg))) = selectedBtn m0).
  { intros m0 msg. apply (afterSwitch_fields m0 msg). }
  assert (Tog : forall (m0 : newModel) (key : string),
             inputMode m0 = false -> imageData m0 = Some img ->
             In key ["tab"; "j"; "down"; "k"; "up"] ->
             step disk m0 (KeyMsg key)
             = fst (fst (afterSwitch
                           (set_selectedBtn m0 (Z.rem (selectedBtn m0 + 1) 2))
                           (KeyMsg key)))).
  { intros m0 key H1 H2 Hin. simpl in Hin.
    destruct Hin as [<-|[<-|[<-|[<-|[<-|[]]]]]];
      unfold step, Update; simpl; rewrite Nav by assumption; reflexivity. }
  split; [|split; [|split]].
  - intros Hin. simpl in Hin. destruct Hin as [<-|[<-|[]]];
      unfold step, Update; simpl; rewrite Nav by assumption; rewrite Sel; reflexivity.
  - intros Hin. simpl in Hin. destruct Hin as [<-|[<-|[]]];
      unfold step, Update; simpl; rewrite Nav by assumption; rewrite Sel; reflexivity.
  - intros Hin.
    assert (S1 : selectedBtn (step disk m (KeyMsg k)) = 1 - selectedBtn m).
    { rewrite (Tog m k Hi Himg Hin), Sel. simpl.
      destruct Hsel as [-> | ->]; reflexivity. }
    split; [exact S1|].
    simpl run. unfold run. simpl fold_left.
    assert (Hi1 : inputMode (step disk m (KeyMsg k)) = false).
    { rewrite (Tog m k Hi Himg Hin).
      rewrite (proj1 (proj2 (proj2 (proj2 (proj2 (proj2 (afterSwitch_fields _ _))))))).
      exact Hi. }
    assert (Himg1 : imageData (step disk m (KeyMsg k)) = Some img).
    { rewrite (Tog m k Hi Himg Hin).
      rewrite (proj1 (proj2 (proj2 (proj2 (afterSwitch_fields _ _))))).
      exact Himg. }
    rewrite (Tog _ k' Hi1 Himg1 Hk'), Sel. simpl. rewrite S1.
    destruct Hsel as [-> | ->]; reflexivity.
  - intros Hin.
    assert (E : exists f, step disk m (KeyMsg k)
                          = fst (fst (afterSwitch (navigate m f) (KeyMsg k)))).
    { simpl in Hin.
      destruct Hin as [<-|[<-|[<-|[<-|[<-|[<-|[<-|[<-|[<-|[]]]]]]]]]];
        eexists; unfold step, Update; simpl; reflexivity. }
    destruct E as [f ->].
    pose proof (afterSwitch_fields (navigate m f) (KeyMsg k)) as F. cbv zeta in F.
    destruct F as (_ & _ & Fp & Fi & Fg & Fin & _ & _ & Fe & _).
    destruct (navigate_fields m f) as (_ & _ & Np & Ni & Ng & Nin & _ & Ne & _).
    repeat split; congruence.
Qed.

(** X7: the image is written to disk only by the download action: when
    a step saves, it saves the image and the prompt the session holds,
    the image is not nil, the session is not in prompt entry, the
    message is Enter or a left click, the command is [tea.Quit] and the
    save is the only effect; the error field then holds the failure of
    the save, if any, and is untouched otherwise. *)
Theorem saves_only_on_download
    (m : newModel) (msg : Msg) (d : bytes) (p : string) :
  In (SaveImage d p) (snd (Update disk m msg)) ->
  d = imageData m /\ notNil d = true /\ p = prompt m /\ inputMode m = false /\
  (msg = KeyMsg "enter" \/ exists x y, msg = MouseClickMsg x y MouseLeft) /\
  snd (fst (Update disk m msg)) = Quit /\
  snd (Update disk m msg) = [SaveImage d p] /\
  err (step disk m msg)
  = match saveImage disk d p (cfg m) with Some e => Some e | None => err m end /\
  imageData (step disk m msg) = imageData m.
Proof.
  intros Hin.
  assert (A : forall m0 msg0, ~ In (SaveImage d p) (snd (afterSwitch m0 msg0))).
  { intros m0 msg0. unfold afterSwitch.
    destruct (if inputMode m0 then _ else _) as [ti c0].
    destruct (spinner_Update _ _) as [sp sc].
    destruct (generating _); simpl; tauto. }
  assert (D : forall m0, In (SaveImage d p) (snd (download disk m0)) ->
              d = imageData m0 /\ p = prompt m0 /\
              snd (fst (download disk m0)) = Quit /\
              snd (download disk m0) = [SaveImage d p] /\
              err (fst (fst (download disk m0)))
              = match saveImage disk d p (cfg m0) with
                | Some e => Some e | None => err m0 end /\
              imageData (fst (fst (download disk m0))) = imageData m0).
  { intros m0 H. unfold download in *.
    destruct (saveImage disk (imageData m0) (prompt m0) (cfg m0)) eqn:E;
      simpl in H; destruct H as [H|[]]; injection H as <- <-;
      rewrite E; simpl; tauto. }
  unfold step. unfold Update in *.
  destruct msg as [w h|k|x y b|data|e|s|t]; cbv beta iota zeta in Hin.
  - exfalso. exact (A _ _ Hin).
  - destruct (isKey k ["ctrl+c"; "q"]); [simpl in Hin; tauto|].
    destruct (isKey k ["enter"]) eqn:Hk.
    + assert (k = "enter") as ->.
      { unfold isKey in Hk. simpl in Hk. rewrite orb_false_r in Hk.
        apply String.eqb_eq in Hk. exact Hk. }
      destruct (inputMode m) eqn:Hi.
      * simpl in Hin. destruct (String.eqb _ ""); simpl in Hin; tauto.
      * destruct (notNil (imageData m)) eqn:Hn; [|exfalso; exact (A _ _ Hin)].
        destruct (selectedBtn m =? 0).
        { unfold regenerate in Hin. simpl in Hin.
          destruct Hin as [Hin|[]]. discriminate. }
        destruct (D m Hin) as (-> & -> & Dq & De & Derr & Dimg).
        repeat split; auto.
    + repeat match type of Hin with
             | context [if ?c then _ else _] => destruct c
             end; exfalso; exact (A _ _ Hin).
  - destruct (inputMode m) eqn:Hi; simpl in Hin; [exfalso; exact (A _ _ Hin)|].
    destruct (notNil (imageData m)) eqn:Hn; simpl in Hin; [|exfalso; exact (A _ _ Hin)].
    destruct b; simpl in Hin; [|exfalso; exact (A _ _ Hin)].
    repeat match type of Hin with
           | context [if ?c then _ else _] => destruct c
           end; try (exfalso; exact (A _ _ Hin)).
    + unfold regenerate in Hin. simpl in Hin. destruct Hin as [Hin|[]]. discriminate.
    + destruct (D _ Hin) as (Dd & Dp & Dq & De & Derr & Dimg).
      simpl in Dd, Dp, Derr, Dimg. subst d p.
      repeat split; eauto.
  - simpl in Hin. destruct Hin as [Hin|[]]. discriminate.
  - simpl in Hin. tauto.
  - exfalso. exact (A _ _ Hin).
  - exfalso. exact (A _ _ Hin).
Qed.

(** X8: while no image has arrived and the session is not in prompt
    entry (a job is running, or failed), keys other than q and ctrl+c,
    mouse clicks and widget messages change none of the program's own
    fields, dispatch no job, do not quit and have no effect. *)
Theorem inert_without_image (m : newModel) (msg : Msg) :
  quietWidgets ->
  inputMode m = false ->
  imageData m = None ->
  match msg with
  | KeyMsg k => isKey k ["ctrl+c"; "q"] = false
  | MouseClickMsg _ _ _ | StringMsg _ | OtherMsg _ => True
  | _ => False
  end ->
  sameData (step disk m msg) m /\
  dispatched (snd (fst (Update disk m msg))) = [] /\
  quits (snd (fst (Update disk m msg))) = false /\
  snd (Update disk m msg) = [].
Proof.
  intros Q Hi Himg Hmsg.
  assert (E : Update disk m msg = afterSwitch m msg).
  { unfold Update.
    destruct msg as [w h|k|x y b|data|e|s|t]; try contradiction; try reflexivity.
    - rewrite Hmsg. unfold navigate. rewrite Hi, Himg. simpl.
      repeat match goal with
             | |- context [if ?c then _ else _] => destruct c
             end; reflexivity.
    - rewrite Hi, Himg. reflexivity. }
  unfold step. rewrite E. split; [apply afterSwitch_sameData|].
  apply afterSwitch_quiet. exact Q.
Qed.

(** X9: hit-testing of a click while an image is shown.  The buttons
    react to the left button only, from row [height - 8] down and within
    20 columns of the centre column [width / 2]: left of the centre the
    click regenerates, from the centre on it selects the second button
    and downloads; every other click changes none of the program's own
    fields, dispatches nothing and has no effect. *)
Theorem click_hits_buttons
    (m : newModel) (img : list byte) (x y : Z) (b : MouseButton) :
  quietWidgets ->
  inputMode m = false ->
  imageData m = Some img ->
  (b = MouseLeft -> height m - 8 <= y ->
   Z.quot (width m) 2 - 20 <= x < Z.quot (width m) 2 ->
   Update disk m (MouseClickMsg x y b) = regenerate (set_selectedBtn m 0)) /\
  (b = MouseLeft -> height m - 8 <= y ->
   Z.quot (width m) 2 <= x <= Z.quot (width m) 2 + 20 ->
   selectedBtn (step disk m (MouseClickMsg x y b)) = 1 /\
   snd (fst (Update disk m (MouseClickMsg x y b))) = Quit /\
   snd (Update disk m (MouseClickMsg x y b)) = [SaveImage (Some img) (prompt m)]) /\
  (b <> MouseLeft \/ y < height m - 8 \/
   x < Z.quot (width m) 2 - 20 \/ Z.quot (width m) 2 + 20 < x ->
   sameData (step disk m (MouseClickMsg x y b)) m /\
   dispatched (snd (fst (Update disk m (MouseClickMsg x y b)))) = [] /\
   quits (snd (fst (Update disk m (MouseClickMsg x y b)))) = false /\
   snd (Update disk m (MouseClickMsg x y b)) = []).
Proof.
  intros Q Hi Himg. split; [|split].
  - intros -> Hy Hx. apply (click_regenerates disk m img x y Hi Himg Hy Hx).
  - intros -> Hy Hx. unfold step, Update. rewrite Hi, Himg. simpl.
    change (Z.quot 40 2) with 20.
    replace (y >=? height m - 8) with true by (symmetry; apply Z.geb_le; lia).
    replace (x >=? Z.quot (width m) 2 - 20) with true by (symmetry; apply Z.geb_le; lia).
    replace (x <=? Z.quot (width m) 2 + 20) with true by (symmetry; apply Z.leb_le; lia).
    replace (x <? Z.quot (width m) 2) with false by (symmetry; apply Z.ltb_ge; lia).
    simpl. unfold download. simpl. rewrite Himg.
    destruct (saveImage disk _ _ _); simpl; auto.
  - intros Hout.
    assert (E : Update disk m (MouseClickMsg x y b) = afterSwitch m (MouseClickMsg x y b)).
    { unfold Update. rewrite Hi, Himg. simpl.
      destruct b; simpl; [|reflexivity].
      change (Z.quot 40 2) with 20.
      destruct (y >=? height m - 8) eqn:Ey; [|reflexivity].
      destruct (x >=? Z.quot (width m) 2 - 20) eqn:E1; [|reflexivity].
      destruct (x <=? Z.quot (width m) 2 + 20) eqn:E2; [|reflexivity].
      exfalso. apply Z.geb_le in Ey, E1. apply Z.leb_le in E2.
      destruct Hout as [H|[H|[H|H]]]; [congruence|lia|lia|lia]. }
    unfold step. rewrite E. split; [apply afterSwitch_sameData|].
    apply afterSwitch_quiet. exact Q.
Qed.

Lemma step_keeps_a_face (m : newModel) (msg : Msg) :
  msg <> BytesMsg None ->
  err m <> None \/ inputMode m = true \/ generating m = true \/
  notNil (imageData m) = true ->
  err (step disk m msg) <> None \/ inputMode (step disk m msg) = true \/
  generating (step disk m msg) = true \/ notNil (imageData (step disk m msg)) = true.
Proof.
  intros Hmsg H.
  destruct H as [He|H]; [left; apply step_keeps_error; exact He|].
  unfold step, Update.
  destruct msg as [w h|k|x y b|[data|]|e|s|t]; try congruence;
    try (left; simpl; discriminate);
    right; branches;
    try (unfold regenerate; simpl; tauto);
    try (unfold download; destruct (saveImage disk _ _ _); simpl in *; tauto);
    simpl; try tauto;
    after_switch;
    try match goal with
        | _ : context [navigate ?m ?f] |- _ =>
            destruct (navigate_fields m f) as (_ & _ & _ & ? & ? & ? & _)
        end;
    simpl in *;
    repeat match goal with
           | H : ?a = ?b |- context [?a] => rewrite H
           end;
    try tauto;
    destruct H as [H|[H|H]]; try congruence; tauto.
Qed.

(** X15: the controls-only frame is never reached.  As long as no
    completion carries the nil slice (and [generateImage] returns none),
    every session reached from the start has a stored failure, is in
    prompt entry, is generating, or holds an image: its mode is never
    [Idle]. *)
Theorem idle_is_unreachable (c : config) (msgs : list Msg) :
  Forall (fun msg => msg <> BytesMsg None) msgs ->
  mode (run disk (newInitialModel c) msgs) <> Idle.
Proof.
  intros Hall.
  assert (G : forall (l : list Msg) (m : newModel),
             Forall (fun msg => msg <> BytesMsg None) l ->
             err m <> None \/ inputMode m = true \/ generating m = true \/
             notNil (imageData m) = true ->
             err (run disk m l) <> None \/ inputMode (run disk m l) = true \/
             generating (run disk m l) = true \/
             notNil (imageData (run disk m l)) = true).
  { induction l as [|msg l IH]; intros m Hl H; simpl; [exact H|].
    inversion Hl as [|? ? H1 H2]; subst.
    apply IH; [exact H2|]. apply step_keeps_a_face; assumption. }
  assert (S0 : err (newInitialModel c) <> None \/ inputMode (newInitialModel c) = true \/
               generating (newInitialModel c) = true \/
               notNil (imageData (newInitialModel c)) = true).
  { simpl. destruct (String.eqb (Prompt c) ""); simpl; tauto. }
  specialize (G msgs _ Hall S0). unfold mode.
  destruct (err (run disk (newInitialModel c) msgs)); [discriminate|].
  destruct (inputMode (run disk (newInitialModel c) msgs)); [discriminate|].
  destruct (generating (run disk (newInitialModel c) msgs)).
  { destruct (isRegenerating _); discriminate. }
  destruct (notNil (imageData (run disk (newInitialModel c) msgs))); [discriminate|].
  exfalso. destruct G as [G|[G|[G|G]]]; congruence.
Qed.

Lemma step_flags (m : newModel) (msg : Msg) :
  (imageRendered m = false -> imageRendered (step disk m msg) = false) /\
  (isRegenerating m = true -> isRegenerating (step disk m msg) = true).
Proof.
  unfold step, Update.
  destruct msg as [w h|k|x y b|data|e|s|t]; branches;
    try (unfold regenerate; simpl; tauto);
    try (unfold download; destruct (saveImage disk _ _ _); simpl in *; tauto);
    simpl; try tauto;
    after_switch;
    try match goal with
        | _ : context [navigate ?m ?f] |- _ =>
            unfold navigate in *;
            destruct (negb (inputMode m) && notNil (imageData m))
        end;
    simpl in *;
    repeat match goal with
           | H : ?a = ?b |- context [?a] => rewrite H
           end;
    tauto.
Qed.

(** X16: two flags of the session only ever move one way.
    [imageRendered] is false in every session reached from the start:
    no statement sets it.  [isRegenerating], once true, is true ever
    after, whatever arrives: the completion of a job does not reset
    it. *)
Theorem flags_move_one_way (c : config) (before after : list Msg) :
  imageRendered (run disk (newInitialModel c) before) = false /\
  (isRegenerating (run disk (newInitialModel c) before) = true ->
   isRegenerating (run disk (newInitialModel c) (before ++ after)) = true).
Proof.
  assert (R : forall (l : list Msg) (m : newModel),
             imageRendered m = false -> imageRendered (run disk m l) = false).
  { induction l as [|msg l IH]; intros m H; simpl; [exact H|].
    apply IH. apply (step_flags m msg). exact H. }
  assert (G : forall (l : list Msg) (m : newModel),
             isRegenerating m = true -> isRegenerating (run disk m l) = true).
  { induction l as [|msg l IH]; intros m H; simpl; [exact H|].
    apply IH. apply (step_flags m msg). exact H. }
  split; [apply R; reflexivity|].
  intros H. unfold run. rewrite fold_left_app. apply G. exact H.
Qed.
End Reachable.

(** ** Further properties of the job driver *)

Section Protocol.
Variable net : Network.
Variable apiKey : string.

(** What any run of the polling loop looks like. *)
Lemma poll_protocol (replies : list ApiReply) :
  forall (result : Types.Response) (res : Run + Types.Response)
         (calls : list NetEvent) (rest : list ApiReply),
    poll net apiKey result replies = (res, calls, rest) ->
    exists (pending : list Types.Response) (used : list ApiReply) (tail : list NetEvent),
      replies = (used ++ rest)%list /\
      calls = (pollCalls (bearer apiKey) pending ++ tail)%list /\
      Forall (fun p => terminal (Types.Status p) = false) pending /\
      (forall p, In p pending -> p = result \/ In (Decoded p) replies) /\
      match res with
      | inr final =>
          tail = [] /\ List.length used = List.length pending /\
          terminal (Types.Status final) = true /\
          (final = result \/ In (Decoded final) replies)
      | inl Waiting =>
          tail = [] /\ rest = [] /\ S (List.length used) = List.length pending
      | inl (Returned (ErrorMsg e)) =>
          List.length used = List.length pending /\ (tail = [] \/ tail = [Sleep 1])
      | inl _ => False
      end.
Proof.
  assert (Stop : forall result replies0 res calls rest,
             terminal (Types.Status result) = true ->
             (inr result, @nil NetEvent, replies0) = (res, calls, rest) ->
             exists (pending : list Types.Response) (used : list ApiReply)
                    (tail : list NetEvent),
               replies0 = (used ++ rest)%list /\
               calls = (pollCalls (bearer apiKey) pending ++ tail)%list /\
               Forall (fun p => terminal (Types.Status p) = false) pending /\
               (forall p, In p pending -> p = result \/ In (Decoded p) replies0) /\
               match res with
               | inr final =>
                   tail = [] /\ List.length used = List.length pending /\
                   terminal (Types.Status final) = true /\
                   (final = result \/ In (Decoded final) replies0)
               | inl Waiting =>
                   tail = [] /\ rest = [] /\ S (List.length used) = List.length pending
               | inl (Returned (ErrorMsg e)) =>
                   List.length used = List.length pending /\ (tail = [] \/ tail = [Sleep 1])
               | inl _ => False
               end).
  { intros result replies0 res calls rest T H. injection H as <- <- <-.
    exists [], [], []. simpl. repeat split; auto. intros p []. }
  assert (Bad : forall result replies0 res calls rest cause,
             (inl (Returned (ErrorMsg (ErrCreatingRequest cause))), [Sleep 1], replies0)
             = (res, calls, rest) ->
             exists (pending : list Types.Response) (used : list ApiReply)
                    (tail : list NetEvent),
               replies0 = (used ++ rest)%list /\
               calls = (pollCalls (bearer apiKey) pending ++ tail)%list /\
               Forall (fun p => terminal (Types.Status p) = false) pending /\
               (forall p, In p pending -> p = result \/ In (Decoded p) replies0) /\
               match res with
               | inr final =>
                   tail = [] /\ List.length used = List.length pending /\
                   terminal (Types.Status final) = true /\
                   (final = result \/ In (Decoded final) replies0)
               | inl Waiting =>
                   tail = [] /\ rest = [] /\ S (List.length used) = List.length pending
               | inl (Returned (ErrorMsg e)) =>
                   List.length used = List.length pending /\ (tail = [] \/ tail = [Sleep 1])
               | inl _ => False
               end).
  { intros result replies0 res calls rest cause H. injection H as <- <- <-.
    exists [], [], [Sleep 1]. simpl. repeat split; auto. intros p []. }
  induction replies as [|rep rest0 IH]; intros result res calls rest H; cbn [poll] in H.
  - destruct (terminal (Types.Status result)) eqn:T; [exact (Stop _ _ _ _ _ T H)|].
    destruct (badURL net (Types.Urls_Get result)) as [cause|];
      [exact (Bad _ _ _ _ _ _ H)|].
    injection H as <- <- <-.
    exists [result], [], []. simpl. repeat split; auto.
    intros p [<-|[]]. left. reflexivity.
  - destruct (terminal (Types.Status result)) eqn:T; [exact (Stop _ _ _ _ _ T H)|].
    destruct (badURL net (Types.Urls_Get result)) as [cause|];
      [exact (Bad _ _ _ _ _ _ H)|].
    destruct rep as [cause|cause|cause|r].
    1: injection H as <- <- <-; exists [result], [DoFails cause], [].
    2: injection H as <- <- <-; exists [result], [ReadFails cause], [].
    3: injection H as <- <- <-; exists [result], [BadJSON cause], [].
    1-3: simpl; repeat split; auto; intros p [<-|[]]; left; reflexivity.
    destruct (poll net apiKey r rest0) as [[res' calls'] rest'] eqn:P.
    injection H as <- <- <-.
    destruct (IH r res' calls' rest' P) as (pending & used & tail & E1 & E2 & F & I & M).
    exists (result :: pending), (Decoded r :: used), tail.
    split; [simpl; rewrite E1; reflexivity|].
    split; [simpl; rewrite E2; reflexivity|].
    split; [constructor; assumption|].
    split.
    + intros p [<-|Hp]; [left; reflexivity|]. right.
      destruct (I p Hp) as [->|Hin]; [left; reflexivity|right; exact Hin].
    + destruct res' as [[[ | | | | e | | ]| | ]|final]; simpl; try contradiction.
      * destruct M as (M1 & M2). split; [congruence|exact M2].
      * destruct M as (M1 & M2 & M3). repeat split; auto.
      * destruct M as (M1 & M2 & M3 & M4). repeat split; auto.
        right. destruct M4 as [->|M4]; [left; reflexivity|right; exact M4].
Qed.

End Protocol.

(** What any run of the closure looks like. *)
Lemma generateImage_protocol
    (key : string) (net : Network) (prompt : string) (c : config) :
  (credential key c = "" /\
   generateImage key net prompt c = (Returned (ErrorMsg ErrNoToken), [], api net)) \/
  (credential key c <> "" /\ ~ In (FluxModel c) validFluxModels /\
   generateImage key net prompt c
   = (Returned (ErrorMsg (ErrInvalidModel (FluxModel c))), [], api net)) \/
  (credential key c <> "" /\ In (FluxModel c) validFluxModels /\
   exists (url : string) (body : JSON) (pending : list Types.Response)
          (used : list ApiReply) (tail : list NetEvent),
     In url [fluxSchnellURL; fluxProURL; fluxDevURL] /\
     callsOf (generateImage key net prompt c)
     = (Post url (bearer (credential key c)) body
        :: pollCalls (bearer (credential key c)) pending ++ tail)%list /\
     api net = (used ++ remaining (generateImage key net prompt c))%list /\
     Forall (fun p => terminal (Types.Status p) = false) pending /\
     (forall p, In p pending -> In (Decoded p) (api net)) /\
     match outcome (generateImage key net prompt c) with
     | Waiting =>
         tail = [] /\ remaining (generateImage key net prompt c) = [] /\
         List.length used = List.length pending
     | Panicked =>
         tail = [] /\ List.length used = S (List.length pending) /\
         exists final l,
           In (Decoded final) (api net) /\ Types.Status final = "succeeded" /\
           Types.Output final = JList l /\
           (forall u others, l <> JStr u :: others)
     | Returned (BytesMsg d) =>
         List.length used = S (List.length pending) /\
         exists final u data,
           In (Decoded final) (api net) /\ Types.Status final = "succeeded" /\
           outputsURL (Types.Output final) u /\ asset net u = Asset data /\
           d = Some data /\ tail = [Fetch u]
     | Returned (ErrorMsg e) =>
         List.length used = S (List.length pending) /\
         (tail = [] \/ tail = [Sleep 1] \/ exists u, tail = [Fetch u])
     | Returned _ => False
     end).
Proof.
  remember (generateImage key net prompt c) as r eqn:R.
  unfold generateImage in R.
  replace (if negb (String.eqb (ApiToken c) "") then ApiToken c else key)
    with (credential key c) in R
    by (unfold credential; destruct (String.eqb (ApiToken c) ""); reflexivity).
  generalize dependent (credential key c). intros k R.
  destruct (String.eqb_spec k "") as [Ek|Ek]; [left; split; [exact Ek|exact R]|].
  right.
  assert (Hm : (~ In (FluxModel c) validFluxModels /\
                r = (Returned (ErrorMsg (ErrInvalidModel (FluxModel c))), [], api net)) \/
               (In (FluxModel c) validFluxModels /\
                exists url input,
                  In url [fluxSchnellURL; fluxProURL; fluxDevURL] /\
                  r = match api net with
                      | [] => (Waiting,
                               [Post url (bearer k) (JObj [("input", Types.marshal input)])], [])
                      | DoFails cause :: rest =>
                          (Returned (ErrorMsg (ErrSendingRequest cause)),
                           [Post url (bearer k) (JObj [("input", Types.marshal input)])], rest)
                      | ReadFails cause :: rest =>
                          (Returned (ErrorMsg (ErrReadingResponse cause)),
                           [Post url (bearer k) (JObj [("input", Types.marshal input)])], rest)
                      | BadJSON cause :: rest =>
                          (Returned (ErrorMsg (ErrUnmarshal cause)),
                           [Post url (bearer k) (JObj [("input", Types.marshal input)])], rest)
                      | Decoded result :: rest =>
                          match poll net k result rest with
                          | (inl exit, calls, rest') =>
                              (exit,
                               ([Post url (bearer k) (JObj [("input", Types.marshal input)])]
                                ++ calls)%list, rest')
                          | (inr result, calls, rest') =>
                              let '(exit, calls') := fetchOutput net result in
                              (exit,
                               ([Post url (bearer k) (JObj [("input", Types.marshal input)])]
                                ++ calls ++ calls')%list, rest')
                          end
                      end)).
  { unfold validFluxModels.
    destruct (String.eqb_spec (FluxModel c) "schnell") as [E1|E1].
    { right. split; [simpl; auto|]. do 2 eexists. split; [|exact R]. simpl; auto. }
    destruct (String.eqb_spec (FluxModel c) "pro") as [E2|E2].
    { right. split; [simpl; auto|]. do 2 eexists. split; [|exact R]. simpl; auto. }
    destruct (String.eqb_spec (FluxModel c) "dev") as [E3|E3].
    { right. split; [simpl; auto|]. do 2 eexists. split; [|exact R]. simpl; auto. }
    left. split; [|exact R]. simpl. intros [H|[H|[H|[]]]]; congruence. }
  clear R. destruct Hm as [[Hn ->]|[Hv (url & input & Hurl & ->)]].
  { left. auto. }
  right. split; [exact Ek|]. split; [exact Hv|].
  exists url, (JObj [("input", Types.marshal input)]).
  destruct (api net) as [|[cause|cause|cause|first] rest] eqn:Hapi.
  - exists [], [], []. unfold callsOf, remaining, outcome. simpl.
    repeat split; auto; intros p [].
  - exists [], [DoFails cause], []. unfold callsOf, remaining, outcome. simpl.
    repeat split; auto; intros p [].
  - exists [], [ReadFails cause], []. unfold callsOf, remaining, outcome. simpl.
    repeat split; auto; intros p [].
  - exists [], [BadJSON cause], []. unfold callsOf, remaining, outcome. simpl.
    repeat split; auto; intros p [].
  - destruct (poll net k first rest) as [[res calls] rest'] eqn:P.
    destruct (poll_protocol net k rest first res calls rest' P)
      as (pending & used & tail & E1 & E2 & F & I & M).
    assert (I' : forall p, In p pending -> In (Decoded p) (Decoded first :: rest)).
    { intros p Hp. destruct (I p Hp) as [->|Hin]; [left; reflexivity|right; exact Hin]. }
    destruct res as [exit|final].
    + exists pending, (Decoded first :: used), tail.
      unfold callsOf, remaining, outcome. simpl.
      split; [exact Hurl|]. split; [rewrite E2; reflexivity|].
      split; [rewrite E1; reflexivity|]. split; [exact F|]. split; [exact I'|].
      destruct exit as [[ | | | | e | | ]| | ]; try contradiction.
      * destruct M as (M1 & M2). split; [congruence|]. tauto.
      * destruct M as (M1 & M2 & M3). repeat split; auto.
    + destruct M as (-> & M2 & M3 & M4).
      assert (Hfin : In (Decoded final) (Decoded first :: rest)).
      { destruct M4 as [->|M4]; [left; reflexivity|right; exact M4]. }
      destruct (fetchOutput net final) as [exit calls'] eqn:Fo.
      exists pending, (Decoded first :: used), calls'.
      unfold callsOf, remaining, outcome. simpl.
      split; [exact Hurl|].
      split; [rewrite E2, app_nil_r; reflexivity|].
      split; [rewrite E1; reflexivity|]. split; [exact F|]. split; [exact I'|].
      unfold fetchOutput in Fo.
      destruct (String.eqb_spec (Types.Status final) "failed") as [Ef|Ef].
      { injection Fo as <- <-. split; [congruence|]. left. reflexivity. }
      assert (Es : Types.Status final = "succeeded").
      { unfold terminal in M3. apply orb_true_iff in M3.
        destruct M3 as [M3|M3]; apply String.eqb_eq in M3; [exact M3|contradiction]. }
      destruct (Types.Output final) as [ |b|q|u|l|fields] eqn:Ho;
        try (injection Fo as <- <-; split; [congruence|]; left; reflexivity).
      * destruct (asset net u) as [cause|cause|data] eqn:Ha; injection Fo as <- <-.
        -- split; [congruence|]. right. right. exists u. reflexivity.
        -- split; [congruence|]. right. right. exists u. reflexivity.
        -- split; [congruence|]. exists final, u, data.
           unfold outputsURL. rewrite Ho. repeat split; auto.
      * destruct l as [|[ |b|q|u|l'|fields] others];
          try (injection Fo as <- <-; split; [reflexivity|]; split; [congruence|];
               exists final; eexists; rewrite Ho; repeat split; eauto; intros; discriminate).
        destruct (asset net u) as [cause|cause|data] eqn:Ha; injection Fo as <- <-.
        -- split; [congruence|]. right. right. exists u. reflexivity.
        -- split; [congruence|]. right. right. exists u. reflexivity.
        -- split; [congruence|]. exists final, u, data.
           unfold outputsURL. rewrite Ho. repeat split; eauto.
Qed.

Lemma requests_pollCalls (auth : string) (pending : list Types.Response)
    (tail : list NetEvent) :
  requests (pollCalls auth pending ++ tail) = (List.length pending + requests tail)%nat.
Proof.
  unfold requests. induction pending as [|p ps IH]; simpl; [reflexivity|].
  f_equal. exact IH.
Qed.

Lemma in_pollCalls (auth : string) (pending : list Types.Response) (e : NetEvent) :
  In e (pollCalls auth pending) ->
  e = Sleep 1 \/ exists p, In p pending /\ e = Get (Types.Urls_Get p) auth.
Proof.
  unfold pollCalls. intros H. apply in_flat_map in H.
  destruct H as (p & Hp & [<-|[<-|[]]]); [left; reflexivity|right; eauto].
Qed.

(** X10: with a credential, the driver makes no call at all exactly
    when the configured model is none of the three the command line
    accepts; it then returns the invalid-model failure and leaves the
    network untouched.  So a model accepted by the command line always
    reaches the service. *)
Theorem unlisted_model_makes_no_call
    (key : string) (net : Network) (prompt : string) (c : config) :
  credential key c <> "" ->
  (callsOf (generateImage key net prompt c) = [] <->
   ~ In (FluxModel c) validFluxModels) /\
  (~ In (FluxModel c) validFluxModels ->
   generateImage key net prompt c
   = (Returned (ErrorMsg (ErrInvalidModel (FluxModel c))), [], api net)).
Proof.
  intros Hk.
  destruct (generateImage_protocol key net prompt c)
    as [(E & _)|[(_ & Hn & R)|(_ & Hv & url & body & pending & used & tail & _ & Hc & _)]].
  - contradiction.
  - split; [|intros _; exact R]. rewrite R.
    split; [intros _; exact Hn|intros _; reflexivity].
  - split; [|intros Hn; contradiction]. rewrite Hc.
    split; [discriminate|intros Hn; contradiction].
Qed.

Lemma unlisted_model_makes_no_call_witness :
  generateImage "" twoPolls "a red fox"
    (mkConfig "a red fox" "r8_token" "ultra" "1:1" "png" "")
  = (Returned (ErrorMsg (ErrInvalidModel "ultra")), [], api twoPolls).
Proof.
  apply (unlisted_model_makes_no_call "" twoPolls "a red fox"
           (mkConfig "a red fox" "r8_token" "ultra" "1:1" "png" "")).
  - discriminate.
  - simpl. intros [H|[H|[H|[]]]]; discriminate.
Defined.

(** X11: every call of a run is one of: the submit, a POST to one of
    the three model endpoints; a sleep of one second; a poll, a GET; the
    fetch of the asset.  Submit and polls all carry the same
    [Authorization] header: [Bearer] and the token of the configuration
    when it is not empty, whatever the environment holds, and the
    environment's key otherwise.  The fetch carries none. *)
Theorem requests_carry_the_credential
    (key : string) (net : Network) (prompt : string) (c : config) (e : NetEvent) :
  In e (callsOf (generateImage key net prompt c)) ->
  match e with
  | Post url authorization _ =>
      In url [fluxSchnellURL; fluxProURL; fluxDevURL] /\
      (ApiToken c <> "" -> authorization = bearer (ApiToken c)) /\
      (ApiToken c = "" -> authorization = bearer key)
  | Get _ authorization =>
      (ApiToken c <> "" -> authorization = bearer (ApiToken c)) /\
      (ApiToken c = "" -> authorization = bearer key)
  | Sleep seconds => seconds = 1
  | Fetch _ => True
  end.
Proof.
  intros Hin.
  assert (Hcred : (ApiToken c <> "" -> bearer (credential key c) = bearer (ApiToken c)) /\
                  (ApiToken c = "" -> bearer (credential key c) = bearer key)).
  { unfold credential. destruct (String.eqb_spec (ApiToken c) ""); split; intros;
      congruence. }
  destruct (generateImage_protocol key net prompt c)
    as [(_ & R)|[(_ & _ & R)|(_ & _ & url & body & pending & used & tail & Hu & Hc & _ & _ & _ & M)]].
  - rewrite R in Hin. contradiction.
  - rewrite R in Hin. contradiction.
  - rewrite Hc in Hin. destruct Hin as [<-|Hin]; [split; [exact Hu|exact Hcred]|].
    apply in_app_or in Hin. destruct Hin as [Hin|Hin].
    + apply in_pollCalls in Hin. destruct Hin as [->|(p & _ & ->)];
        [reflexivity|exact Hcred].
    + assert (T : tail = [] \/ tail = [Sleep 1] \/ exists u, tail = [Fetch u]).
      { destruct (outcome (generateImage key net prompt c)) as [[ | | |d|f| | ]| | ];
          try contradiction.
        - destruct M as (_ & final & u & data & _ & _ & _ & _ & _ & ->). eauto.
        - tauto.
        - tauto.
        - tauto. }
      destruct T as [->|[->|[u ->]]]; simpl in Hin.
      * contradiction.
      * destruct Hin as [<-|[]]. reflexivity.
      * destruct Hin as [<-|[]]. exact I.
Qed.

Lemma requests_carry_the_credential_witness :
  In "https://api.replicate.com/v1/models/black-forest-labs/flux-schnell/predictions"
     [fluxSchnellURL; fluxProURL; fluxDevURL] /\
  (ApiToken foxConfig <> "" -> bearer "r8_token" = bearer (ApiToken foxConfig)).
Proof.
  pose proof (requests_carry_the_credential "from_env" twoPolls "a red fox" foxConfig
                (Post fluxSchnellURL (bearer "r8_token")
                   (JObj [("input",
                           JObj [("prompt", JStr "a red fox");
                                 ("aspect_ratio", JStr "1:1");
                                 ("output_format", JStr "png");
                                 ("output_quality", JNum 100);
                                 ("disable_safety_checker", JBool true)])]))
                (or_introl eq_refl)) as H.
  exact (conj (proj1 H) (proj1 (proj2 H))).
Defined.

(** X12: every request that waits for the prediction API (the submit
    and each poll) consumes exactly one reply, in order: the replies
    left over are a suffix of the network's, and the number consumed is
    the number of requests.  The run is waiting only when it has made
    one request more than there are replies. *)
Theorem one_reply_per_request
    (key : string) (net : Network) (prompt : string) (c : config) :
  exists used : list ApiReply,
    api net = (used ++ remaining (generateImage key net prompt c))%list /\
    (outcome (generateImage key net prompt c) <> Waiting ->
     requests (callsOf (generateImage key net prompt c)) = List.length used) /\
    (outcome (generateImage key net prompt c) = Waiting ->
     remaining (generateImage key net prompt c) = [] /\
     requests (callsOf (generateImage key net prompt c)) = S (List.length (api net))).
Proof.
  destruct (generateImage_protocol key net prompt c)
    as [(_ & R)|[(_ & _ & R)|(_ & _ & url & body & pending & used & tail & Hu & Hc & Hr & _ & _ & M)]].
  - exists []. rewrite R. unfold remaining, outcome, callsOf. simpl.
    repeat split; try reflexivity; discriminate.
  - exists []. rewrite R. unfold remaining, outcome, callsOf. simpl.
    repeat split; try reflexivity; discriminate.
  - exists used. split; [exact Hr|]. rewrite Hc.
    change (requests (Post url (bearer (credential key c)) body
                      :: pollCalls (bearer (credential key c)) pending ++ tail))
      with (S (requests (pollCalls (bearer (credential key c)) pending ++ tail))).
    rewrite requests_pollCalls.
    destruct (outcome (generateImage key net prompt c)) as [[ | | |d|f| | ]| | ];
      try contradiction.
    + destruct M as (M1 & final & u & data & _ & _ & _ & _ & _ & ->).
      split; [intros _; unfold requests; simpl; lia|discriminate].
    + destruct M as (M1 & [->|[->|[u ->]]]);
        (split; [intros _; unfold requests; simpl; lia|discriminate]).
    + destruct M as (-> & M2 & M3). split; [congruence|]. intros _.
      split; [exact M2|]. rewrite Hr, M2, app_nil_r. unfold requests. simpl. lia.
    + destruct M as (-> & M2 & _). split; [intros _; unfold requests; simpl; lia|discriminate].
Qed.

(** X13: a run that delivers image bytes has seen a reply with status
    "succeeded" whose output names a URL (a string, or a list starting
    with one); the bytes are the body of that asset, never the nil
    slice; the fetch of that URL is the last call of the run and the
    only fetch. *)
Theorem image_only_from_succeeded_output
    (key : string) (net : Network) (prompt : string) (c : config) (d : bytes) :
  outcome (generateImage key net prompt c) = Returned (BytesMsg d) ->
  exists (final : Types.Response) (u : string) (data : list byte)
         (before : list NetEvent),
    In (Decoded final) (api net) /\
    Types.Status final = "succeeded" /\
    outputsURL (Types.Output final) u /\
    asset net u = Asset data /\
    d = Some data /\
    callsOf (generateImage key net prompt c) = (before ++ [Fetch u])%list /\
    (forall v, ~ In (Fetch v) before).
Proof.
  intros Ho.
  destruct (generateImage_protocol key net prompt c)
    as [(_ & R)|[(_ & _ & R)|(_ & _ & url & body & pending & used & tail & Hu & Hc & Hr & _ & _ & M)]].
  - rewrite R in Ho. discriminate.
  - rewrite R in Ho. discriminate.
  - rewrite Ho in M. destruct M as (_ & final & u & data & M1 & M2 & M3 & M4 & M5 & ->).
    exists final, u, data,
      (Post url (bearer (credential key c)) body
       :: pollCalls (bearer (credential key c)) pending).
    repeat split; auto.
    intros v [H|H]; [discriminate|].
    apply in_pollCalls in H. destruct H as [H|(p & _ & H)]; discriminate.
Qed.

Lemma image_only_from_succeeded_output_witness :
  exists (final : Types.Response) (u : string) (data : list byte)
         (before : list NetEvent),
    In (Decoded final) (api twoPolls) /\
    Types.Status final = "succeeded" /\
    outputsURL (Types.Output final) u /\
    asset twoPolls u = Asset data /\
    Some [x01; x02] = Some data /\
    callsOf (generateImage "" twoPolls "a red fox" foxConfig) = (before ++ [Fetch u])%list /\
    (forall v, ~ In (Fetch v) before).
Proof.
  exact (image_only_from_succeeded_output "" twoPolls "a red fox" foxConfig
           (Some [x01; x02]) eq_refl).
Defined.

(** X14: the closure panics only after a reply with status "succeeded"
    whose output is a list that does not start with a string (the empty
    list, or a first element of another type): [urls[0].(string)].  No
    asset is fetched then.  And it does panic on such a reply: when the
    polls deliver the non-terminal results [pending] and then such a
    result, the run ends in the panic. *)
Theorem panics_on_malformed_list_only
    (key : string) (net : Network) (prompt : string) (c : config) :
  (outcome (generateImage key net prompt c) = Panicked ->
   (exists (final : Types.Response) (l : list JSON),
      In (Decoded final) (api net) /\
      Types.Status final = "succeeded" /\
      Types.Output final = JList l /\
      (forall u others, l <> JStr u :: others)) /\
   (forall v, ~ In (Fetch v) (callsOf (generateImage key net prompt c)))) /\
  (forall (pending : list Types.Response) (final : Types.Response)
          (rest : list ApiReply) (l : list JSON),
     credential key c <> "" ->
     In (FluxModel c) validFluxModels ->
     Forall (fun r => terminal (Types.Status r) = false) pending ->
     Forall (fun r => badURL net (Types.Urls_Get r) = None) pending ->
     Types.Status final = "succeeded" ->
     Types.Output final = JList l ->
     (forall u others, l <> JStr u :: others) ->
     api net = (map Decoded (pending ++ [final]) ++ rest)%list ->
     outcome (generateImage key net prompt c) = Panicked).
Proof.
  split.
  - intros Ho.
    destruct (generateImage_protocol key net prompt c)
      as [(_ & R)|[(_ & _ & R)|(_ & _ & url & body & pending & used & tail & Hu & Hc & Hr & _ & _ & M)]].
    + rewrite R in Ho. discriminate.
    + rewrite R in Ho. discriminate.
    + rewrite Ho in M. destruct M as (-> & _ & final & l & M1 & M2 & M3 & M4).
      split; [exists final, l; auto|].
      rewrite Hc, app_nil_r. intros v [H|H]; [discriminate|].
      apply in_pollCalls in H. destruct H as [H|(p & _ & H)]; discriminate.
  - intros pending final rest l Hk Hm Hn Hu Hs Hl Hbad Hapi.
    assert (Hk' : ApiToken c <> "" \/ key <> "").
    { unfold credential in Hk. destruct (String.eqb_spec (ApiToken c) ""); auto. }
    destruct (pending ++ [final])%list as [|first others] eqn:E.
    { destruct pending; discriminate. }
    simpl in Hapi.
    destruct (generateImage_after_submit key net prompt c first _ Hk' Hm Hapi)
      as (apiKey & url & body & Hg).
    assert (Ht : terminal (Types.Status final) = true) by (unfold terminal; rewrite Hs; reflexivity).
    rewrite (poll_until_terminal net apiKey pending final first others rest
               Hn Hu Ht E) in Hg.
    rewrite Hg. unfold outcome. simpl. unfold fetchOutput. rewrite Hs, Hl. simpl.
    destruct l as [|[ |b|q|u|l'|fields] others']; try reflexivity.
    exfalso. exact (Hbad u others' eq_refl).
Qed.

Lemma panics_on_malformed_list_only_witness :
  outcome (generateImage ""
             (mkNetwork [Decoded (Types.mkResponse "starting" JNull JNull "g1");
                         Decoded (Types.mkResponse "succeeded" JNull (JList []) "g2")]
                (fun _ => Asset [x01]) (fun _ => None))
             "a red fox" foxConfig) = Panicked.
Proof.
  apply (proj2 (panics_on_malformed_list_only ""
                  (mkNetwork [Decoded (Types.mkResponse "starting" JNull JNull "g1");
                              Decoded (Types.mkResponse "succeeded" JNull (JList []) "g2")]
                     (fun _ => Asset [x01]) (fun _ => None))
                  "a red fox" foxConfig)
           [Types.mkResponse "starting" JNull JNull "g1"]
           (Types.mkResponse "succeeded" JNull (JList []) "g2") [] []).
  - discriminate.
  - simpl. auto.
  - repeat constructor.
  - repeat constructor.
  - reflexivity.
  - reflexivity.
  - intros u others H. discriminate.
  - reflexivity.
Defined.

(** ** Further properties of the frames *)

Section Shape.
Context `{W : Widgets}.
Variable term : Terminal.

Lemma title_length (p : string) :
  Z.of_nat (String.length (sparkles ++ p)) = 4 + Z.of_nat (String.length p).
Proof.
  unfold sparkles. cbn [append String.length]. lia.
Qed.

(** The drawing statements of [viewImageWithControls], once the image
    is decoded, sized and encoded. *)
Lemma viewImageWithControls_draws (m : newModel) (data : list byte) (pw ph : Z) :
  imageData m = Some data ->
  termimg_From term data = Some (pw, ph) ->
  let target := fitCells (cellsOf pw (FontWidth term)) (cellsOf ph (FontHeight term))
                  (width m - 4) (height m - 8 - 1 - 2) in
  forall f : Frame,
    fst (fst (viewImageWithControls term m)) = f ->
    (f = Panic \/ showsImage f = true) ->
    exists cmd : string,
      termimg_Render term data (fst target) (snd target) = Some cmd /\
      snd (fst (viewImageWithControls term m))
      = (if needsImageClear m then [TermClearAll] else []) /\
      let lenTitle := 4 + Z.of_nat (String.length (prompt m)) in
      let padding := if Z.quot (width m - lenTitle) 2 <? 0 then 0
                     else Z.quot (width m - lenTitle) 2 in
      if width m - padding - lenTitle <? 0 then f = Panic
      else f = Escapes [CursorTo 1 1; TitleColors; Spaces padding;
                        Text (sparkles ++ prompt m);
                        Spaces (width m - padding - lenTitle); ResetColorsNewline;
                        SaveCursor;
                        CursorTo 4 (Z.quot (width m - fst target) 2 + 1);
                        ImageCmd cmd; RestoreCursor;
                        CursorTo (height m - 6) 1; Controls (selectedBtn m =? 0)].
Proof.
  intros Himg Hdec target f Hf Hkind.
  unfold viewImageWithControls in *. rewrite Himg, Hdec in *.
  destruct ((FontWidth term =? 0) || (FontHeight term =? 0)).
  { simpl in Hf. subst f. destruct Hkind; discriminate. }
  match type of Hf with
  | context [if ?c then (Undefined, _, _) else _] => destruct c
  end.
  { simpl in Hf. subst f. destruct Hkind; discriminate. }
  fold target in Hf |- *.
  destruct target as [tw th]. cbn [fst snd].
  destruct (termimg_Render term data tw th) as [cmd|].
  2:{ simpl in Hf. subst f. destruct Hkind; discriminate. }
  exists cmd. split; [reflexivity|].
  destruct (needsImageClear m) eqn:Hc; cbv beta iota zeta in Hf |- *;
    cbn [width height prompt selectedBtn set_needsImageClear fst snd] in Hf |- *;
    rewrite !title_length in Hf |- *;
    unfold renderControlsWithEscapes in Hf |- *;
    cbn [width height prompt selectedBtn set_needsImageClear app] in Hf |- *;
    replace (height m - 8 + 2) with (height m - 6) in Hf |- * by lia;
    change (1 + 3) with 4 in Hf |- *;
    match goal with
    | |- context [if ?c then _ = Panic else _] => destruct c
    end; cbn [fst snd] in Hf |- *; subst f; split; reflexivity.
Qed.

Lemma quot2_bounds (d : Z) :
  (0 <= d -> 0 <= Z.quot d 2 /\ d - 1 <= 2 * Z.quot d 2 <= d) /\
  (d < 0 -> Z.quot d 2 <= 0 /\ d <= 2 * Z.quot d 2 <= d + 1).
Proof.
  pose proof (Z.quot_rem' d 2) as E. split; intros H.
  - pose proof (Z.rem_bound_pos_pos d 2 ltac:(lia) H). lia.
  - pose proof (Z.rem_bound_pos_neg d 2 ltac:(lia) ltac:(lia)). lia.
Qed.

(** Effects on the terminal come with the drawing only. *)
Lemma viewImageWithControls_effects (m : newModel) :
  snd (fst (viewImageWithControls term m)) <> [] ->
  fst (fst (viewImageWithControls term m)) = Panic \/
  showsImage (fst (fst (viewImageWithControls term m))) = true.
Proof.
  unfold viewImageWithControls.
  destruct (imageData m) as [data|]; [|simpl; congruence].
  destruct (termimg_From term data) as [[pw ph]|]; [|simpl; congruence].
  destruct ((FontWidth term =? 0) || (FontHeight term =? 0)); [simpl; congruence|].
  match goal with
  | |- context [if ?c then (Undefined, _, _) else _] => destruct c
  end; [simpl; congruence|].
  destruct (fitCells _ _ _ _) as [tw th].
  destruct (termimg_Render term data tw th) as [cmd|]; [|simpl; congruence].
  intros _.
  destruct (needsImageClear m); cbv beta iota zeta;
    match goal with
    | |- context [if ?c then (Panic, _, _) else _] => destruct c
    end; simpl; auto.
Qed.

(** X17: the frame with the image.  When [View] draws (the frame holds
    the image, or the terminal was touched, or the drawing crashed) the
    session is displaying; the terminal's images are cleared exactly when
    the clear flag is set, and nothing else is done to the terminal.
    The drawing crashes ([strings.Repeat] with a negative count) exactly
    when the title, the sparkles prefix and the prompt, is longer in
    bytes than the terminal is wide.  Otherwise the frame is: the title
    row, padded left and right to exactly the width of the terminal,
    with the right padding equal to the left or one more; the image at
    row 4 between a cursor save and restore; the controls at row
    [height - 6]. *)
Theorem image_frame_shape (m : newModel) (f : Frame) (eff : list Effect) :
  View term m = (f, eff) ->
  f = Panic \/ showsImage f = true \/ eff <> [] ->
  mode m = Displaying /\
  eff = (if needsImageClear m then [TermClearAll] else []) /\
  (f = Panic <-> width m < 4 + Z.of_nat (String.length (prompt m))) /\
  (f <> Panic ->
   exists (padding trailing x : Z) (cmd : string),
     f = Escapes [CursorTo 1 1; TitleColors; Spaces padding;
                  Text (sparkles ++ prompt m); Spaces trailing; ResetColorsNewline;
                  SaveCursor; CursorTo 4 x; ImageCmd cmd; RestoreCursor;
                  CursorTo (height m - 6) 1; Controls (selectedBtn m =? 0)] /\
     0 <= padding /\
     padding + (4 + Z.of_nat (String.length (prompt m))) + trailing = width m /\
     (trailing = padding \/ trailing = padding + 1)).
Proof.
  intros Hv Hkind. unfold View in Hv.
  destruct (width m =? 0).
  { injection Hv as <- <-. destruct Hkind as [H|[H|H]]; try discriminate. congruence. }
  destruct (err m) as [e|] eqn:He.
  { injection Hv as <- <-. destruct Hkind as [H|[H|H]]; try discriminate. congruence. }
  destruct (inputMode m) eqn:Hi.
  { injection Hv as <- <-. destruct Hkind as [H|[H|H]]; try discriminate. congruence. }
  destruct (generating m) eqn:Hg.
  { unfold loadingView in Hv. injection Hv as <- <-.
    destruct Hkind as [H|[H|H]]; try discriminate. congruence. }
  destruct (notNil (imageData m)) eqn:Hn.
  2:{ unfold controlsOnlyView in Hv. injection Hv as <- <-.
      destruct Hkind as [H|[H|H]]; try discriminate. congruence. }
  assert (Hmode : mode m = Displaying).
  { unfold mode. rewrite He, Hi, Hg, Hn. reflexivity. }
  split; [exact Hmode|].
  assert (Hf : fst (fst (viewImageWithControls term m)) = f) by (rewrite Hv; reflexivity).
  assert (He' : snd (fst (viewImageWithControls term m)) = eff) by (rewrite Hv; reflexivity).
  assert (Hk : f = Panic \/ showsImage f = true).
  { destruct Hkind as [H|[H|H]]; auto.
    rewrite <- Hf. apply viewImageWithControls_effects. rewrite He'. exact H. }
  destruct (imageData m) as [data|] eqn:Himg; [|discriminate].
  destruct (termimg_From term data) as [[pw ph]|] eqn:Hdec.
  2:{ unfold viewImageWithControls in Hf. rewrite Himg, Hdec in Hf. simpl in Hf.
      subst f. destruct Hk; discriminate. }
  destruct (viewImageWithControls_draws m data pw ph Himg Hdec f Hf Hk)
    as (cmd & Hr & Heff & Hshape).
  split; [congruence|]. cbv zeta in Hshape.
  set (L := 4 + Z.of_nat (String.length (prompt m))) in *.
  destruct (quot2_bounds (width m - L)) as [Qpos Qneg].
  destruct (Z.ltb_spec (Z.quot (width m - L) 2) 0) as [Hq|Hq].
  - (* the title is at least two bytes too long *)
    assert (width m - L < 0) by (destruct (Z_lt_le_dec (width m - L) 0); [assumption|lia]).
    destruct (Z.ltb_spec (width m - 0 - L) 0) as [Hc|Hc]; [|lia].
    split; [split; [intros _; lia|intros _; exact Hshape]|].
    intros Hnp. contradiction.
  - destruct (Z.ltb_spec (width m - Z.quot (width m - L) 2 - L) 0) as [Hc|Hc].
    + split; [split; [intros _|intros _; exact Hshape]|intros Hnp; contradiction].
      destruct (Z_lt_le_dec (width m - L) 0) as [N|N]; [lia|].
      specialize (Qpos N). lia.
    + assert (N : 0 <= width m - L).
      { destruct (Z_lt_le_dec (width m - L) 0) as [N|N]; [|exact N].
        specialize (Qneg N). lia. }
      specialize (Qpos N).
      split; [split; [intros ->; discriminate|intros; lia]|].
      intros _.
      exists (Z.quot (width m - L) 2), (width m - Z.quot (width m - L) 2 - L),
        (Z.quot (width m - fst (fitCells (cellsOf pw (FontWidth term))
                                  (cellsOf ph (FontHeight term))
                                  (width m - 4) (height m - 8 - 1 - 2))) 2 + 1), cmd.
      split; [exact Hshape|]. lia.
Qed.

(** X18: where the image goes.  For an image and a font cell of
    positive sizes (below 2^26) on a terminal of more than 4 columns and
    more than 11 rows, the frame with the image encodes it at a size of
    at most [width - 4] by [height - 11] cells, and places it at row 4
    and a column that leaves two columns free on either side: the image
    lies below the title row and ends above the controls at row
    [height - 6]. *)
Theorem image_stays_inside_its_area
    (m : newModel) (data : list byte) (pw ph : Z)
    (ops : list TermOp) (eff : list Effect) :
  View term m = (Escapes ops, eff) ->
  existsb isImageCmd ops = true ->
  imageData m = Some data ->
  termimg_From term data = Some (pw, ph) ->
  0 < pw < 2 ^ 26 -> 0 < ph < 2 ^ 26 ->
  0 < FontWidth term < 2 ^ 26 -> 0 < FontHeight term < 2 ^ 26 ->
  4 < width m < 2 ^ 26 -> 11 < height m < 2 ^ 26 ->
  exists (tw th x : Z) (cmd : string),
    termimg_Render term data tw th = Some cmd /\
    In (ImageCmd cmd) ops /\ In (CursorTo 4 x) ops /\
    0 <= tw <= width m - 4 /\ 0 <= th <= height m - 11 /\
    3 <= x /\ x + tw - 1 <= width m - 2 /\
    4 + th - 1 < height m - 6.
Proof.
  intros Hv Himgcmd Himg Hdec Hpw Hph Hfw Hfh Hw Hh.
  assert (Hf : fst (fst (viewImageWithControls term m)) = Escapes ops).
  { unfold View in Hv.
    destruct (width m =? 0); [discriminate|].
    destruct (err m); [discriminate|].
    destruct (inputMode m); [discriminate|].
    destruct (generating m); [unfold loadingView in Hv; discriminate|].
    rewrite Himg in Hv. simpl in Hv. rewrite Hv. reflexivity. }
  destruct (viewImageWithControls_draws m data pw ph Himg Hdec (Escapes ops) Hf
              (or_intror Himgcmd)) as (cmd & Hr & _ & Hshape).
  cbv zeta in Hshape.
  match type of Hshape with
  | (if ?c then _ else _) => destruct c; [discriminate|]
  end.
  injection Hshape as ->.
  replace (height m - 8 - 1 - 2) with (height m - 11) in * by lia.
  set (origW := cellsOf pw (FontWidth term)) in *.
  set (origH := cellsOf ph (FontHeight term)) in *.
  assert (P26 : 2 ^ 26 = 67108864) by reflexivity.
  assert (P52 : 2 ^ 52 = 4503599627370496) by reflexivity.
  assert (EW : origW = (pw + FontWidth term - 1) / FontWidth term).
  { apply F64Facts.cellsOf_ceiling; rewrite P52; lia. }
  assert (EH : origH = (ph + FontHeight term - 1) / FontHeight term).
  { apply F64Facts.cellsOf_ceiling; rewrite P52; lia. }
  assert (BW : 0 < origW < 2 ^ 26).
  { rewrite EW, P26 in *.
    pose proof (Z.div_mod (pw + FontWidth term - 1) (FontWidth term) ltac:(lia)).
    pose proof (Z.mod_pos_bound (pw + FontWidth term - 1) (FontWidth term) ltac:(lia)).
    nia. }
  assert (BH : 0 < origH < 2 ^ 26).
  { rewrite EH, P26 in *.
    pose proof (Z.div_mod (ph + FontHeight term - 1) (FontHeight term) ltac:(lia)).
    pose proof (Z.mod_pos_bound (ph + FontHeight term - 1) (FontHeight term) ltac:(lia)).
    nia. }
  clearbody origW origH.
  assert (B : 0 <= fst (fitCells origW origH (width m - 4) (height m - 11)) <= width m - 4 /\
              0 <= snd (fitCells origW origH (width m - 4) (height m - 11)) <= height m - 11).
  { destruct (Z_le_gt_dec origW (width m - 4)) as [L1|L1];
      [destruct (Z_le_gt_dec origH (height m - 11)) as [L2|L2]|].
    - unfold fitCells.
      replace ((origW >? width m - 4) || (origH >? height m - 11)) with false.
      2:{ symmetry. apply orb_false_iff. rewrite !Z.gtb_ltb, !Z.ltb_ge. lia. }
      cbn [fst snd]. lia.
    - destruct (F64Facts.fitCells_scaled origW origH (width m - 4) (height m - 11)
                  BW BH ltac:(lia) ltac:(lia) ltac:(lia)) as (F1 & F2 & F3 & F4).
      cbv zeta in F3, F4.
      set (tw := fst (fitCells origW origH (width m - 4) (height m - 11))) in *.
      set (th := snd (fitCells origW origH (width m - 4) (height m - 11))) in *.
      clearbody tw th.
      assert (Pp : 0 < Z.min ((width m - 4) * origH) ((height m - 11) * origW)).
      { apply Z.min_glb_lt; apply Z.mul_pos_pos; lia. }
      set (p := Z.min ((width m - 4) * origH) ((height m - 11) * origW)) in *.
      clearbody p.
      assert (0 <= tw) by (clear - F3 Pp BW BH; nia).
      assert (0 <= th) by (clear - F4 Pp BW BH; nia).
      lia.
    - destruct (F64Facts.fitCells_scaled origW origH (width m - 4) (height m - 11)
                  BW BH ltac:(lia) ltac:(lia) ltac:(lia)) as (F1 & F2 & F3 & F4).
      cbv zeta in F3, F4.
      set (tw := fst (fitCells origW origH (width m - 4) (height m - 11))) in *.
      set (th := snd (fitCells origW origH (width m - 4) (height m - 11))) in *.
      clearbody tw th.
      assert (Pp : 0 < Z.min ((width m - 4) * origH) ((height m - 11) * origW)).
      { apply Z.min_glb_lt; apply Z.mul_pos_pos; lia. }
      set (p := Z.min ((width m - 4) * origH) ((height m - 11) * origW)) in *.
      clearbody p.
      assert (0 <= tw) by (clear - F3 Pp BW BH; nia).
      assert (0 <= th) by (clear - F4 Pp BW BH; nia).
      lia. }
  set (tw := fst (fitCells origW origH (width m - 4) (height m - 11))) in *.
  set (th := snd (fitCells origW origH (width m - 4) (height m - 11))) in *.
  clearbody tw th.
  exists tw, th, (Z.quot (width m - tw) 2 + 1), cmd.
  split; [exact Hr|].
  split; [simpl; tauto|]. split; [simpl; tauto|].
  destruct (quot2_bounds (width m - tw)) as [Qpos _].
  specialize (Qpos ltac:(lia)). lia.
Qed.

End Shape.

(** ** The properties of the session on the fox session *)

Lemma plainWidgets_quiet : quietWidgets.
Proof.
  unfold quietWidgets. repeat split.
  - intros t [w h|k|x y b|d|e|s|tag]; simpl; try reflexivity.
    destruct (snd t && (Z.of_nat (String.length k) =? 1)); reflexivity.
  - intros s [w h|k|x y b|d|e|s0|tag]; simpl; try reflexivity.
    destruct (String.eqb_spec tag "spinner.TickMsg") as [->|N]; [reflexivity|].
    repeat match goal with
           | |- context [match ?x with _ => _ end] => destruct x; try reflexivity
           end.
  - intros t [w h|k|x y b|d|e|s|tag]; simpl; try reflexivity.
    destruct (snd t && (Z.of_nat (String.length k) =? 1)); reflexivity.
  - intros s [w h|k|x y b|d|e|s0|tag]; simpl; try reflexivity.
    repeat match goal with
           | |- context [match ?x with _ => _ end] => destruct x; try reflexivity
           end.
Qed.

Lemma prompt_frozen_after_submit_witness :
  inputMode foxDisplaying = false /\
  prompt (run plainDisk foxDisplaying [KeyMsg "x"; KeyMsg "enter"; KeyMsg "y"])
  = "a red fox".
Proof.
  split; [reflexivity|].
  exact (proj1 (proj2 (prompt_frozen_after_submit plainDisk foxDisplaying
                         [KeyMsg "x"; KeyMsg "enter"; KeyMsg "y"] eq_refl))).
Defined.

Lemma failure_is_final_witness :
  exists e',
    View (plainTerminal 8 16)
      (run plainDisk (step plainDisk foxGenerating (ErrorMsg ErrNoToken))
         [KeyMsg "enter"; BytesMsg (Some [x01])])
    = (ErrorView 80 24 e', []).
Proof.
  apply (failure_is_final plainDisk (plainTerminal 8 16)
           (step plainDisk foxGenerating (ErrorMsg ErrNoToken)) ErrNoToken
           [KeyMsg "enter"; BytesMsg (Some [x01])]).
  - reflexivity.
  - vm_compute. discriminate.
Defined.

Lemma dispatched_jobs_are_well_formed_witness :
  "a red fox" <> "" /\ foxConfig = foxConfig.
Proof.
  assert (Hin : In ("a red fox", foxConfig)
                  (dispatched (Init (newInitialModel foxConfig))
                   ++ dispatched
                        (snd (fst (Update plainDisk
                                     (run plainDisk (newInitialModel foxConfig)
                                        [WindowSizeMsg 80 24; BytesMsg (Some [x01])])
                                     (KeyMsg "enter")))))).
  { vm_compute. left. reflexivity. }
  pose proof (dispatched_jobs_are_well_formed plainDisk foxConfig
                [WindowSizeMsg 80 24; BytesMsg (Some [x01])] (KeyMsg "enter")
                "a red fox" foxConfig plainWidgets_quiet Hin) as H.
  exact (conj (proj1 H) (proj1 (proj2 H))).
Defined.

Lemma enter_submits_text_only_witness :
  inputMode (step plainDisk (newInitialModel (mkConfig "" "r8_token" "schnell" "1:1" "png" ""))
               (KeyMsg "enter")) = true /\
  dispatched
    (snd (fst (Update plainDisk
                 (step plainDisk
                    (newInitialModel (mkConfig "" "r8_token" "schnell" "1:1" "png" ""))
                    (KeyMsg "a"))
                 (KeyMsg "enter"))))
  = [("a", mkConfig "" "r8_token" "schnell" "1:1" "png" "")].
Proof.
  split.
  - exact (proj1 (proj1 (enter_submits_text_only plainDisk
                           (newInitialModel (mkConfig "" "r8_token" "schnell" "1:1" "png" ""))
                           eq_refl) eq_refl)).
  - assert (N : textinput_Value
                  (textInput (step plainDisk
                                (newInitialModel (mkConfig "" "r8_token" "schnell" "1:1" "png" ""))
                                (KeyMsg "a"))) <> "") by (vm_compute; discriminate).
    exact (proj2 (proj2 (proj2 (proj2
             (proj2 (enter_submits_text_only plainDisk
                       (step plainDisk
                          (newInitialModel (mkConfig "" "r8_token" "schnell" "1:1" "png" ""))
                          (KeyMsg "a"))
                       eq_refl) N))))).
Defined.

Lemma navigation_moves_selection_witness :
  selectedBtn (step plainDisk foxDisplaying (KeyMsg "tab")) = 1 /\
  selectedBtn (run plainDisk foxDisplaying [KeyMsg "tab"; KeyMsg "j"]) = 0.
Proof.
  pose proof (navigation_moves_selection plainDisk foxDisplaying [x01] "tab" "j"
                eq_refl eq_refl (or_introl eq_refl)
                (or_intror (or_introl eq_refl))) as H.
  exact (proj1 (proj2 (proj2 H)) (or_introl eq_refl)).
Defined.

Lemma saves_only_on_download_witness :
  snd (fst (Update plainDisk (step plainDisk foxDisplaying (KeyMsg "right"))
              (KeyMsg "enter"))) = Quit.
Proof.
  pose proof (saves_only_on_download plainDisk
                (step plainDisk foxDisplaying (KeyMsg "right")) (KeyMsg "enter")
                (Some [x01]) "a red fox" (or_introl eq_refl)) as H.
  exact (proj1 (proj2 (proj2 (proj2 (proj2 (proj2 H)))))).
Defined.

Lemma inert_without_image_witness :
  sameData (step plainDisk foxGenerating (KeyMsg "enter")) foxGenerating /\
  dispatched (snd (fst (Update plainDisk foxGenerating (KeyMsg "enter")))) = [].
Proof.
  pose proof (inert_without_image plainDisk foxGenerating (KeyMsg "enter")
                plainWidgets_quiet eq_refl eq_refl eq_refl) as H.
  exact (conj (proj1 H) (proj1 (proj2 H))).
Defined.

Lemma click_hits_buttons_witness :
  snd (Update plainDisk foxDisplaying (MouseClickMsg 50 20 MouseLeft))
  = [SaveImage (Some [x01]) "a red fox"] /\
  snd (Update plainDisk foxDisplaying (MouseClickMsg 50 10 MouseLeft)) = [].
Proof.
  pose proof (click_hits_buttons plainDisk foxDisplaying [x01] 50 20 MouseLeft
                plainWidgets_quiet eq_refl eq_refl) as H.
  pose proof (click_hits_buttons plainDisk foxDisplaying [x01] 50 10 MouseLeft
                plainWidgets_quiet eq_refl eq_refl) as G.
  split.
  - refine (proj2 (proj2 (proj1 (proj2 H) eq_refl _ _))).
    + vm_compute. discriminate.
    + split; vm_compute; discriminate.
  - refine (proj2 (proj2 (proj2 (proj2 (proj2 G) _)))).
    right. left. reflexivity.
Defined.

Lemma one_reply_per_request_witness :
  exists used : list ApiReply,
    api twoPolls = (used ++ [DoFails "unused"])%list /\
    requests (callsOf (generateImage "" twoPolls "a red fox" foxConfig))
    = List.length used.
Proof.
  destruct (one_reply_per_request "" twoPolls "a red fox" foxConfig)
    as (used & H1 & H2 & _).
  exists used. split; [exact H1|]. apply H2. discriminate.
Defined.

Lemma idle_is_unreachable_witness :
  mode (run plainDisk (newInitialModel foxConfig)
          [WindowSizeMsg 80 24; BytesMsg (Some [x01]); KeyMsg "enter";
           ErrorMsg ErrNoToken]) <> Idle.
Proof.
  apply (idle_is_unreachable plainDisk foxConfig).
  repeat constructor; discriminate.
Defined.

Lemma flags_move_one_way_witness :
  isRegenerating (run plainDisk (newInitialModel foxConfig)
                    ([WindowSizeMsg 80 24; BytesMsg (Some [x01]); KeyMsg "enter"]
                     ++ [BytesMsg (Some [x02])])) = true.
Proof.
  apply (proj2 (flags_move_one_way plainDisk foxConfig
                  [WindowSizeMsg 80 24; BytesMsg (Some [x01]); KeyMsg "enter"]
                  [BytesMsg (Some [x02])])).
  reflexivity.
Defined.

(** On a terminal of 10 columns the title of the fox session, 13 bytes,
    does not fit: the frame with the image cannot be drawn. *)
Lemma image_frame_shape_witness :
  mode (run plainDisk (newInitialModel foxConfig)
          [WindowSizeMsg 10 24; BytesMsg (Some [x01])]) = Displaying /\
  10 < 4 + Z.of_nat (String.length "a red fox").
Proof.
  assert (Hv : View (plainTerminal 8 16)
                 (run plainDisk (newInitialModel foxConfig)
                    [WindowSizeMsg 10 24; BytesMsg (Some [x01])])
               = (Panic, [TermClearAll])) by (vm_compute; reflexivity).
  pose proof (image_frame_shape (plainTerminal 8 16) _ _ _ Hv (or_introl eq_refl)) as H.
  split; [exact (proj1 H)|].
  exact (proj1 (proj1 (proj2 (proj2 H))) eq_refl).
Defined.

Lemma image_stays_inside_its_area_witness :
  exists (tw th x : Z) (cmd : string),
    termimg_Render (plainTerminal 8 16) [x01] tw th = Some cmd /\
    0 <= tw <= 76 /\ 0 <= th <= 13 /\ 3 <= x /\ x + tw - 1 <= 78.
Proof.
  assert (Hv : View (plainTerminal 8 16) foxDisplaying
               = (Escapes [CursorTo 1 1; TitleColors; Spaces 33;
                           Text (sparkles ++ "a red fox"); Spaces 34;
                           ResetColorsNewline; SaveCursor; CursorTo 4 28;
                           ImageCmd "IMG"; RestoreCursor; CursorTo 18 1;
                           Controls true],
                  [TermClearAll])) by (vm_compute; reflexivity).
  destruct (image_stays_inside_its_area (plainTerminal 8 16) foxDisplaying [x01]
              1024 1024 _ _ Hv eq_refl eq_refl eq_refl
              (conj eq_refl eq_refl) (conj eq_refl eq_refl)
              (conj eq_refl eq_refl) (conj eq_refl eq_refl)
              (conj eq_refl eq_refl) (conj eq_refl eq_refl))
    as (tw & th & x & cmd & H1 & _ & _ & H2 & H3 & H4 & H5 & _).
  exists tw, th, x, cmd. repeat split; try assumption; tauto.
Defined.

(** ** From the command line to the service *)

Lemma contains_In (choices : list string) (s : string) :
  contains choices s = true <-> In s choices.
Proof.
  unfold contains. rewrite existsb_exists. split.
  - intros (x & Hx & E). apply String.eqb_eq in E. subst. exact Hx.
  - intros H. exists s. split; [exact H|apply String.eqb_refl].
Qed.

Lemma submit_endpoint
    (key : string) (net : Network) (prompt : string) (c : config) :
  credential key c <> "" ->
  In (FluxModel c) validFluxModels ->
  exists (body : JSON) (rest : list NetEvent),
    callsOf (generateImage key net prompt c)
    = Post (if String.eqb (FluxModel c) "schnell" then fluxSchnellURL
            else if String.eqb (FluxModel c) "pro" then fluxProURL
            else fluxDevURL)
        (bearer (credential key c)) body :: rest.
Proof.
  intros Hk Hm. unfold generateImage.
  replace (if negb (String.eqb (ApiToken c) "") then ApiToken c else key)
    with (credential key c)
    by (unfold credential; destruct (String.eqb (ApiToken c) ""); reflexivity).
  apply String.eqb_neq in Hk. rewrite Hk.
  unfold validFluxModels in Hm. simpl in Hm.
  destruct Hm as [Hm|[Hm|[Hm|[]]]]; rewrite <- Hm; simpl;
    destruct (api net) as [|[ | | | r] rest]; unfold callsOf; simpl;
    try (do 2 eexists; reflexivity);
    destruct (poll net _ r rest) as [[[ex|res] cs] rs]; simpl;
    try (do 2 eexists; reflexivity);
    destruct (fetchOutput net res); do 2 eexists; reflexivity.
Qed.

Section Launch.
Context `{W : Widgets}.
Variable disk : Disk.

(** X19: from the flags to the request.  When the command line is
    accepted, every job the session ever dispatches carries the accepted
    aspect ratio, format and model and a non-empty prompt, and, given a
    credential, its run starts with the POST to the endpoint of the
    chosen model: the driver's own check of the model never rejects a
    session started by the command line. *)
Theorem validated_flags_reach_the_service
    (f : Flags) (c : config) (msgs : list Msg) (msg : Msg)
    (p : string) (c' : config) (key : string) (net : Network) :
  quietWidgets ->
  rootRun f = Program c ->
  In (p, c')
     (dispatched (Init (newInitialModel c))
      ++ dispatched (snd (fst (Update disk (run disk (newInitialModel c) msgs) msg)))) ->
  credential key c' <> "" ->
  In (flag_aspect f) validAspectRatios /\
  In (flag_format f) validOutputFormats /\
  In (flag_model f) validFluxModels /\
  p <> "" /\
  AspectRatio c' = flag_aspect f /\ OutputFormat c' = flag_format f /\
  FluxModel c' = flag_model f /\ ApiToken c' = flag_apiToken f /\
  exists (body : JSON) (rest : list NetEvent),
    callsOf (generateImage key net p c')
    = Post (if String.eqb (flag_model f) "schnell" then fluxSchnellURL
            else if String.eqb (flag_model f) "pro" then fluxProURL
            else fluxDevURL)
        (bearer (credential key c')) body :: rest.
Proof.
  intros Q Hrun Hin Hk.
  unfold rootRun in Hrun.
  destruct (contains validAspectRatios (flag_aspect f)) eqn:Ha; [|discriminate].
  destruct (contains validOutputFormats (flag_format f)) eqn:Hf; [|discriminate].
  destruct (contains validFluxModels (flag_model f)) eqn:Hm; [|discriminate].
  simpl in Hrun. injection Hrun as <-.
  apply contains_In in Ha, Hf, Hm.
  set (c := mkConfig (flag_prompt f) (flag_apiToken f) (flag_model f)
              (flag_aspect f) (flag_format f) (flag_output f)) in *.
  assert (Hp : p <> "" /\ c' = c).
  { pose proof (run_submittedNonEmpty disk c msgs _ (start_submittedNonEmpty c)) as HJ.
    apply in_app_or in Hin. destruct Hin as [Hin|Hin].
    - unfold Init in Hin. cbn [generating newInitialModel] in Hin.
      destruct (String.eqb_spec (Prompt c) "") as [E|E]; simpl in Hin.
      + contradiction.
      + destruct Hin as [Hin|[]]. injection Hin as <- <-. split; [exact E|reflexivity].
    - destruct (dispatch_of_step disk c _ msg p c' Q HJ Hin) as (A & B & _).
      split; assumption. }
  destruct Hp as [Hp ->].
  repeat (split; [first [assumption|reflexivity]|]).
  apply (submit_endpoint key net p c Hk Hm).
Qed.

End Launch.

Lemma validated_flags_reach_the_service_witness :
  exists (body : JSON) (rest : list NetEvent),
    callsOf (generateImage "" twoPolls "a red fox" foxConfig)
    = Post fluxSchnellURL (bearer "r8_token") body :: rest.
Proof.
  assert (Hin : In ("a red fox", foxConfig)
                  (dispatched (Init (newInitialModel foxConfig))
                   ++ dispatched
                        (snd (fst (Update plainDisk
                                     (run plainDisk (newInitialModel foxConfig) [])
                                     (WindowSizeMsg 80 24)))))).
  { vm_compute. left. reflexivity. }
  assert (Hk : credential "" foxConfig <> "") by (vm_compute; discriminate).
  exact (proj2 (proj2 (proj2 (proj2 (proj2 (proj2 (proj2 (proj2
           (validated_flags_reach_the_service plainDisk
              (mkFlags "a red fox" "1:1" "png" "r8_token" "schnell" "")
              foxConfig [] (WindowSizeMsg 80 24) "a red fox" foxConfig "" twoPolls
              plainWidgets_quiet eq_refl Hin Hk))))))))).
Defined.

(** ** The driver and its previous revision *)

Lemma poll_agrees (net : Legacy.Network) (k : string) (replies : list Legacy.ApiReply) :
  forall r : Legacy.Response,
    poll (networkAsCurrent net) k (asCurrent r) (map replyAsCurrent replies)
    = (match fst (fst (Legacy.poll net k r replies)) with
       | inl exit => inl exit
       | inr final => inr (asCurrent final)
       end,
       snd (fst (Legacy.poll net k r replies)),
       map replyAsCurrent (snd (Legacy.poll net k r replies))).
Proof.
  induction replies as [|rep rest IH]; intros r; cbn [poll Legacy.poll map];
    change (Types.Status (asCurrent r)) with (Legacy.Status r);
    change (Types.Urls_Get (asCurrent r)) with (Legacy.Urls_Get r);
    change (badURL (networkAsCurrent net)) with (Legacy.badURL net);
    destruct (terminal (Legacy.Status r)); try reflexivity;
    destruct (Legacy.badURL net (Legacy.Urls_Get r)); try reflexivity.
  destruct rep as [cause|cause|cause|r']; try reflexivity.
  cbn [replyAsCurrent]. rewrite (IH r').
  destruct (Legacy.poll net k r' rest) as [[res calls] rest']. reflexivity.
Qed.

Lemma lookup_skip (k key : string) (v : JSON) (fields : list (string * JSON)) :
  k <> key -> lookup key ((k, v) :: fields) = lookup key fields.
Proof.
  intros H. simpl. apply String.eqb_neq in H. rewrite H. reflexivity.
Qed.

(** X20: the current driver against the one it replaced.  With the
    schnell model and the key taken from the environment, on a service
    that answers with lists of URLs, the current driver ends as the
    previous one did (same bytes, same failure, same panic on an empty
    list), makes the same calls after the submit and leaves the same
    replies; the submit goes to the same endpoint with the same
    authorization, and its input differs only in [num_outputs], which
    the previous revision set to 1 and the current one leaves out. *)
Theorem driver_agrees_with_previous_revision
    (key : string) (net : Legacy.Network) (prompt : string)
    (c : config) (old : Legacy.config) :
  key <> "" ->
  ApiToken c = "" ->
  FluxModel c = "schnell" ->
  AspectRatio c = Legacy.AspectRatio old ->
  OutputFormat c = Legacy.OutputFormat old ->
  outcome (generateImage key (networkAsCurrent net) prompt c)
  = fst (fst (Legacy.generateImage key net prompt old)) /\
  afterSubmit (callsOf (generateImage key (networkAsCurrent net) prompt c))
  = afterSubmit (snd (fst (Legacy.generateImage key net prompt old))) /\
  remaining (generateImage key (networkAsCurrent net) prompt c)
  = map replyAsCurrent (snd (Legacy.generateImage key net prompt old)) /\
  (exists body body',
     hd_error (callsOf (generateImage key (networkAsCurrent net) prompt c))
     = Some (Post fluxSchnellURL (bearer key) body) /\
     hd_error (snd (fst (Legacy.generateImage key net prompt old)))
     = Some (Post fluxSchnellURL (bearer key) body')) /\
  lookup "num_outputs"
    (inputOf (callsOf (generateImage key (networkAsCurrent net) prompt c))) = None /\
  lookup "num_outputs" (inputOf (snd (fst (Legacy.generateImage key net prompt old))))
  = Some (JNum 1) /\
  (forall name : string,
     name <> "num_outputs" ->
     lookup name (inputOf (callsOf (generateImage key (networkAsCurrent net) prompt c)))
     = lookup name (inputOf (snd (fst (Legacy.generateImage key net prompt old))))).
Proof.
  intros Hk Ht Hm Ha Hf.
  unfold generateImage, Legacy.generateImage.
  rewrite Ht, Hm, Ha, Hf.
  change (String.eqb "" "") with true.
  change (String.eqb "schnell" "schnell") with true.
  cbv beta iota zeta. cbn [negb]. cbv iota.
  apply String.eqb_neq in Hk. rewrite Hk.
  change (api (networkAsCurrent net)) with (map replyAsCurrent (Legacy.api net)).
  set (body := JObj [("input", Types.marshal
                        (Types.withDisableSafetyChecker
                           (Types.literal prompt (Legacy.AspectRatio old)
                              (Legacy.OutputFormat old) 100) true))]).
  set (body' := Legacy.payload prompt old).
  assert (Hbody : lookup "num_outputs" (inputOf [Post fluxSchnellURL (bearer key) body]) = None /\
                  lookup "num_outputs" (inputOf [Post Legacy.schnellURL (bearer key) body'])
                  = Some (JNum 1) /\
                  forall name : string,
                    name <> "num_outputs" ->
                    lookup name (inputOf [Post fluxSchnellURL (bearer key) body])
                    = lookup name (inputOf [Post Legacy.schnellURL (bearer key) body'])).
  { unfold body, body', Legacy.payload, inputOf, submitted, Types.marshal,
      Types.withDisableSafetyChecker, Types.literal.
    cbn [Types.Seed Types.Steps Types.Prompt Types.Guidance Types.Interval
         Types.NumOutputs Types.AspectRatio Types.OutputFormat Types.OutputQuality
         Types.PromptStrength Types.NumInferenceSteps Types.DisableSafetyChecker
         Types.SafetyTolerance].
    unfold Types.omitInt, Types.omitBool, Types.omitFloat, Types.omitString.
    cbn [Z.eqb Qeq_bool Qnum Qden Z.mul Z.compare Pos.compare app
         Pos.mul Pos.compare_cont].
    destruct (String.eqb prompt ""), (String.eqb (Legacy.AspectRatio old) ""),
      (String.eqb (Legacy.OutputFormat old) "");
      cbn [app]; (split; [reflexivity|]); (split; [reflexivity|]);
      intros name Hn;
      repeat match goal with
             | |- context [lookup name (("num_outputs", ?v) :: ?l)] =>
                 rewrite (lookup_skip "num_outputs" name v l) by congruence
             end;
      try reflexivity;
      cbn [lookup];
      apply not_eq_sym, String.eqb_neq in Hn; rewrite ?Hn; reflexivity. }
  destruct (Legacy.api net) as [|[cause|cause|cause|first] rest] eqn:Hapi;
    cbn [map replyAsCurrent].
  1-4: unfold outcome, callsOf, remaining, afterSubmit; cbn [fst snd hd_error];
    repeat split; try reflexivity; try tauto; eauto.
  rewrite (poll_agrees net key rest first).
  destruct (Legacy.poll net key first rest) as [[[exit|final] calls] rest'] eqn:P;
    cbn [fst snd].
  - unfold outcome, callsOf, remaining, afterSubmit, inputOf, submitted in *;
      cbn [fst snd hd_error app] in *.
    repeat split; try reflexivity; try tauto; eauto.
  - unfold fetchOutput.
    change (Types.Status (asCurrent final)) with (Legacy.Status final).
    change (Types.Error (asCurrent final)) with (Legacy.Error final).
    change (Types.Output (asCurrent final)) with (JList (map JStr (Legacy.Output final))).
    change (asset (networkAsCurrent net)) with (Legacy.asset net).
    destruct (String.eqb (Legacy.Status final) "failed").
    { unfold outcome, callsOf, remaining, afterSubmit, inputOf, submitted in *;
        cbn [fst snd hd_error app] in *.
      rewrite app_nil_r. repeat split; try reflexivity; try tauto; eauto. }
    destruct (Legacy.Output final) as [|url urls]; cbn [map].
    { unfold outcome, callsOf, remaining, afterSubmit, inputOf, submitted in *;
        cbn [fst snd hd_error app] in *.
      rewrite app_nil_r. repeat split; try reflexivity; try tauto; eauto. }
    destruct (Legacy.asset net url);
      unfold outcome, callsOf, remaining, afterSubmit, inputOf, submitted in *;
      cbn [fst snd hd_error app] in *;
      repeat split; try reflexivity; try tauto; eauto.
Qed.

Lemma driver_agrees_with_previous_revision_witness :
  outcome (generateImage "r8_env"
             (networkAsCurrent
                (Legacy.mkNetwork
                   [Legacy.Decoded (Legacy.mkResponse "succeeded" JNull ["u"] "g")]
                   (fun _ => Asset [x01]) (fun _ => None)))
             "a red fox" (mkConfig "a red fox" "" "schnell" "1:1" "png" ""))
  = fst (fst (Legacy.generateImage "r8_env"
                (Legacy.mkNetwork
                   [Legacy.Decoded (Legacy.mkResponse "succeeded" JNull ["u"] "g")]
                   (fun _ => Asset [x01]) (fun _ => None))
                "a red fox" (Legacy.mkConfig "kitty" "1:1" "png" ""))).
Proof.
  apply (driver_agrees_with_previous_revision "r8_env"
           (Legacy.mkNetwork
              [Legacy.Decoded (Legacy.mkResponse "succeeded" JNull ["u"] "g")]
              (fun _ => Asset [x01]) (fun _ => None))
           "a red fox" (mkConfig "a red fox" "" "schnell" "1:1" "png" "")
           (Legacy.mkConfig "kitty" "1:1" "png" "")).
  - discriminate.
  - reflexivity.
  - reflexivity.
  - reflexivity.
  - reflexivity.
Defined.

(** ** Saving the image *)

(** Boolean comparisons on integers, as propositions. *)
Ltac zbool :=
  unfold inRange in *;
  repeat match goal with
         | H : _ || _ = true |- _ => apply orb_true_iff in H
         | H : _ && _ = true |- _ => apply andb_true_iff in H
         | H : _ || _ = false |- _ => apply orb_false_iff in H
         | H : _ && _ = false |- _ => apply andb_false_iff in H
         | H : (_ <=? _) = true |- _ => apply Z.leb_le in H
         | H : (_ <=? _) = false |- _ => apply Z.leb_gt in H
         | H : (_ <? _) = true |- _ => apply Z.ltb_lt in H
         | H : (_ <? _) = false |- _ => apply Z.ltb_ge in H
         | H : (_ =? _) = true |- _ => apply Z.eqb_eq in H
         | H : (_ =? _) = false |- _ => apply Z.eqb_neq in H
         | H : _ /\ _ |- _ => destruct H
         | H : _ \/ _ |- _ => destruct H
         end.

Lemma lor_lead_byte (t x : Z) :
  In t [128; 192; 224; 240] -> 0 <= x < 256 ->
  inRange 128 255 (Z.lor t x) = true.
Proof.
  intros Ht Hx.
  assert (T : forallb (fun t => forallb (fun n => inRange 128 255 (Z.lor t (Z.of_nat n)))
                                  (seq 0 256))
                [128; 192; 224; 240] = true) by (vm_compute; reflexivity).
  rewrite forallb_forall in T. specialize (T t Ht).
  rewrite forallb_forall in T. specialize (T (Z.to_nat x)).
  rewrite Z2Nat.id in T by lia. apply T. apply in_seq. lia.
Qed.

Lemma toByte_bounds (x : Z) : 0 <= toByte x < 256.
Proof. unfold toByte. apply Z.mod_pos_bound. lia. Qed.

Lemma low6_bounds (x : Z) : 0 <= Z.land (toByte x) 63 < 256.
Proof.
  change 63 with (Z.ones 6). rewrite Z.land_ones by lia.
  pose proof (Z.mod_pos_bound (toByte x) (2 ^ 6) ltac:(lia)). lia.
Qed.

Lemma encodeRune_above_ascii (r : Z) :
  128 <= r -> Forall (fun b => inRange 128 255 b = true) (encodeRune r).
Proof.
  intros Hr. unfold encodeRune.
  destruct (Z.leb_spec r 127) as [H|_]; [lia|].
  destruct (r <=? 2047).
  { repeat constructor; apply lor_lead_byte;
      first [apply toByte_bounds | apply low6_bounds | simpl; tauto]. }
  match goal with
  | |- context [if ?c <=? 65535 then _ else _] => destruct (c <=? 65535)
  end;
    repeat constructor; apply lor_lead_byte;
      first [apply toByte_bounds | apply low6_bounds | simpl; tauto].
Qed.

Lemma encodeRune_ascii (r : Z) : 0 <= r <= 127 -> encodeRune r = [r].
Proof.
  intros Hr. unfold encodeRune.
  destruct (Z.leb_spec r 127) as [_|H]; [|lia].
  unfold toByte. rewrite Z.mod_small by lia. reflexivity.
Qed.

(** What the function literal makes of a rune: the rune itself, written
    back as it was read, or one underscore. *)
Lemma sanitizeRune_cases (u : Unicode) (c : Z) :
  (sanitizeRune u c = 95 /\ encodeRune (sanitizeRune u c) = [95]) \/
  (sanitizeRune u c = c /\ 0 <= c <= 127 /\ safeByte c = true /\
   encodeRune (sanitizeRune u c) = [c]) \/
  (sanitizeRune u c = c /\ 128 <= c /\
   (letterAbove u c = true \/ numberAbove u c = true)).
Proof.
  unfold sanitizeRune, IsLetter, IsNumber.
  destruct (Z.ltb_spec c 128) as [Hc|Hc].
  - destruct (inRange 65 90 c || inRange 97 122 c || inRange 48 57 c
              || (c =? 45) || (c =? 95)) eqn:K.
    + right. left. split; [reflexivity|].
      assert (B : 0 <= c <= 127) by (zbool; lia).
      split; [exact B|]. split.
      * unfold safeByte. rewrite K. reflexivity.
      * apply encodeRune_ascii. exact B.
    + left. split; reflexivity.
  - destruct (letterAbove u c || numberAbove u c || (c =? 45) || (c =? 95)) eqn:K.
    + right. right. split; [reflexivity|]. split; [lia|].
      zbool; auto; lia.
    + left. split; reflexivity.
Qed.

Lemma sanitized_rune_safe (u : Unicode) (c : Z) :
  (sanitizeRune u c <? 0) = false /\
  Forall (fun b => safeByte b = true) (encodeRune (sanitizeRune u c)).
Proof.
  destruct (sanitizeRune_cases u c) as [(E & ->)|[(E & B & S & ->)|(E & B & _)]].
  - rewrite E. split; [reflexivity|]. repeat constructor.
  - rewrite E. split; [apply Z.ltb_ge; lia|]. repeat constructor. exact S.
  - rewrite E. split; [apply Z.ltb_ge; lia|].
    eapply Forall_impl; [|apply encodeRune_above_ascii; exact B].
    intros b Hb. unfold safeByte. rewrite Hb. apply orb_true_r.
Qed.

Lemma strings_Map_safe (u : Unicode) (s : list Z) :
  Forall (fun b => safeByte b = true) (strings_Map (sanitizeRune u) s).
Proof.
  unfold strings_Map. apply Forall_forall. intros b Hb.
  apply in_flat_map in Hb. destruct Hb as (c & _ & Hb). cbv zeta in Hb.
  destruct (sanitized_rune_safe u c) as [N F]. rewrite N in Hb.
  rewrite Forall_forall in F. apply F. exact Hb.
Qed.

Lemma sanitizedPrompt_safe (u : Unicode) (prompt : string) :
  Forall (fun b => safeByte b = true) (sanitizedPrompt u prompt).
Proof.
  unfold sanitizedPrompt. cbv zeta.
  destruct (50 <? _).
  - apply Forall_forall. intros b Hb.
    apply (proj1 (Forall_forall _ _) (strings_Map_safe u (codes prompt))).
    rewrite <- (firstn_skipn 50 (strings_Map (sanitizeRune u) (codes prompt))).
    apply in_or_app. left. exact Hb.
  - apply strings_Map_safe.
Qed.

Lemma sanitizedPrompt_short (u : Unicode) (prompt : string) :
  (List.length (sanitizedPrompt u prompt) <= 50)%nat.
Proof.
  unfold sanitizedPrompt. cbv zeta.
  destruct (Z.ltb_spec 50 (Z.of_nat (List.length (strings_Map (sanitizeRune u) (codes prompt)))))
    as [H|H].
  - rewrite length_firstn. lia.
  - lia.
Qed.

(** X21: the sanitised prompt is at most 50 bytes long, and each of its
    bytes is an ASCII letter, an ASCII digit, a hyphen, an underscore,
    or a byte of a multi-byte rune (128 and above), whatever the prompt
    and whatever the Unicode tables say: no path separator, dot, space,
    colon or NUL byte. *)
Theorem sanitized_prompt_is_safe (u : Unicode) (prompt : string) :
  (List.length (sanitizedPrompt u prompt) <= 50)%nat /\
  Forall (fun b => safeByte b = true) (sanitizedPrompt u prompt) /\
  Forall (fun b => ~ In b [0; 32; 46; 47; 58; 92]) (sanitizedPrompt u prompt).
Proof.
  split; [apply sanitizedPrompt_short|]. split; [apply sanitizedPrompt_safe|].
  eapply Forall_impl; [|apply sanitizedPrompt_safe].
  intros b Hb [E|[E|[E|[E|[E|[E|[]]]]]]]; subst b; discriminate.
Qed.

Lemma hasChar_app (c : ascii) (a b : string) :
  hasChar c (a ++ b) = hasChar c a || hasChar c b.
Proof.
  induction a as [|x a IH]; simpl; [reflexivity|].
  rewrite IH. apply orb_assoc.
Qed.

Lemma ofCodes_cons (b : Z) (l : list Z) :
  ofCodes (b :: l) = String (ascii_of_N (Z.to_N b)) (ofCodes l).
Proof. reflexivity. Qed.

(** A byte that is not safe is not the code of a safe one. *)
Lemma safe_byte_differs (b : Z) (c : ascii) :
  safeByte b = true ->
  safeByte (Z.of_N (N_of_ascii c)) = false ->
  Ascii.eqb (ascii_of_N (Z.to_N b)) c = false.
Proof.
  intros Hb Hc. apply Ascii.eqb_neq. intros E.
  assert (B : 0 <= b < 256) by (unfold safeByte in Hb; zbool; lia).
  assert (N : N_of_ascii (ascii_of_N (Z.to_N b)) = Z.to_N b).
  { apply N_ascii_embedding. lia. }
  rewrite E in N. rewrite N, Z2N.id in Hc by lia. congruence.
Qed.

Lemma hasChar_ofCodes (c : ascii) (l : list Z) :
  Forall (fun b => safeByte b = true) l ->
  safeByte (Z.of_N (N_of_ascii c)) = false ->
  hasChar c (ofCodes l) = false.
Proof.
  intros Hl Hc. induction Hl as [|b l Hb Hl IH]; [reflexivity|].
  rewrite ofCodes_cons. simpl. rewrite IH, orb_false_r.
  apply safe_byte_differs; assumption.
Qed.

Lemma hasChar_decimal (c : ascii) (n : Z) :
  hasChar c "0123456789-" = false -> hasChar c (decimal n) = false.
Proof.
  intros H. simpl in H.
  repeat match type of H with
         | _ || _ = false => apply orb_false_iff in H; destruct H as [? H]
         end.
  assert (U : forall d, hasChar c (NilEmpty.string_of_uint d) = false).
  { induction d; simpl; rewrite ?IHd; try reflexivity;
      rewrite orb_false_r; assumption. }
  assert (U0 : forall d, hasChar c (NilZero.string_of_uint d) = false).
  { intros d. destruct d; try apply U. simpl. rewrite orb_false_r. assumption. }
  unfold decimal. destruct (Z.to_int n) as [d|d]; simpl; rewrite U0;
    [reflexivity|rewrite orb_false_r; assumption].
Qed.

(** X22: the name of the file.  For an accepted output format the name
    [<sanitised prompt>_<seconds>.<format>] holds no slash, backslash,
    colon, space or NUL byte, and does not start with a dot, whatever
    the prompt: joined to the output folder it names a file directly in
    that folder. *)
Theorem saved_name_is_a_plain_file_name
    (u : Unicode) (now : Z) (prompt : string) (c : config) (sep : ascii) :
  In (OutputFormat c) validOutputFormats ->
  In sep ["/"%char; ascii_of_nat 92; ":"%char; " "%char; "000"%char] ->
  hasChar sep (fileName u now prompt c) = false /\
  exists (first : ascii) (rest : string),
    fileName u now prompt c = String first rest /\ first <> "."%char.
Proof.
  intros Hf Hsep.
  pose proof (sanitizedPrompt_safe u prompt) as S.
  split.
  - unfold fileName. rewrite !hasChar_app.
    assert (Hs : safeByte (Z.of_N (N_of_ascii sep)) = false).
    { simpl in Hsep. destruct Hsep as [<-|[<-|[<-|[<-|[<-|[]]]]]]; reflexivity. }
    rewrite (hasChar_ofCodes sep _ S Hs).
    rewrite (hasChar_decimal sep now).
    2:{ simpl in Hsep. destruct Hsep as [<-|[<-|[<-|[<-|[<-|[]]]]]]; reflexivity. }
    unfold validOutputFormats in Hf. simpl in Hf.
    destruct Hf as [<-|[<-|[<-|[]]]];
      simpl in Hsep; destruct Hsep as [<-|[<-|[<-|[<-|[<-|[]]]]]]; reflexivity.
  - unfold fileName.
    destruct (sanitizedPrompt u prompt) as [|b l].
    + simpl. do 2 eexists. split; [reflexivity|]. discriminate.
    + rewrite ofCodes_cons. simpl. do 2 eexists. split; [reflexivity|].
      inversion S as [|? ? Hb _]; subst.
      apply Ascii.eqb_neq. apply safe_byte_differs; [exact Hb|reflexivity].
Qed.

Lemma saved_name_is_a_plain_file_name_witness :
  hasChar "/" (fileName asciiOnly 1730000000 "../../etc/passwd" foxConfig) = false.
Proof.
  apply (saved_name_is_a_plain_file_name asciiOnly 1730000000 "../../etc/passwd"
           foxConfig "/").
  - simpl. auto.
  - simpl. auto.
Defined.

(** Case analysis on the membership of a call in a list of calls. *)
Ltac calls_of_save :=
  repeat match goal with
         | H : In _ (_ :: _) |- _ => destruct H as [H|H]
         | H : In _ [] |- _ => destruct H
         | H : CallWriteFile _ _ _ = CallWriteFile _ _ _ |- _ => injection H as <- <- <-
         | H : CallMkdirAll _ _ = CallMkdirAll _ _ |- _ => injection H as <- <-
         | H : Printf _ = Printf _ |- _ => injection H as <-
         | H : inl _ = inl _ |- _ => injection H as <-
         | H : inr _ = inr _ |- _ => injection H as <-
         | H : _ = _ |- _ => discriminate H
         end.

(** X23: the calls of [saveImage].  A file is written only with the
    image bytes as they are (the nil slice included), mode 0644, under
    the sanitised name, in the output folder when one is configured;
    and then the folder was created first, successfully, as the first
    call.  The folder is created only when one is configured.  The path
    is returned exactly when it is printed, and then the write
    succeeded; every failure is the error of the call that failed. *)
Theorem save_writes_after_the_folder
    (u : Unicode) (fs : FileSystem) (now : Z)
    (imageData : bytes) (prompt : string) (c : config) :
  let r := saveImageTo u fs now imageData prompt c in
  let path := if String.eqb (OutputFolder c) "" then InWorkingDir (fileName u now prompt c)
              else Join (OutputFolder c) (fileName u now prompt c) in
  (forall p d perm,
     In (CallWriteFile p d perm) (snd r) ->
     p = path /\ d = imageData /\ perm = 420 /\
     (OutputFolder c <> "" ->
      MkdirAll fs (OutputFolder c) = None /\
      hd_error (snd r) = Some (CallMkdirAll (OutputFolder c) 493))) /\
  (forall folder perm,
     In (CallMkdirAll folder perm) (snd r) ->
     folder = OutputFolder c /\ folder <> "" /\ perm = 493) /\
  (forall p, fst r = inl p <-> In (Printf p) (snd r)) /\
  (forall p, fst r = inl p -> p = path /\ WriteFile fs path imageData = None) /\
  (forall e, fst r = inr e ->
     exists cause,
       (e = ErrSave ("error creating output folder: " ++ cause) /\
        MkdirAll fs (OutputFolder c) = Some cause /\
        forall p d perm, ~ In (CallWriteFile p d perm) (snd r)) \/
       (e = ErrSave ("error saving image: " ++ cause) /\
        WriteFile fs path imageData = Some cause)).
Proof.
  cbv zeta. unfold saveImageTo. cbv zeta.
  destruct (String.eqb_spec (OutputFolder c) "") as [E|E]; cbn [negb];
    [|destruct (MkdirAll fs (OutputFolder c)) as [cause|] eqn:Hm];
    try match goal with
        | |- context [WriteFile fs ?p imageData] =>
            destruct (WriteFile fs p imageData) as [cause|] eqn:Hw
        end;
    cbn [fst snd app];
    (split; [intros p d perm H|]);
    [calls_of_save; repeat split; intros; first [reflexivity|contradiction] | |
     calls_of_save; repeat split; intros; first [reflexivity|contradiction] | |
     calls_of_save | |
     calls_of_save; repeat split; intros; first [reflexivity|contradiction] | |
     calls_of_save; repeat split; intros; first [reflexivity|contradiction] | ];
    (split; [intros folder perm H; calls_of_save; repeat split; first [reflexivity|exact E]|]);
    (split; [intros p; split; intros H; calls_of_save; simpl; tauto|]);
    (split; [intros p H; calls_of_save; split; reflexivity|]);
    intros e H; calls_of_save; exists cause;
    first [ right; split; reflexivity
          | left; split; [reflexivity|]; split; [reflexivity|];
            intros p d perm H; calls_of_save ].
Qed.

Lemma save_writes_after_the_folder_witness :
  MkdirAll plainFileSystem "out" = None /\
  hd_error (snd (saveImageTo asciiOnly plainFileSystem 1730000000 (Some [x01])
                   "a red fox"
                   (mkConfig "a red fox" "r8_token" "schnell" "1:1" "png" "out")))
  = Some (CallMkdirAll "out" 493).
Proof.
  assert (Hin : In (CallWriteFile (Join "out" "a_red_fox_1730000000.png") (Some [x01]) 420)
                  (snd (saveImageTo asciiOnly plainFileSystem 1730000000 (Some [x01])
                          "a red fox"
                          (mkConfig "a red fox" "r8_token" "schnell" "1:1" "png" "out")))).
  { vm_compute. right. left. reflexivity. }
  assert (Hf : OutputFolder (mkConfig "a red fox" "r8_token" "schnell" "1:1" "png" "out")
               <> "") by discriminate.
  exact (proj2 (proj2 (proj2
           (proj1 (save_writes_after_the_folder asciiOnly plainFileSystem 1730000000
                     (Some [x01]) "a red fox"
                     (mkConfig "a red fox" "r8_token" "schnell" "1:1" "png" "out"))
              _ _ _ Hin))) Hf).
Defined.

Lemma codes_bounds (s : string) : Forall (fun b => 0 <= b < 256) (codes s).
Proof.
  unfold codes. induction s as [|a s IH]; simpl; constructor; [|exact IH].
  pose proof (N_ascii_bounded a). lia.
Qed.

Lemma codes_length (s : string) : List.length (codes s) = String.length s.
Proof.
  unfold codes. rewrite length_map.
  induction s as [|a s IH]; simpl; [reflexivity|]. rewrite IH. reflexivity.
Qed.

Lemma codes_ofCodes (l : list Z) :
  Forall (fun b => 0 <= b < 256) l -> codes (ofCodes l) = l.
Proof.
  intros H. unfold codes, ofCodes.
  rewrite list_ascii_of_string_of_list_ascii, map_map.
  induction H as [|b l Hb Hl IH]; simpl; [reflexivity|].
  rewrite IH, N_ascii_embedding by lia. rewrite Z2N.id by lia. reflexivity.
Qed.

Lemma runes_ascii (s : list Z) : Forall (fun b => b < 128) s -> runes s = s.
Proof.
  intros H. induction H as [|b s Hb Hs IH]; simpl; [reflexivity|].
  destruct (Z.ltb_spec b 128) as [_|N]; [|lia]. rewrite IH. reflexivity.
Qed.

(** The function literal on an ASCII byte. *)
Lemma sanitizeRune_ascii (u : Unicode) (b : Z) :
  0 <= b < 128 ->
  (let r := sanitizeRune u b in if r <? 0 then [] else encodeRune r)
  = [if safeByte b then b else 95].
Proof.
  intros Hb. cbv zeta. unfold sanitizeRune, IsLetter, IsNumber, safeByte.
  destruct (Z.ltb_spec b 128) as [_|N]; [|lia].
  replace (inRange 128 255 b) with false
    by (symmetry; unfold inRange; apply andb_false_iff; left; apply Z.leb_gt; lia).
  rewrite orb_false_r.
  destruct (inRange 65 90 b || inRange 97 122 b || inRange 48 57 b
            || (b =? 45) || (b =? 95)).
  - destruct (Z.ltb_spec b 0) as [N|_]; [lia|]. apply encodeRune_ascii. lia.
  - reflexivity.
Qed.

Lemma strings_Map_ascii (u : Unicode) (s : list Z) :
  Forall (fun b => 0 <= b < 128) s ->
  strings_Map (sanitizeRune u) s = map (fun b => if safeByte b then b else 95) s.
Proof.
  intros H. unfold strings_Map. rewrite runes_ascii.
  2:{ eapply Forall_impl; [|exact H]. simpl. intros; lia. }
  induction H as [|b s Hb Hs IH]; [reflexivity|].
  cbn [flat_map map]. rewrite IH, sanitizeRune_ascii by exact Hb. reflexivity.
Qed.

(** X24: on a prompt of ASCII bytes the Unicode tables play no part:
    the sanitiser works byte by byte, keeping letters, digits, hyphen
    and underscore and writing an underscore for every other byte, so
    the result is as long as the prompt, up to the cut at 50 bytes; and
    sanitising a sanitised prompt changes nothing. *)
Theorem ascii_prompt_is_sanitised_bytewise (u : Unicode) (prompt : string) :
  Forall (fun b => b < 128) (codes prompt) ->
  sanitizedPrompt u prompt
  = firstn 50 (map (fun b => if safeByte b then b else 95) (codes prompt)) /\
  List.length (sanitizedPrompt u prompt) = Nat.min 50 (String.length prompt) /\
  sanitizedPrompt u (ofCodes (sanitizedPrompt u prompt)) = sanitizedPrompt u prompt.
Proof.
  intros Ha.
  assert (Trunc : forall l : list Z,
             (if 50 <? Z.of_nat (List.length l) then firstn 50 l else l) = firstn 50 l).
  { intros l. destruct (Z.ltb_spec 50 (Z.of_nat (List.length l))) as [H|H];
      [reflexivity|]. symmetry. apply firstn_all2. lia. }
  assert (Step : forall s : list Z,
             Forall (fun b => 0 <= b < 128) s ->
             (let sanitized := strings_Map (sanitizeRune u) s in
              if 50 <? Z.of_nat (List.length sanitized)
              then firstn 50 sanitized else sanitized)
             = firstn 50 (map (fun b => if safeByte b then b else 95) s)).
  { intros s Hs. cbv zeta. rewrite Trunc, strings_Map_ascii by exact Hs. reflexivity. }
  assert (Hc : Forall (fun b => 0 <= b < 128) (codes prompt)).
  { pose proof (codes_bounds prompt) as B. rewrite Forall_forall in *.
    intros b Hb. specialize (Ha b Hb). specialize (B b Hb). lia. }
  assert (E : sanitizedPrompt u prompt
              = firstn 50 (map (fun b => if safeByte b then b else 95) (codes prompt))).
  { unfold sanitizedPrompt. apply Step. exact Hc. }
  split; [exact E|]. split.
  - rewrite E, length_firstn, length_map, codes_length. reflexivity.
  - assert (G : Forall (fun b => 0 <= b < 128 /\ safeByte b = true)
                  (sanitizedPrompt u prompt)).
    { rewrite E. apply Forall_forall. intros b Hb.
      assert (Hb' : In b (map (fun b => if safeByte b then b else 95) (codes prompt))).
      { rewrite <- (firstn_skipn 50 (map _ (codes prompt))).
        apply in_or_app. left. exact Hb. }
      apply in_map_iff in Hb'. destruct Hb' as (x & <- & Hx).
      rewrite Forall_forall in Hc. specialize (Hc x Hx).
      destruct (safeByte x) eqn:Sx; [split; [lia|exact Sx]|split; [lia|reflexivity]]. }
    unfold sanitizedPrompt at 1.
    rewrite codes_ofCodes.
    2:{ eapply Forall_impl; [|exact G]. simpl. intros; lia. }
    rewrite Step.
    2:{ eapply Forall_impl; [|exact G]. simpl. intros; tauto. }
    assert (Id : forall l : list Z,
               Forall (fun b => 0 <= b < 128 /\ safeByte b = true) l ->
               map (fun b => if safeByte b then b else 95) l = l).
    { intros l Hl. induction Hl as [|b l [_ Sb] Hl IH]; simpl; [reflexivity|].
      rewrite Sb, IH. reflexivity. }
    rewrite (Id _ G). apply firstn_all2.
    apply sanitizedPrompt_short.
Qed.

Lemma ascii_prompt_is_sanitised_bytewise_witness :
  List.length (sanitizedPrompt asciiOnly "a red fox") = 9%nat /\
  sanitizedPrompt asciiOnly (ofCodes (sanitizedPrompt asciiOnly "a red fox"))
  = sanitizedPrompt asciiOnly "a red fox".
Proof.
  assert (Ha : Forall (fun b => b < 128) (codes "a red fox"))
    by (repeat constructor).
  exact (proj2 (ascii_prompt_is_sanitised_bytewise asciiOnly "a red fox" Ha)).
Defined.

(** ** The previous revision of the session *)

Section Previous.
Context `{W : Widgets}.
Variable save : bytes -> string -> string * option Failure.

Lemma legacy_afterSwitch_fields (m : Legacy.model) (msg : Msg) :
  let m' := fst (Legacy.afterSwitch m msg) in
  Legacy.prompt m' = Legacy.prompt m /\ Legacy.image m' = Legacy.image m /\
  Legacy.err m' = Legacy.err m /\ Legacy.inputMode m' = Legacy.inputMode m /\
  Legacy.buttonMode m' = Legacy.buttonMode m /\ Legacy.cfg m' = Legacy.cfg m /\
  Legacy.generating m' = Legacy.generating m /\ Legacy.saved m' = Legacy.saved m.
Proof.
  unfold Legacy.afterSwitch.
  destruct (textinput_Update (Legacy.textInput m) msg) as [ti c].
  destruct (spinner_Update (Legacy.spinner m) msg) as [sp c'].
  simpl. repeat split; reflexivity.
Qed.

Lemma legacy_step_button (m : Legacy.model) (msg : Msg) :
  0 <= Legacy.buttonMode m <= 2 ->
  0 <= Legacy.buttonMode (fst (Legacy.Update save m msg)) <= 2.
Proof.
  intros H. unfold Legacy.Update.
  destruct msg as [w h|k|x y b|data|e|s|t];
    repeat match goal with
           | |- context [if ?c then _ else _] => destruct c
           | |- context [let '(_, _) := save ?a ?b in _] => destruct (save a b)
           end;
    try (simpl; exact H);
    rewrite (proj1 (proj2 (proj2 (proj2 (proj2 (legacy_afterSwitch_fields _ _))))));
    simpl; try exact H.
  pose proof (Z.rem_bound_pos (Legacy.buttonMode m + 1) 3 ltac:(lia) ltac:(lia)). lia.
Qed.

(** X25: in the previous revision the button selection is 0 (none), 1
    (download) or 2 (regenerate) in every session reached from the
    start, whatever messages arrive. *)
Theorem previous_button_stays_in_range (c : Legacy.config) (msgs : list Msg) :
  0 <= Legacy.buttonMode
         (fold_left (fun m msg => fst (Legacy.Update save m msg)) msgs
            (Legacy.initialModel c)) <= 2.
Proof.
  assert (G : forall (l : list Msg) (m : Legacy.model),
             0 <= Legacy.buttonMode m <= 2 ->
             0 <= Legacy.buttonMode
                    (fold_left (fun m msg => fst (Legacy.Update save m msg)) l m) <= 2).
  { induction l as [|msg l IH]; intros m H; simpl; [exact H|].
    apply IH. apply legacy_step_button. exact H. }
  apply G. simpl. lia.
Qed.

(** X26: in the previous revision the download button works before any
    image has arrived.  Outside prompt entry, with no button selected
    and the nil image, Tab then Enter calls [saveImage] on the nil
    image under the session's prompt, stores its file name and its
    error, and quits; no job is dispatched.  (The current revision
    ignores both keys in that state.) *)
Theorem previous_revision_saves_without_image (old : Legacy.model) :
  Legacy.inputMode old = false ->
  Legacy.buttonMode old = 0 ->
  Legacy.image old = None ->
  let selected := fst (Legacy.Update save old (KeyMsg "tab")) in
  Legacy.buttonMode selected = 1 /\
  snd (Legacy.Update save selected (KeyMsg "enter")) = Legacy.Quit /\
  Legacy.saved (fst (Legacy.Update save selected (KeyMsg "enter")))
  = fst (save None (Legacy.prompt old)) /\
  Legacy.err (fst (Legacy.Update save selected (KeyMsg "enter")))
  = snd (save None (Legacy.prompt old)) /\
  Legacy.image (fst (Legacy.Update save selected (KeyMsg "enter"))) = None.
Proof.
  intros Hi Hb Himg. cbv zeta.
  assert (T : Legacy.Update save old (KeyMsg "tab")
              = Legacy.afterSwitch
                  (Legacy.mkModel (Legacy.prompt old) (Legacy.image old) (Legacy.err old)
                     (Legacy.inputMode old) (Legacy.cursorPos old)
                     (Z.rem (Legacy.buttonMode old + 1) 3) (Legacy.textInput old)
                     (Legacy.viewport old) (Legacy.width old) (Legacy.height old)
                     (Legacy.spinner old) (Legacy.generating old) (Legacy.cfg old)
                     (Legacy.saved old) (Legacy.regenerating old))
                  (KeyMsg "tab")).
  { unfold Legacy.Update. simpl. rewrite Hi. reflexivity. }
  rewrite T.
  match goal with
  | |- context [Legacy.afterSwitch ?m ?msg] =>
      pose proof (legacy_afterSwitch_fields m msg) as F; cbv zeta in F;
      destruct F as (Fp & Fimg & Fe & Fi & Fb & Fc & Fg & Fs);
      generalize dependent (fst (Legacy.afterSwitch m msg))
  end.
  intros selected Fp Fimg Fe Fi Fb Fc Fg Fs. simpl in *.
  rewrite Hb in Fb. change (Z.rem (0 + 1) 3) with 1 in Fb.
  split; [exact Fb|].
  unfold Legacy.Update. simpl. rewrite Fi, Hi, Fb. simpl.
  rewrite Fimg, Himg, Fp.
  destruct (save None (Legacy.prompt old)) as [name e]. simpl.
  repeat split; reflexivity.
Qed.

End Previous.

Lemma previous_revision_saves_without_image_witness :
  snd (Legacy.Update (fun _ _ => ("fox.png", None))
         (fst (Legacy.Update (fun _ _ => ("fox.png", None))
                 (fst (Legacy.Update (fun _ _ => ("fox.png", None)) oldStart
                         (KeyMsg "enter")))
                 (KeyMsg "tab")))
         (KeyMsg "enter")) = Legacy.Quit.
Proof.
  exact (proj1 (proj2 (previous_revision_saves_without_image
                         (fun _ _ => ("fox.png", None))
                         (fst (Legacy.Update (fun _ _ => ("fox.png", None)) oldStart
                                 (KeyMsg "enter")))
                         eq_refl eq_refl eq_refl))).
Defined.

(** ** The driver's answer in the session *)

Section Settle.
Context `{W : Widgets}.
Variable disk : Disk.

Lemma returned_message
    (key : string) (net : Network) (prompt : string) (c : config) (msg : Msg) :
  outcome (generateImage key net prompt c) = Returned msg ->
  (exists e, msg = ErrorMsg e) \/ (exists data, msg = BytesMsg (Some data)).
Proof.
  intros Ho.
  destruct (generateImage_protocol key net prompt c)
    as [(_ & R)|[(_ & _ & R)|(_ & _ & url & body & pending & used & tail & _ & _ & _ & _ & _ & M)]].
  - rewrite R in Ho. injection Ho as <-. left. eauto.
  - rewrite R in Ho. injection Ho as <-. left. eauto.
  - rewrite Ho in M. destruct msg as [w h|k|x y b|d|e|s|t]; try contradiction.
    + destruct M as (_ & final & u & data & _ & _ & _ & _ & -> & _). right. eauto.
    + left. eauto.
Qed.

(** X27: whatever a run of the driver returns settles the session that
    waits for it.  The message is an error or a non-nil byte slice,
    never anything else; delivered to a session outside prompt entry it
    ends the loading state, and the session is then displaying the
    delivered image, or failed: failed exactly when the message is an
    error or an error was already stored. *)
Theorem job_outcome_settles_session
    (m : newModel) (key : string) (net : Network) (prompt : string) (c : config)
    (msg : Msg) :
  outcome (generateImage key net prompt c) = Returned msg ->
  inputMode m = false ->
  msg <> BytesMsg None /\
  generating (step disk m msg) = false /\
  (mode (step disk m msg) = Displaying \/ mode (step disk m msg) = Failed) /\
  (mode (step disk m msg) = Failed <-> err m <> None \/ exists e, msg = ErrorMsg e) /\
  (mode (step disk m msg) = Displaying ->
   exists data, msg = BytesMsg (Some data) /\ imageData (step disk m msg) = Some data).
Proof.
  intros Ho Hi.
  destruct (returned_message key net prompt c msg Ho) as [[e ->]|[data ->]].
  - split; [discriminate|]. unfold step, Update, mode. simpl.
    split; [reflexivity|]. split; [right; reflexivity|]. split.
    + split; [intros _; right; eauto|reflexivity].
    + discriminate.
  - split; [discriminate|]. unfold step, Update, mode. simpl. rewrite Hi.
    split; [reflexivity|].
    destruct (err m) as [e|].
    + split; [right; reflexivity|]. split.
      * split; [intros _; left; discriminate|reflexivity].
      * discriminate.
    + split; [left; reflexivity|]. split.
      * split; [discriminate|]. intros [H|[e H]]; [contradiction|discriminate].
      * intros _. exists data. split; reflexivity.
Qed.

End Settle.

Lemma job_outcome_settles_session_witness :
  mode (step plainDisk foxGenerating (BytesMsg (Some [x01; x02]))) = Displaying \/
  mode (step plainDisk foxGenerating (BytesMsg (Some [x01; x02]))) = Failed.
Proof.
  exact (proj1 (proj2 (proj2
           (job_outcome_settles_session plainDisk foxGenerating "" twoPolls "a red fox"
              foxConfig (BytesMsg (Some [x01; x02])) eq_refl eq_refl)))).
Defined.
